(** * Seed-data generator for a project-management store: model and properties

    A shallow embedding of the generation engine ([utils/dates.py],
    [utils/helpers.py], the generators, the template fallback of
    [utils/llm.py], [scrapers/company_scraper.py] and [main.py]) together
    with the properties the design document states about it.

    Conventions of the model.
    - A naive [datetime] is the number of microseconds elapsed since
      0001-01-01T00:00:00 (a Monday), a [timedelta] a number of
      microseconds.  Python's datetimes end with the year 9999: a sum of a
      datetime and a timedelta that leaves the years 1 to 9999 raises
      [OverflowError] ([add_timedelta]).  Where a sum is bounded by dates
      already at hand ([random_date], the loop of [random_weekday_date]) it
      is taken without the check.
    - [isoformat] / [fromisoformat] round-trip naive datetimes, so the
      records keep timestamps as [datetime] values instead of ISO strings.
    - A float is the rational it denotes.  Where the source turns a float
      into an integer ([int(...)] of a product or of a number of seconds) the
      operation is rounded to binary64 first ([b64]); probabilities, weights
      and the draws compared with them are exact rationals, and a total of
      weights past the largest float is no finite float ([isfinite]).
    - The sources of randomness are explicit tapes: one for the [random]
      module (the only one [random.seed] resets), one for numpy's global
      generator, one for the operating-system entropy behind [uuid.uuid4]
      and one for the names Faker hands out.  Every primitive call consumes
      one cell of its tape and maps it onto the primitive's range, so every
      outcome of the primitive is the image of some tape.  A tape that runs
      out keeps delivering zeros. *)

From Stdlib Require Import ZArith QArith Qround Lia Lqa Ascii.
From stdpp Require Import base option list sorting strings pretty gmap.

Local Open Scope Z_scope.

(** ** Outcomes, state and sequencing *)

Inductive exn : Type :=
  | ValueError
  | IndexError
  | OverflowError.

(** [Diverges] is the outcome of a loop that is still running when its fuel
    is spent. *)
Inductive outcome (A : Type) : Type :=
  | Returns (a : A)
  | Raises (e : exn)
  | Diverges.
Arguments Returns {A} a.
Arguments Raises {A} e.
Arguments Diverges {A}.

(** A computation over a state [S].  The state reached when an exception is
    raised is kept: effects that happened before the exception stay. *)
Definition M (S A : Type) : Type := S -> outcome A * S.

Definition ret {S A} (a : A) : M S A := fun s => (Returns a, s).

Definition raise {S A} (e : exn) : M S A := fun s => (Raises e, s).

Definition bind {S A B} (m : M S A) (k : A -> M S B) : M S B :=
  fun s =>
    match m s with
    | (Returns a, s') => k a s'
    | (Raises e, s') => (Raises e, s')
    | (Diverges, s') => (Diverges, s')
    end.

(** A result computed without touching the state *)
Definition lift_outcome {S A} (r : outcome A) : M S A := fun s => (r, s).

Declare Scope gen_scope.
Delimit Scope gen_scope with gen.
Notation "'let*' x ':=' m 'in' k" := (bind m (fun x => k))
  (at level 10, x pattern, m at level 100, k at level 200) : gen_scope.
Local Open Scope gen_scope.

(** [for x in xs: acc = body(acc, x)] *)
Fixpoint foldM {S A B} (body : B -> A -> M S B) (acc : B) (xs : list A) : M S B :=
  match xs with
  | [] => ret acc
  | x :: xs' => let* acc' := body acc x in foldM body acc' xs'
  end.

(** [[f(x) for x in xs]], evaluated left to right *)
Fixpoint mapM {S A B} (f : A -> M S B) (xs : list A) : M S (list B) :=
  match xs with
  | [] => ret []
  | x :: xs' => let* y := f x in let* ys := mapM f xs' in ret (y :: ys)
  end.

(** [for _ in range(n): out.append(m())] *)
Fixpoint replicateM {S A} (n : nat) (m : M S A) : M S (list A) :=
  match n with
  | O => ret []
  | Datatypes.S n' => let* y := m in let* ys := replicateM n' m in ret (y :: ys)
  end.

(** ** The sources of randomness *)

Record world : Type := mkWorld {
  py_random : list Z;        (* the [random] module's stream *)
  np_random : list Q;        (* numpy's global generator *)
  os_urandom : list Z;       (* bytes of [os.urandom] *)
  faker_names : list string  (* successive results of [Faker().name()] *)
}.

Definition Gen (A : Type) : Type := M world A.

Definition next_raw : Gen Z := fun w =>
  match py_random w with
  | [] => (Returns 0, w)
  | z :: t => (Returns z, mkWorld t (np_random w) (os_urandom w) (faker_names w))
  end.

Definition next_np : Gen Q := fun w =>
  match np_random w with
  | [] => (Returns 1%Q, w)
  | x :: t => (Returns x, mkWorld (py_random w) t (os_urandom w) (faker_names w))
  end.

Definition next_byte : Gen Z := fun w =>
  match os_urandom w with
  | [] => (Returns 0, w)
  | b :: t => (Returns (b mod 256), mkWorld (py_random w) (np_random w) t (faker_names w))
  end.

Definition next_name : Gen string := fun w =>
  match faker_names w with
  | [] => (Returns "Jane Doe"%string, w)
  | n :: t => (Returns n, mkWorld (py_random w) (np_random w) (os_urandom w) t)
  end.

(** *** Rationals standing for floats *)

Definition Qltb (x y : Q) : bool := Qnum x * QDen y <? Qnum y * QDen x.
Definition Qleb (x y : Q) : bool := Qnum x * QDen y <=? Qnum y * QDen x.
Definition Qgtb (x y : Q) : bool := Qltb y x.

(** [int(x)] on a float: truncation towards zero *)
Definition int_of_float (x : Q) : Z :=
  if Qltb x 0 then Qceiling x else Qfloor x.

(** *** Rounding to binary64 *)

(** [a / b] rounded to the nearest integer, a tie going to the even one
    ([0 < b]) *)
Definition round_half_even (a b : Z) : Z :=
  let q := a / b in
  let r := a mod b in
  if 2 * r <? b then q
  else if b <? 2 * r then q + 1
  else if Z.even q then q else q + 1.

(** The float nearest to [n / d], for positive [n] and [d]: a significand
    [m] of 53 bits at the exponent [e] for which
    [2^52 <= (n / d) / 2^e < 2^53].  The exponent range is not modelled (no
    overflow to infinity, no subnormals): what is rounded here are counts
    and numbers of seconds. *)
Definition b64_pos (n d : Z) : Q :=
  let k := Z.log2 n - Z.log2 d in
  let k := if n * 2 ^ Z.max 0 (- k) <? d * 2 ^ Z.max 0 k then k - 1 else k in
  let e := k - 52 in
  let m := round_half_even (n * 2 ^ Z.max 0 (- e)) (d * 2 ^ Z.max 0 e) in
  if 0 <=? e then inject_Z (m * 2 ^ e) else Qmake m (Z.to_pos (2 ^ (- e))).

(** The result of a float operation whose exact result is [x]; also the
    value of a literal that reads [x], and of [float(n)] for an integer *)
Definition b64 (x : Q) : Q :=
  match Qnum x with
  | Z0 => 0
  | Zpos n => b64_pos (Zpos n) (Zpos (Qden x))
  | Zneg n => - b64_pos (Zpos n) (Zpos (Qden x))
  end.

(** *** The [random] module *)

(** [random.random()]: a multiple of 2^-53 in [0, 1) *)
Definition random : Gen Q :=
  let* z := next_raw in ret (Qmake (z mod 2 ^ 53) (2 ^ 53)%positive).

(** [random.randrange(n)] *)
Definition randrange (n : Z) : Gen Z :=
  if n <=? 0 then raise ValueError
  else let* z := next_raw in ret (z mod n).

(** [random.randint(a, b)], which is [randrange(a, b + 1)] *)
Definition randint (a b : Z) : Gen Z :=
  if b + 1 - a <=? 0 then raise ValueError
  else let* z := next_raw in ret (a + z mod (b + 1 - a)).

(** [random.uniform(a, b)] *)
Definition uniform (a b : Q) : Gen Q :=
  let* r := random in ret (a + (b - a) * r)%Q.

(** [random.choice(seq)] *)
Definition choice {A} (seq : list A) : Gen A :=
  match seq with
  | [] => raise IndexError
  | x :: _ =>
      let* z := next_raw in
      ret (nth (Z.to_nat (z mod Z.of_nat (length seq))) seq x)
  end.

(** [itertools.accumulate(weights)] *)
Fixpoint accumulate (acc : Q) (ws : list Q) : list Q :=
  match ws with
  | [] => []
  | w :: ws' => (acc + w)%Q :: accumulate (acc + w)%Q ws'
  end.

(** [bisect(cum, x, 0, hi)] on an ascending [cum]: how many of its first
    [hi] entries are at most [x] *)
Fixpoint bisect (cum : list Q) (x : Q) (hi : nat) : nat :=
  match hi, cum with
  | Datatypes.S hi', c :: cum' =>
      if Qleb c x then Datatypes.S (bisect cum' x hi') else O
  | _, _ => O
  end.

(** The least magnitude that is no finite float any more: half a step past
    the largest float, from where on a sum is rounded to an infinity *)
Definition float_overflow : Q := inject_Z (2 ^ 1024 - 2 ^ 970).

(** [math.isfinite(x)] of a sum of floats *)
Definition isfinite (x : Q) : bool :=
  Qltb (- float_overflow) x && Qltb x float_overflow.

(** [random.choices(population, weights=weights, k=1)[0]].  The total is the
    last cumulative weight; it must be positive and finite.  A cumulative
    weight that has left the floats stays an infinity or turns into a nan,
    and so does the total: the total is finite when every cumulative weight
    is. *)
Definition choices1 {A} (population : list A) (weights : list Q) : Gen A :=
  let cum_weights := accumulate 0 weights in
  if negb (length cum_weights =? length population)%nat then raise ValueError
  else
    match population with
    | [] => raise IndexError
    | x :: _ =>
        let total := default 0%Q (last cum_weights) in
        if Qleb total 0 then raise ValueError
        else if negb (forallb isfinite cum_weights) then raise ValueError
        else
          let* r := random in
          ret (nth (bisect cum_weights (r * total)%Q (length population - 1))
                   population x)
    end.

(** [random.sample(population, k)]: the pool algorithm, which draws an index
    below the number of remaining candidates, takes that candidate and moves
    the last remaining one into its slot.  (On large populations CPython
    draws distinct indices by rejection instead; the results are of the same
    kind: [k] elements taken at pairwise distinct positions.) *)
Fixpoint sample_pool {A} (k : nat) (pool : list A) : Gen (list A) :=
  match k with
  | O => ret []
  | Datatypes.S k' =>
      match pool with
      | [] => ret []
      | x :: _ =>
          let n := length pool in
          let* z := next_raw in
          let j := Z.to_nat (z mod Z.of_nat n) in
          let picked := nth j pool x in
          let pool' := take (n - 1) (<[j := nth (n - 1) pool x]> pool) in
          let* rest := sample_pool k' pool' in
          ret (picked :: rest)
      end
  end.

Definition sample {A} (population : list A) (k : Z) : Gen (list A) :=
  if (k <? 0) || (Z.of_nat (length population) <? k) then raise ValueError
  else sample_pool (Z.to_nat k) population.

(** [np.random.lognormal(mean=2.0, sigma=0.8)]: some float from numpy's own
    generator *)
Definition lognormal : Gen Q := next_np.

(** ** Dates *)

Abbreviation datetime := Z (only parsing).
Abbreviation timedelta := Z (only parsing).

Definition us_per_second : Z := 1000000.
Definition us_per_day : Z := 86400 * us_per_second.

(** [timedelta(days=n)] and [timedelta(seconds=n)] *)
Definition days (n : Z) : timedelta := n * us_per_day.
Definition seconds (n : Z) : timedelta := n * us_per_second.

(** [td.days]: a normalised timedelta keeps the floor of the day count *)
Definition td_days (td : timedelta) : Z := td / us_per_day.

(** [td.total_seconds()]: the microseconds divided by [10**6], as a float *)
Definition total_seconds (td : timedelta) : Q := b64 (Qmake td 1000000).

(** [dt.weekday()]: Monday is 0, Sunday is 6 *)
Definition weekday (dt : datetime) : Z := (dt / us_per_day) mod 7.

(** Calendar dates, as [datetime(y, m, d, hh, mm, ss)] builds them
    (proleptic Gregorian ordinal, 0001-01-01 being day 1). *)
Definition is_leap (y : Z) : bool :=
  (y mod 4 =? 0) && (negb (y mod 100 =? 0) || (y mod 400 =? 0)).

Definition days_before_year (y : Z) : Z :=
  let p := y - 1 in p * 365 + p / 4 - p / 100 + p / 400.

Definition days_before_month (y m : Z) : Z :=
  nth (Z.to_nat (m - 1)) [0; 31; 59; 90; 120; 151; 181; 212; 243; 273; 304; 334] 0
  + (if (2 <? m) && is_leap y then 1 else 0).

Definition ymd2ord (y m d : Z) : Z :=
  days_before_year y + days_before_month y m + d.

Definition mk_datetime (y m d hh mm ss : Z) : datetime :=
  days (ymd2ord y m d - 1) + seconds (hh * 3600 + mm * 60 + ss).

(** [datetime.min] and [datetime.max] *)
Definition datetime_min : datetime := 0.
Definition datetime_max : datetime := mk_datetime 9999 12 31 23 59 59 + 999999.

(** A datetime is a date of the years 1 to 9999; arithmetic that leaves them
    raises [OverflowError]. *)
Definition checked_date (dt : Z) : outcome datetime :=
  if (dt <? datetime_min) || (datetime_max <? dt) then Raises OverflowError
  else Returns dt.

(** [dt + td], and [dt - td] as [add_timedelta dt (- td)] *)
Definition add_timedelta {S} (dt : datetime) (td : timedelta) : M S datetime :=
  lift_outcome (checked_date (dt + td)).

(** *** [utils/dates.py] *)

(** The date returned lies from [start_date] on and below [end_date]: the
    sum cannot leave the years of its arguments. *)
Definition random_date (start_date end_date : datetime) : Gen datetime :=
  let time_between := end_date - start_date in
  let days_between := td_days time_between in
  let* random_days := randrange days_between in
  ret (start_date + days random_days).

(** The [while date.weekday() >= 5] loop of [random_weekday_date].  A date
    is moved forward only below [end_date], and back only from a weekend,
    which is five days past [datetime.min] at least. *)
Fixpoint weekday_loop (fuel : nat) (end_date date : datetime) : outcome datetime :=
  if 5 <=? weekday date then
    match fuel with
    | O => Diverges
    | Datatypes.S fuel' =>
        if date <? end_date - days 2
        then weekday_loop fuel' end_date (date + days 1)
        else weekday_loop fuel' end_date (date - days 1)
    end
  else Returns date.

Definition random_weekday_date (fuel : nat) (start_date end_date : datetime)
  : Gen datetime :=
  let* date := random_date start_date end_date in
  lift_outcome (weekday_loop fuel end_date date).

(** The [while due_date.weekday() >= 5: due_date -= 1 day] loop *)
Fixpoint back_to_weekday (fuel : nat) (due_date : datetime) : outcome datetime :=
  if 5 <=? weekday due_date then
    match fuel with
    | O => Diverges
    | Datatypes.S fuel' =>
        match checked_date (due_date - days 1) with
        | Returns due_date => back_to_weekday fuel' due_date
        | Raises e => Raises e
        | Diverges => Diverges
        end
    end
  else Returns due_date.

(** The [distribution] argument: ["realistic"], or anything else *)
Inductive distribution : Type := Realistic | Uniform.

Definition generate_due_date (created_at end_date : datetime) (dist : distribution)
  : Gen (option datetime) :=
  let* draw :=
    match dist with
    | Realistic =>
        let* rand := random in
        if Qltb rand 0.10 then ret None
        else if Qltb rand 0.35 then let* d := randint 1 7 in ret (Some d)
        else if Qltb rand 0.75 then let* d := randint 8 30 in ret (Some d)
        else if Qltb rand 0.95 then let* d := randint 31 90 in ret (Some d)
        else let* d := randint (-14) (-1) in ret (Some d)
    | Uniform => let* d := randint 1 90 in ret (Some d)
    end in
  match draw with
  | None => ret None
  | Some days_ahead =>
      let* due_date := add_timedelta created_at (days days_ahead) in
      let* due_date :=
        if end_date <? due_date then ret end_date
        else
          let* earliest := add_timedelta created_at (- days 30) in
          if due_date <? earliest then add_timedelta created_at (days 1)
          else ret due_date in
      let* r := random in
      if Qltb r 0.85 then
        (* two steps back leave any weekend: see [back_to_weekday_returns] *)
        let* due_date := lift_outcome (back_to_weekday 2 due_date) in
        ret (Some due_date)
      else ret (Some due_date)
  end.

Definition generate_completion_date (created_at : datetime) (due_date : option datetime)
    (completed : bool) (end_date : datetime) : Gen (option datetime) :=
  if negb completed then ret None
  else
    let* x := lognormal in
    let cycle_days := Z.max 1 (int_of_float x) in
    let cycle_days := Z.min cycle_days 60 in
    let* completed_at := add_timedelta created_at (days cycle_days) in
    let* completed_at :=
      if completed_at <? created_at then add_timedelta created_at (days 1)
      else ret completed_at in
    let completed_at :=
      if end_date <? completed_at then end_date else completed_at in
    match due_date with
    | Some due =>
        let* r := random in
        if Qltb r 0.7 then
          let* variance := randint (-3) 7 in
          let* completed_at := add_timedelta due (days variance) in
          let* next_day := add_timedelta created_at (days 1) in
          let completed_at := Z.max completed_at next_day in
          let completed_at := Z.min completed_at end_date in
          ret (Some completed_at)
        else ret (Some completed_at)
    | None => ret (Some completed_at)
    end.

(** One iteration of the loop of [generate_creation_times] *)
Definition creation_time (start_date end_date : datetime) (time_span : Q)
  : Gen datetime :=
  let* random_seconds := randint 0 (int_of_float time_span) in
  let* dt := add_timedelta start_date (seconds random_seconds) in
  if weekday dt <? 3 then
    let* _ := random in ret dt
  else if 5 <=? weekday dt then
    let* r := random in
    if Qgtb r 0.2 then
      let days_to_add := (7 - weekday dt) mod 7 in
      let days_to_add := if days_to_add =? 0 then 1 else days_to_add in
      let* dt := add_timedelta dt (days days_to_add) in
      if end_date <? dt then add_timedelta dt (- days 7) else ret dt
    else ret dt
  else ret dt.

Definition generate_creation_times (start_date end_date : datetime) (count : Z)
  : Gen (list datetime) :=
  let time_span := total_seconds (end_date - start_date) in
  let* times := replicateM (Z.to_nat count) (creation_time start_date end_date time_span) in
  ret (merge_sort Z.le times).

(** ** Strings *)

Local Open Scope string_scope.
Local Open Scope list_scope.
Local Open Scope Z_scope.
Local Open Scope gen_scope.

(** [str.lower()] on ASCII text *)
Definition ascii_lower (a : ascii) : ascii :=
  let n := nat_of_ascii a in
  if (65 <=? n)%nat && (n <=? 90)%nat then ascii_of_nat (n + 32) else a.

Fixpoint lower (s : string) : string :=
  match s with
  | EmptyString => EmptyString
  | String a s' => String (ascii_lower a) (lower s')
  end.

(** The ASCII characters [str.split()] and [str.strip()] treat as blank *)
Definition py_isspace (a : ascii) : bool :=
  let n := nat_of_ascii a in
  ((9 <=? n)%nat && (n <=? 13)%nat) || ((28 <=? n)%nat && (n <=? 32)%nat).

(** [s.split()]: the maximal runs of non-blank characters *)
Fixpoint split_go (cur : string) (s : string) : list string :=
  match s with
  | EmptyString => if decide (cur = "") then [] else [cur]
  | String a s' =>
      if py_isspace a
      then (if decide (cur = "") then [] else [cur]) ++ split_go "" s'
      else split_go (cur +:+ String a "") s'
  end.

Definition split (s : string) : list string := split_go "" s.

(** [needle in haystack] *)
Definition contains (needle haystack : string) : bool :=
  match String.index 0 needle haystack with
  | Some _ => true
  | None => false
  end.

(** ** [utils/helpers.py] *)

Definition hex_digit (d : Z) : ascii :=
  nth (Z.to_nat d)
    ["0"; "1"; "2"; "3"; "4"; "5"; "6"; "7"; "8"; "9";
     "a"; "b"; "c"; "d"; "e"; "f"]%char "0"%char.

(** ['%0*x' % (width, n)] *)
Fixpoint hex (width : nat) (n : Z) : string :=
  match width with
  | O => ""
  | Datatypes.S w => hex w (n / 16) +:+ String (hex_digit (n mod 16)) ""
  end.

(** [int.from_bytes(bs, 'big')] *)
Definition int_from_bytes (bs : list Z) : Z :=
  fold_left (fun acc b => acc * 256 + b) bs 0.

(** [uuid.uuid4().int]: sixteen bytes of operating-system entropy, with the
    variant and version bits forced as [UUID.__init__] does for version 4 *)
Definition uuid4 : Gen Z :=
  let* bs := replicateM 16 next_byte in
  let i := int_from_bytes bs in
  let i := Z.land i (Z.lnot (Z.shiftl 0xc000 48)) in
  let i := Z.lor i (Z.shiftl 0x8000 48) in
  let i := Z.land i (Z.lnot (Z.shiftl 0xf000 64)) in
  let i := Z.lor i (Z.shiftl 4 76) in
  ret i.

(** [str(uuid.uuid4()).replace('-', '')]: the 32 hex digits of the UUID *)
Definition generate_id : Gen string :=
  let* i := uuid4 in ret (hex 32 i).

(** ** Entity records *)

Module Organization.
Record t : Type := mk {
  organization_id : string;
  name : string;
  domain : string;
  created_at : datetime
}.
End Organization.

Module User.
Record t : Type := mk {
  user_id : string;
  organization_id : string;
  email : string;
  name : string;
  role : string;
  department : string;
  created_at : datetime
}.
End User.

Module Team.
Record t : Type := mk {
  team_id : string;
  organization_id : string;
  name : string;
  description : string;
  created_at : datetime
}.
End Team.

Module Membership.
Record t : Type := mk {
  membership_id : string;
  team_id : string;
  user_id : string;
  role : string;
  joined_at : datetime
}.
End Membership.

(** ** [generators/users.py] *)

Definition departments : list string :=
  ["Engineering"; "Marketing"; "Operations"; "Sales"; "Product"; "Design";
   "Customer Success"].

Definition department_weights : list Q :=
  [0.40; 0.25; 0.20; 0.15; 0.10; 0.08; 0.07]%Q.

(** [roles.get(dept, ["Team Member"])] *)
Definition roles (dept : string) : list string :=
  if decide (dept = "Engineering") then
    ["Software Engineer"; "Senior Engineer"; "Staff Engineer";
     "Engineering Manager"; "Tech Lead"]
  else if decide (dept = "Marketing") then
    ["Marketing Manager"; "Content Manager"; "Growth Marketing";
     "Brand Manager"; "Marketing Analyst"]
  else if decide (dept = "Operations") then
    ["Operations Manager"; "Business Analyst"; "Operations Coordinator";
     "VP Operations"]
  else if decide (dept = "Sales") then
    ["Sales Representative"; "Account Executive"; "Sales Manager"; "VP Sales"]
  else if decide (dept = "Product") then
    ["Product Manager"; "Senior Product Manager"; "Product Lead"]
  else if decide (dept = "Design") then
    ["Product Designer"; "UX Designer"; "Design Lead"]
  else if decide (dept = "Customer Success") then
    ["Customer Success Manager"; "Support Engineer"; "CS Lead"]
  else ["Team Member"].

(** [f"{first_name}.{last_name}@{domain}"] and
    [f"{first_name}.{last_name}{suffix}@{domain}"] *)
Definition base_email (first_name last_name domain : string) : string :=
  first_name +:+ "." +:+ last_name +:+ "@" +:+ domain.

Definition suffixed_email (first_name last_name : string) (suffix : Z)
    (domain : string) : string :=
  first_name +:+ "." +:+ last_name +:+ pretty suffix +:+ "@" +:+ domain.

(** The [while email in used_emails] loop *)
Fixpoint email_loop (fuel : nat) (used_emails : gset string)
    (first_name last_name domain : string) (suffix : Z) (email : string)
  : outcome string :=
  if decide (email ∈ used_emails) then
    match fuel with
    | O => Diverges
    | Datatypes.S fuel' =>
        let suffix := suffix + 1 in
        email_loop fuel' used_emails first_name last_name domain suffix
          (suffixed_email first_name last_name suffix domain)
    end
  else Returns email.

(** The body of the loop over the sorted creation times.  The [while] loop
    runs on a fuel of one more than the number of addresses in use, which
    always suffices (see [email_loop_returns]). *)
Definition generate_user (org_id domain : string)
    (acc : list User.t * gset string) (created_at : datetime)
  : Gen (list User.t * gset string) :=
  let '(users, used_emails) := acc in
  let* name := next_name in
  let* dept := choices1 departments (take (length departments) department_weights) in
  let* role := choice (roles dept) in
  match split name with
  | [] => raise IndexError
  | first :: rest =>
      let first_name := lower first in
      let last_name :=
        if (1 <? length (split name))%nat then lower (List.last rest first) else "" in
      let email := base_email first_name last_name domain in
      let* email :=
        lift_outcome
          (email_loop (Datatypes.S (size used_emails)) used_emails
             first_name last_name domain 1 email) in
      let used_emails := used_emails ∪ {[email]} in
      let* uid := generate_id in
      let user := User.mk uid org_id email name role dept created_at in
      ret (users ++ [user], used_emails)
  end.

Definition generate_users (count : Z) (org_id : string)
    (start_date end_date : datetime) : Gen (list User.t) :=
  let domain := "acme.com" in
  let* creation_times :=
    replicateM (Z.to_nat count) (random_date start_date end_date) in
  let creation_times := merge_sort Z.le creation_times in
  let* (users, _) := foldM (generate_user org_id domain) ([], ∅) creation_times in
  ret users.

(** ** [generators/teams.py] *)

Definition TEAM_NAME_TEMPLATES : list string :=
  ["Product Engineering"; "Platform Team"; "Frontend Team"; "Backend Services";
   "Infrastructure"; "Data Engineering"; "Mobile Engineering"; "QA & Testing";
   "Product Marketing"; "Growth Marketing"; "Content Marketing";
   "Brand Marketing"; "Demand Generation"; "Sales Operations";
   "Customer Success"; "Support Engineering"; "Product Management";
   "UX Design"; "DevOps"; "Security"; "Finance"; "People Operations"; "Legal";
   "Business Operations"].

Definition generate_teams (count : Z) (org_id : string)
    (start_date end_date : datetime) : Gen (list Team.t) :=
  let n := Z.of_nat (length TEAM_NAME_TEMPLATES) in
  let* selected_names := sample TEAM_NAME_TEMPLATES (Z.min count n) in
  let selected_names :=
    if n <? count then
      selected_names
      ++ map (fun i => "Team " +:+ pretty (Z.of_nat i + 1))
           (seq 0 (Z.to_nat (count - n)))
    else selected_names in
  mapM (fun name =>
          let* created_at := random_date start_date end_date in
          let* tid := generate_id in
          ret (Team.mk tid org_id name
                 (name +:+ " team responsible for core initiatives.") created_at))
       (take (Z.to_nat count) selected_names).

(** ** [main.py]: the team memberships *)

(** The body of the loop over the teams *)
Definition team_memberships (users : list User.t)
    (acc : list Membership.t * gmap string (list string)) (team : Team.t)
  : Gen (list Membership.t * gmap string (list string)) :=
  let '(memberships, team_memberships_dict) := acc in
  let team_id := Team.team_id team in
  let* rand := random in
  let* team_size :=
    if Qltb rand 0.40 then randint 3 7
    else if Qltb rand 0.80 then randint 8 15
    else randint 16 30 in
  let* team_users := sample users (Z.min team_size (Z.of_nat (length users))) in
  let team_memberships_dict :=
    <[team_id := map User.user_id team_users]> team_memberships_dict in
  let* new :=
    mapM (fun user =>
            let* mid := generate_id in
            let* r := random in
            ret (Membership.mk mid team_id (User.user_id user)
                   (if Qgtb r 0.1 then "member" else "admin")
                   (User.created_at user)))
         team_users in
  ret (memberships ++ new, team_memberships_dict).

Definition generate_team_memberships (teams : list Team.t) (users : list User.t)
    (team_memberships_dict : gmap string (list string))
  : Gen (list Membership.t * gmap string (list string)) :=
  foldM (team_memberships users) ([], team_memberships_dict) teams.

(** ** [utils/llm.py] *)

(** [s.strip()] on ASCII text *)
Fixpoint lstrip (s : string) : string :=
  match s with
  | String a s' => if py_isspace a then lstrip s' else s
  | EmptyString => EmptyString
  end.

Definition strip (s : string) : string :=
  String.rev (lstrip (String.rev (lstrip s))).

(** The text generator.  [client] is absent when network generation is
    disabled (the default) or could not be set up; when present it maps the
    prompt of a request to the text of the reply, or to [None] when the call
    fails. *)
Record LLMGenerator : Type := mkLLM {
  client : option (string -> option string)
}.

Definition task_name_prompt (project_type : string) : string :=
  let engineering := "Generate a realistic engineering task name following the pattern '[Component] - [Action] - [Detail]'. Examples: 'API Gateway - Implement rate limiting - Add Redis caching', 'Frontend - Refactor authentication flow - Update token handling'" in
  let pt := lower project_type in
  if decide (pt = "engineering") then engineering
  else if decide (pt = "marketing") then
    "Generate a realistic marketing task name following the pattern '[Campaign/Initiative] - [Deliverable]'. Examples: 'Q2 Product Launch - Create landing page', 'Social Media Campaign - Design Instagram posts'"
  else if decide (pt = "operations") then
    "Generate a realistic operations task name. Examples: 'Update vendor contract for AWS', 'Audit security compliance procedures', 'Onboard new team member'"
  else engineering.

Definition fallback_task_name (project_type : string) : Gen string :=
  let engineering :=
    ["Implement user authentication"; "Fix bug in payment processing";
     "Refactor database queries"; "Add API endpoint for user profiles";
     "Update documentation"; "Write unit tests for auth module";
     "Optimize database indexes"; "Deploy staging environment"] in
  let pt := lower project_type in
  choice
    (if decide (pt = "engineering") then engineering
     else if decide (pt = "marketing") then
       ["Create social media campaign"; "Write blog post about product launch";
        "Design email newsletter template"; "Analyze website analytics";
        "Update product marketing page"; "Plan Q2 marketing strategy";
        "Coordinate with PR agency"]
     else if decide (pt = "operations") then
       ["Update vendor contracts"; "Review security compliance";
        "Onboard new team member"; "Schedule team meeting";
        "Update process documentation"; "Review budget allocation"]
     else engineering).

Definition generate_task_name (llm : LLMGenerator) (project_type : string)
  : Gen string :=
  match client llm with
  | None => fallback_task_name project_type
  | Some ask =>
      match ask (task_name_prompt project_type) with
      | Some content => ret (strip content)
      | None => fallback_task_name project_type
      end
  end.

Definition fallback_description (task_name project_type : string) (rand : Q)
  : string :=
  if Qltb rand 0.70 then
    "This task involves working on " +:+ lower task_name
    +:+ ". Please ensure all requirements are met."
  else
    "This task involves " +:+ lower task_name +:+ ".

Key requirements:
- Review current implementation
- Make necessary changes
- Test thoroughly
- Update documentation as needed".

Definition generate_task_description (llm : LLMGenerator)
    (task_name project_type : string) : Gen string :=
  let* rand := random in
  if Qltb rand 0.20 then ret ""
  else
    match client llm with
    | None => ret (fallback_description task_name project_type rand)
    | Some ask =>
        let brief := Qltb rand 0.70 in
        let detail_level := if brief then "brief" else "detailed" in
        let prompt :=
          "Generate a " +:+ detail_level +:+ " task description for a "
          +:+ project_type +:+ " project task: '" +:+ task_name +:+ "'. " in
        let prompt :=
          prompt +:+
          (if brief then "Provide 1-3 sentences."
           else "Provide a detailed description with 3-5 bullet points.") in
        match ask prompt with
        | Some content => ret (strip content)
        | None => ret (fallback_description task_name project_type rand)
        end
    end.

(** ** [generators/tasks.py] *)

Module Project.
Record t : Type := mk {
  project_id : string;
  team_id : string;
  name : string;
  description : string;
  project_type : option string;   (* [None]: the key is absent *)
  color : string;
  archived : bool;
  created_at : datetime;
  created_by : option string
}.
End Project.

Module Section_.
Record t : Type := mk {
  section_id : string;
  project_id : string;
  name : string;
  position : Z;
  created_at : datetime
}.
End Section_.

Module Task.
Record t : Type := mk {
  task_id : string;
  project_id : string;
  section_id : string;
  parent_task_id : option string;
  name : string;
  description : string;
  assignee_id : option string;
  due_date : option datetime;
  due_time : option string;
  created_at : datetime;
  completed : bool;
  completed_at : option datetime;
  created_by : option string;
  priority : string
}.
End Task.

Definition PRIORITIES : list string := ["low"; "normal"; "high"; "urgent"].
Definition PRIORITY_WEIGHTS : list Q := [0.20; 0.60; 0.15; 0.05]%Q.

(** The grouping loop: [sections_by_project[pid].append(section)] *)
Definition group_sections (sections : list Section_.t)
  : gmap string (list Section_.t) :=
  fold_left
    (fun by_project section =>
       let pid := Section_.project_id section in
       <[pid := default [] (by_project !! pid) ++ [section]]> by_project)
    sections ∅.

(** The body of the loop over the creation times of one project *)
Definition generate_task (llm : LLMGenerator) (users : list User.t)
    (end_date : datetime) (project_id project_type : string)
    (project_sections : list Section_.t) (team_members : list string)
    (completion_rate : Q) (created_at : datetime) : Gen Task.t :=
  let* task_name := generate_task_name llm project_type in
  let* description := generate_task_description llm task_name project_type in
  let section_weights := [0.35; 0.40; 0.15; 0.10]%Q in
  let* section_id :=
    if (length section_weights <=? length project_sections)%nat then
      let* section :=
        choices1 project_sections
          (take (length project_sections) section_weights) in
      ret (Section_.section_id section)
    else
      let* section := choice project_sections in
      ret (Section_.section_id section) in
  let* r := random in
  let* assignee_id :=
    if Qgtb r 0.15 && negb (bool_decide (team_members = [])) then
      let* member := choice team_members in ret (Some member)
    else ret None in
  let* due_date := generate_due_date created_at end_date Realistic in
  let* r := random in
  let completed := Qltb r completion_rate in
  let* completed_at :=
    generate_completion_date created_at due_date completed end_date in
  let* priority := choices1 PRIORITIES PRIORITY_WEIGHTS in
  let* creator :=
    match users with
    | [] => ret None
    | _ :: _ => let* u := choice users in ret (Some u)
    end in
  let* tid := generate_id in
  ret (Task.mk tid project_id section_id None task_name description
         assignee_id due_date None created_at completed completed_at
         (User.user_id <$> creator) priority).

(** The body of the loop over the projects *)
Definition generate_project_tasks (llm : LLMGenerator)
    (sections_by_project : gmap string (list Section_.t))
    (users : list User.t) (team_memberships : gmap string (list string))
    (start_date end_date : datetime) (tasks_per_project : Z)
    (tasks : list Task.t) (project : Project.t) : Gen (list Task.t) :=
  let project_id := Project.project_id project in
  let project_type := default "engineering" (Project.project_type project) in
  let team_id := Project.team_id project in
  let project_sections := default [] (sections_by_project !! project_id) in
  match project_sections with
  | [] => ret tasks
  | _ :: _ =>
      let* num_tasks :=
        randint
          (int_of_float (b64 (b64 (inject_Z tasks_per_project) * b64 0.7)))
          (int_of_float (b64 (b64 (inject_Z tasks_per_project) * b64 1.3))) in
      let* creation_times :=
        generate_creation_times
          (Z.max (Project.created_at project) start_date) end_date num_tasks in
      let team_members := default [] (team_memberships !! team_id) in
      let name := lower (Project.name project) in
      let* completion_rate :=
        if contains "sprint" name || contains "bug" name
        then uniform 0.70 0.85
        else if bool_decide (project_type = "engineering")
        then uniform 0.65 0.75
        else uniform 0.40 0.50 in
      let* new :=
        mapM (generate_task llm users end_date project_id project_type
                project_sections team_members completion_rate)
             creation_times in
      ret (tasks ++ new)
  end.

Definition generate_tasks (llm : LLMGenerator) (projects : list Project.t)
    (sections : list Section_.t) (users : list User.t)
    (team_memberships : gmap string (list string))
    (start_date end_date : datetime) (tasks_per_project : Z)
  : Gen (list Task.t) :=
  let sections_by_project := group_sections sections in
  foldM (generate_project_tasks llm sections_by_project users team_memberships
           start_date end_date tasks_per_project)
        [] projects.

(** The templates ["Review {task}"], ["Test {task}"], ...: each is a verb
    followed by the task placeholder. *)
Definition subtask_templates : list string :=
  ["Review "; "Test "; "Document "; "Design "; "Implement "; "Refactor ";
   "Update "; "Finalize "].

(** The body of [for i in range(num_subtasks)] *)
Definition generate_subtask (parent_task : Task.t) (parent_created : datetime)
  : Gen Task.t :=
  let* template := choice subtask_templates in
  let subtask_name := template +:+ lower (Task.name parent_task) in
  let* offset := randint 0 5 in
  let* subtask_created := add_timedelta parent_created (days offset) in
  let* r := random in
  let completed :=
    if Task.completed parent_task then Qltb r 0.70 else Qltb r 0.30 in
  let* tid := generate_id in
  let subtask :=
    Task.mk tid (Task.project_id parent_task) (Task.section_id parent_task)
      (Some (Task.task_id parent_task)) subtask_name ""
      (Task.assignee_id parent_task) (Task.due_date parent_task) None
      subtask_created completed None (Task.created_by parent_task)
      (Task.priority parent_task) in
  if completed then
    let* d := randint 1 7 in
    let* completed_at := add_timedelta subtask_created (days d) in
    ret (Task.mk (Task.task_id subtask) (Task.project_id subtask)
           (Task.section_id subtask) (Task.parent_task_id subtask)
           (Task.name subtask) (Task.description subtask)
           (Task.assignee_id subtask) (Task.due_date subtask)
           (Task.due_time subtask) (Task.created_at subtask)
           (Task.completed subtask) (Some completed_at)
           (Task.created_by subtask) (Task.priority subtask))
  else ret subtask.

(** The body of [for parent_task in parent_tasks] *)
Definition generate_parent_subtasks (subtasks : list Task.t)
    (parent_task : Task.t) : Gen (list Task.t) :=
  let* num_subtasks := randint 2 5 in
  let parent_created := Task.created_at parent_task in
  let* new :=
    replicateM (Z.to_nat num_subtasks)
      (generate_subtask parent_task parent_created) in
  ret (subtasks ++ new).

Definition generate_subtasks (tasks : list Task.t) (users : list User.t)
    (subtask_ratio : Q) : Gen (list Task.t) :=
  let len := Z.of_nat (length tasks) in
  let num_parent_tasks :=
    int_of_float (b64 (b64 (inject_Z len) * subtask_ratio)) in
  let* parent_tasks := sample tasks (Z.min num_parent_tasks len) in
  foldM generate_parent_subtasks [] parent_tasks.

(** ** [generators/custom_fields.py] *)

Module FieldDef.
Record t : Type := mk {
  custom_field_id : string;
  project_id : string;
  name : string;
  field_type : string;
  (* the JSON text of a list of strings, or null *)
  enum_options : option (list string)
}.
End FieldDef.

Module FieldValue.
Record t : Type := mk {
  value_id : string;
  task_id : string;
  custom_field_id : string;
  text_value : option string;
  number_value : option Q;
  enum_value : option string;
  date_value : option datetime;
  (* the JSON text of the selected options *)
  multi_enum_values : option (list string)
}.
End FieldValue.

Definition FIELD_TEMPLATES : list (string * (string * option (list string))) :=
  [("Priority", ("enum", Some ["Low"; "Medium"; "High"; "Critical"]));
   ("Status", ("enum", Some ["Not Started"; "In Progress"; "Blocked"; "Done"]));
   ("Effort", ("enum", Some ["XS"; "S"; "M"; "L"; "XL"]));
   ("Sprint", ("enum", Some ["Sprint 1"; "Sprint 2"; "Sprint 3"; "Sprint 4"; "Backlog"]));
   ("Budget", ("number", None));
   ("Target Date", ("date", None));
   ("Owner", ("text", None));
   ("Category", ("multi_enum",
                 Some ["Feature"; "Bug"; "Enhancement"; "Documentation"; "Research"]))].

(** [x if x else None] on an optional list: an empty list counts as absent *)
Definition truthy_options (o : option (list string)) : option (list string) :=
  match o with
  | Some (x :: l) => Some (x :: l)
  | _ => None
  end.

(** The body of the loop over the projects in [generate_custom_fields] *)
Definition generate_project_fields (custom_fields : list FieldDef.t)
    (project : Project.t) : Gen (list FieldDef.t) :=
  let project_id := Project.project_id project in
  let project_type := default "engineering" (Project.project_type project) in
  let* r := random in
  let has_fields :=
    if bool_decide (project_type = "engineering") then Qltb r 0.70
    else Qltb r 0.40 in
  if negb has_fields then ret custom_fields
  else
    let* num_fields := randint 2 5 in
    let* selected_templates :=
      sample FIELD_TEMPLATES
        (Z.min num_fields (Z.of_nat (length FIELD_TEMPLATES))) in
    let* new :=
      mapM (fun '(field_name, (type, options)) =>
              let* fid := generate_id in
              ret (FieldDef.mk fid project_id field_name type
                     (truthy_options options)))
           selected_templates in
    ret (custom_fields ++ new).

Definition generate_custom_fields (projects : list Project.t)
  : Gen (list FieldDef.t) :=
  foldM generate_project_fields [] projects.

(** The grouping loop: [fields_by_project[pid].append(field_def)] *)
Definition group_fields (custom_field_defs : list FieldDef.t)
  : gmap string (list FieldDef.t) :=
  fold_left
    (fun by_project field_def =>
       let pid := FieldDef.project_id field_def in
       <[pid := default [] (by_project !! pid) ++ [field_def]]> by_project)
    custom_field_defs ∅.

(** The body of [for field_def in project_fields]: [None] when the field is
    skipped ([continue]), the appended entry otherwise. *)
Definition generate_field_value (task : Task.t) (field_def : FieldDef.t)
  : Gen (option FieldValue.t) :=
  let* r := random in
  if Qgtb r 0.70 then ret None
  else
    let* vid := generate_id in
    let entry (text : option string) (number : option Q) (enum : option string)
              (date : option datetime) (multi : option (list string)) :=
      FieldValue.mk vid (Task.task_id task) (FieldDef.custom_field_id field_def)
        text number enum date multi in
    let field_type := FieldDef.field_type field_def in
    let enum_options := FieldDef.enum_options field_def in
    if bool_decide (field_type = "text") then
      ret (Some (entry (Some "Sample text value") None None None None))
    else if bool_decide (field_type = "number") then
      let* x := uniform 1 1000 in
      ret (Some (entry None (Some x) None None None))
    else if bool_decide (field_type = "enum") then
      match truthy_options enum_options with
      | Some options =>
          let* o := choice options in
          ret (Some (entry None None (Some o) None None))
      | None => ret (Some (entry None None None None None))
      end
    else if bool_decide (field_type = "date") then
      match Task.due_date task with
      | Some d => ret (Some (entry None None None (Some d) None))
      | None => ret (Some (entry None None None None None))
      end
    else if bool_decide (field_type = "multi_enum") then
      match truthy_options enum_options with
      | Some options =>
          let* k := randint 1 (Z.min 3 (Z.of_nat (length options))) in
          let* selected := sample options k in
          ret (Some (entry None None None None (Some selected)))
      | None => ret (Some (entry None None None None None))
      end
    else ret (Some (entry None None None None None)).

(** The body of [for task in tasks] *)
Definition generate_task_values (fields_by_project : gmap string (list FieldDef.t))
    (values : list FieldValue.t) (task : Task.t) : Gen (list FieldValue.t) :=
  let project_fields :=
    default [] (fields_by_project !! Task.project_id task) in
  foldM (fun values field_def =>
           let* entry := generate_field_value task field_def in
           ret (values ++ option_list entry))
        values project_fields.

Definition generate_custom_field_values (tasks : list Task.t)
    (custom_field_defs : list FieldDef.t) : Gen (list FieldValue.t) :=
  let fields_by_project := group_fields custom_field_defs in
  foldM (generate_task_values fields_by_project) [] tasks.

(** ** [utils/helpers.py], continued *)

Definition weighted_choice {A} (choices : list A) (weights : list Q) : Gen A :=
  choices1 choices weights.

(** [max_count] is [None] when the argument is left out. *)
Definition random_subset {A} (items : list A) (min_count : Z)
    (max_count : option Z) : Gen (list A) :=
  let max_count := default (Z.of_nat (length items)) max_count in
  let* count :=
    randint min_count (Z.min max_count (Z.of_nat (length items))) in
  sample items count.

(** ** [scrapers/company_scraper.py] *)

Definition get_project_name_templates (project_type : string) : list string :=
  let engineering :=
    ["Q1 2024 Product Roadmap"; "API Migration Project"; "Mobile App Redesign";
     "Infrastructure Modernization"; "Security Audit 2024";
     "Performance Optimization"; "Feature: User Dashboard";
     "Bug Fix Sprint Q1"; "Database Migration"; "CI/CD Pipeline Improvements"] in
  let pt := lower project_type in
  if decide (pt = "engineering") then engineering
  else if decide (pt = "marketing") then
    ["Q2 Product Launch Campaign"; "Content Marketing Strategy";
     "Social Media Q1 2024"; "Brand Awareness Campaign";
     "Customer Acquisition Q2"; "Email Marketing Automation";
     "Website Redesign Project"; "SEO Optimization 2024";
     "Event Marketing: Conference Q2"]
  else if decide (pt = "operations") then
    ["Q1 Team Planning"; "Process Improvement Initiative";
     "Vendor Management 2024"; "Compliance Audit Q1";
     "Team Onboarding Process"; "Budget Planning 2024";
     "Facilities Management"; "IT Infrastructure Upgrade"]
  else engineering.

Definition FALLBACK_COMPANIES : list string :=
  ["Acme Corporation"; "TechFlow Systems"; "DataSync Solutions";
   "CloudScale Inc"; "InnovateWorks"; "Streamline Analytics";
   "NextGen Platforms"; "SecureNet Services"; "AgileWorks";
   "PrimeSoft Technologies"; "Velocity Solutions"; "Catalyst Systems";
   "Nexus Dynamics"; "Apex Innovations"; "Synergy Technologies"].

Definition get_company_names (count : Z) : Gen (list string) :=
  if count <=? Z.of_nat (length FALLBACK_COMPANIES) then
    sample FALLBACK_COMPANIES count
  else
    let companies := FALLBACK_COMPANIES in
    let suffixes :=
      ["Inc"; "Corp"; "LLC"; "Technologies"; "Solutions"; "Systems";
       "Platforms"] in
    let prefixes := ["Cloud"; "Data"; "Tech"; "Stream"; "Agile"; "Next"; "Prime"] in
    let* generated :=
      replicateM (Z.to_nat (count - Z.of_nat (length companies)))
        (let* prefix := choice prefixes in
         let* suffix := choice suffixes in
         ret (prefix +:+ suffix)) in
    ret (take (Z.to_nat count) (companies ++ generated)).

(** ** [generators/projects.py] *)

Definition STANDARD_SECTIONS : list string :=
  ["To Do"; "In Progress"; "In Review"; "Done"].

Definition PROJECT_COLORS : list string :=
  ["blue"; "green"; "orange"; "red"; "purple"; "pink"; "yellow"; "turquoise"].

(** The five common templates, as functions of [{name}] and [{ptype}] *)
Definition common_templates : list (string -> string -> string) :=
  [fun name ptype =>
     "Project for " +:+ name +:+ " focusing on " +:+ ptype +:+ " initiatives.";
   fun name ptype =>
     "Track and coordinate key " +:+ ptype +:+ " work for " +:+ name +:+ ".";
   fun name ptype =>
     "Central hub for planning and executing " +:+ ptype
     +:+ " work related to " +:+ name +:+ ".";
   fun name ptype =>
     "Organize tasks, milestones, and updates for " +:+ name +:+ " ("
     +:+ ptype +:+ ").";
   fun name ptype =>
     "Scope, deliverables, and progress tracking for " +:+ name +:+ " ("
     +:+ ptype +:+ " project)."].

Definition generate_project_description (name project_type : string)
  : Gen string :=
  let project_type := lower project_type in
  let engineering_suffixes :=
    ["Includes backlog grooming, implementation, and QA.";
     "Covers design, implementation, and technical review.";
     "Focuses on feature delivery, reliability, and performance."] in
  let marketing_suffixes :=
    ["Includes campaign planning, content, and performance tracking.";
     "Covers creative production, approvals, and launch activities.";
     "Focuses on audience targeting, messaging, and reporting."] in
  let operations_suffixes :=
    ["Includes process improvements, documentation, and coordination.";
     "Covers internal workflows, tooling, and compliance tasks.";
     "Focuses on reliability, standardization, and efficiency."] in
  let* template := choice common_templates in
  let base := template name project_type in
  let suffix_pool :=
    if decide (project_type = "engineering") then engineering_suffixes
    else if decide (project_type = "marketing") then marketing_suffixes
    else if decide (project_type = "operations") then operations_suffixes
    else [] in
  match suffix_pool with
  | [] => ret base
  | _ :: _ =>
      let* r := random in
      if Qltb r 0.6 then
        let* suffix := choice suffix_pool in
        ret (base +:+ " " +:+ suffix)
      else ret base
  end.

Definition generate_sections (project_id : string) (created_at : datetime)
  : Gen (list Section_.t) :=
  mapM (fun '(i, section_name) =>
          let* sid := generate_id in
          ret (Section_.mk sid project_id section_name (Z.of_nat i) created_at))
       (imap pair STANDARD_SECTIONS).

(** The body of the loop over the sorted creation times *)
Definition generate_project (teams : list Team.t) (users : list User.t)
    (acc : list Project.t * list Section_.t) (created_at : datetime)
  : Gen (list Project.t * list Section_.t) :=
  let '(projects, sections) := acc in
  let project_types := ["engineering"; "marketing"; "operations"] in
  let type_weights := [0.50; 0.30; 0.20]%Q in
  let engineering_templates := get_project_name_templates "engineering" in
  let marketing_templates := get_project_name_templates "marketing" in
  let operations_templates := get_project_name_templates "operations" in
  let* project_type := choices1 project_types type_weights in
  let name_pool :=
    if decide (project_type = "engineering") then engineering_templates
    else if decide (project_type = "marketing") then marketing_templates
    else operations_templates in
  let* base_name := choice name_pool in
  let* r := random in
  let* name :=
    if Qltb r 0.3 then
      choice [base_name +:+ " 2024"; base_name +:+ " Q1"; base_name +:+ " Q2"]
    else ret base_name in
  let* team := choice teams in
  let* creator :=
    match users with
    | [] => ret None
    | _ :: _ => let* u := choice users in ret (Some u)
    end in
  let* pid := generate_id in
  let* description := generate_project_description name project_type in
  let* color := choice PROJECT_COLORS in
  let* r := random in
  let archived := if Qgtb r 0.15 then false else true in
  let project :=
    Project.mk pid (Team.team_id team) name description (Some project_type)
      color archived created_at (User.user_id <$> creator) in
  let* project_sections := generate_sections pid created_at in
  ret (projects ++ [project], sections ++ project_sections).

Definition generate_projects (count : Z) (teams : list Team.t)
    (users : list User.t) (start_date end_date : datetime)
  : Gen (list Project.t * list Section_.t) :=
  let* creation_times :=
    replicateM (Z.to_nat count) (random_date start_date end_date) in
  let creation_times := merge_sort Z.le creation_times in
  foldM (generate_project teams users) ([], []) creation_times.

(** ** [generators/tags.py] *)

Module Tag.
Record t : Type := mk {
  tag_id : string;
  organization_id : string;
  name : string;
  color : string
}.
End Tag.

Module TaskTag.
Record t : Type := mk {
  task_id : string;
  tag_id : string
}.
End TaskTag.

Definition TAG_COLORS : list string :=
  ["blue"; "green"; "orange"; "red"; "purple"; "pink"; "yellow"; "turquoise"].

Definition TAG_TEMPLATES : list string :=
  ["urgent"; "blocked"; "needs-review"; "bug"; "feature"; "enhancement";
   "documentation"; "refactor"; "technical-debt"; "design"; "qa";
   "deployment"; "on-hold"; "client-request"; "internal"; "external";
   "security"; "performance"; "accessibility"; "mobile"; "web";
   "backend"; "frontend"; "api"; "database"; "infrastructure";
   "marketing"; "sales"; "customer-success"; "ops"; "finance";
   "q1-2024"; "q2-2024"; "q3-2024"; "q4-2024"; "high-priority";
   "low-priority"; "stretch-goal"; "mvp"; "research"; "experiment"].

Definition generate_tags (org_id : string) (count : Z) : Gen (list Tag.t) :=
  let* selected_names :=
    sample TAG_TEMPLATES (Z.min count (Z.of_nat (length TAG_TEMPLATES))) in
  mapM (fun name =>
          let* tid := generate_id in
          let* color := choice TAG_COLORS in
          ret (Tag.mk tid org_id name color))
       selected_names.

(** The body of the loop over the tasks *)
Definition generate_task_tag_rows (tags : list Tag.t)
    (task_tags : list TaskTag.t) (task : Task.t) : Gen (list TaskTag.t) :=
  let* num_tags :=
    choices1 [0; 1; 2; 3; 4] [0.30; 0.40; 0.20; 0.08; 0.02]%Q in
  if (0 <? num_tags) && negb (bool_decide (tags = [])) then
    let* selected_tags :=
      sample tags (Z.min num_tags (Z.of_nat (length tags))) in
    ret (task_tags
         ++ map (fun tag => TaskTag.mk (Task.task_id task) (Tag.tag_id tag))
              selected_tags)
  else ret task_tags.

Definition generate_task_tags (tasks : list Task.t) (tags : list Tag.t)
  : Gen (list TaskTag.t) :=
  foldM (generate_task_tag_rows tags) [] tasks.

(** ** Decayed offsets: [generators/comments.py], [generators/attachments.py] *)

Module Comment.
Record t : Type := mk {
  comment_id : string;
  task_id : string;
  user_id : string;
  text : string;
  created_at : datetime
}.
End Comment.

Module Attachment.
Record t : Type := mk {
  attachment_id : string;
  task_id : string;
  name : string;
  file_type : string;
  file_size : Z;
  url : string;
  uploaded_at : datetime;
  uploaded_by : option string
}.
End Attachment.

(** [task.get(key)] used as a condition: a missing, null or empty identifier
    is false *)
Definition truthy (o : option string) : bool :=
  match o with
  | Some s => negb (bool_decide (s = ""))
  | None => false
  end.

(** [next((u for u in users if u["user_id"] == uid), None)] *)
Definition find_user (users : list User.t) (uid : option string)
  : option User.t :=
  List.find (fun u => bool_decide (Some (User.user_id u) = uid)) users.

(** [min(x, n)] for a float [x] and an integer [n] *)
Definition min_float_int (x : Q) (n : Z) : Q :=
  if Qltb (inject_Z n) x then inject_Z n else x.

Definition fallback_comment : Gen string :=
  choice
    ["Looks good! Starting on this now."; "Any updates on this?";
     "I've run into a blocker - can we sync?";
     "This is done and ready for review.";
     "Found a related issue, linking it here."; "Can we prioritize this?";
     "Great progress so far!"].

Definition generate_comment (llm : LLMGenerator) (task_name project_type : string)
  : Gen string :=
  match client llm with
  | None => fallback_comment
  | Some ask =>
      let* comment_type :=
        choice
          ["Ask a question about the task"; "Provide an update on progress";
           "Share a relevant link or resource"; "Request clarification";
           "Note a blocker or issue"] in
      let prompt :=
        "Generate a realistic comment for a task '" +:+ task_name +:+ "' in a "
        +:+ project_type +:+ " project. Comment type: " +:+ comment_type
        +:+ ". Keep it concise (1-2 sentences)." in
      match ask prompt with
      | Some content => ret (strip content)
      | None => fallback_comment
      end
  end.

Definition FILE_TYPES : list (string * list (string * string * (Z * Z))) :=
  let docx := "application/vnd.openxmlformats-officedocument.wordprocessingml.document" in
  let xlsx := "application/vnd.openxmlformats-officedocument.spreadsheetml.sheet" in
  [("document",
    [("document.pdf", "application/pdf", (50000, 5000000));
     ("report.docx", docx, (100000, 10000000));
     ("spec.pdf", "application/pdf", (200000, 3000000));
     ("requirements.docx", docx, (150000, 8000000));
     ("design-brief.pdf", "application/pdf", (300000, 4000000))]);
   ("image",
    [("screenshot.png", "image/png", (50000, 2000000));
     ("mockup.jpg", "image/jpeg", (100000, 3000000));
     ("diagram.png", "image/png", (80000, 1500000));
     ("wireframe.png", "image/png", (60000, 1200000));
     ("logo.svg", "image/svg+xml", (10000, 500000))]);
   ("spreadsheet",
    [("data.xlsx", xlsx, (50000, 2000000));
     ("budget.xlsx", xlsx, (80000, 3000000));
     ("tracker.xlsx", xlsx, (60000, 1500000))]);
   ("code",
    [("config.json", "application/json", (1000, 50000));
     ("script.js", "text/javascript", (5000, 200000));
     ("styles.css", "text/css", (3000, 150000));
     ("README.md", "text/markdown", (2000, 100000))]);
   ("archive",
    [("archive.zip", "application/zip", (100000, 10000000));
     ("backup.tar.gz", "application/gzip", (200000, 5000000))]);
   ("other",
    [("notes.txt", "text/plain", (1000, 50000));
     ("presentation.pptx",
      "application/vnd.openxmlformats-officedocument.presentationml.presentation",
      (200000, 8000000));
     ("video.mp4", "video/mp4", (1000000, 50000000))])].

(** [self.FILE_TYPES[category]].  A category that is not a key has no
    templates here, where Python raises [KeyError]; the categories
    [select_file_category] hands out are all keys
    (see [select_file_category_key]). *)
Definition file_types_of (category : string)
  : list (string * string * (Z * Z)) :=
  default []
    (snd <$> List.find (fun entry => bool_decide (fst entry = category))
               FILE_TYPES).

(** The URL patterns, each ending in [{id}/{name}] *)
Definition URL_PATTERNS : list string :=
  ["https://storage.example.com/files/"; "https://cdn.company.com/attachments/";
   "https://files.company.com/uploads/"; "https://s3.amazonaws.com/bucket/"].

Definition format_url (url_pattern id name : string) : string :=
  url_pattern +:+ id +:+ "/" +:+ name.

Definition select_file_category (project_type : string) : Gen string :=
  let project_type := lower project_type in
  if decide (project_type = "engineering") then
    choices1 ["document"; "image"; "code"; "spreadsheet"; "other"]
      [0.30; 0.25; 0.25; 0.10; 0.10]%Q
  else if decide (project_type = "marketing") then
    choices1 ["image"; "document"; "other"; "spreadsheet"]
      [0.40; 0.30; 0.20; 0.10]%Q
  else if decide (project_type = "operations") then
    choices1 ["spreadsheet"; "document"; "archive"; "other"]
      [0.40; 0.30; 0.15; 0.15]%Q
  else choice (map fst FILE_TYPES).

(** Who acts on a task: the assignee with probability [p_assignee], else the
    creator with probability [p_creator], else anybody; a reference that does
    not resolve falls back to anybody. *)
Definition select_actor (users : list User.t) (task : Task.t)
    (p_assignee p_creator : Q) : Gen User.t :=
  let* r := random in
  if Qltb r p_assignee && truthy (Task.assignee_id task) then
    match find_user users (Task.assignee_id task) with
    | Some u => ret u
    | None => choice users
    end
  else
    let* r := random in
    if Qltb r p_creator && truthy (Task.created_by task) then
      match find_user users (Task.created_by task) with
      | Some u => ret u
      | None => choice users
      end
    else choice users.

Section Decay.
(** [math.log] on floats in (0, 1] *)
Variable log : Q -> Q.

(** [random.expovariate(lambd)] *)
Definition expovariate (lambd : Q) : Gen Q :=
  let* r := random in ret (- log (1 - r) / lambd)%Q.

(** The loop that draws the comment times of a task; it stops at the first
    time past the end date. *)
Fixpoint draw_comment_times (n : nat) (end_date current_time : datetime)
  : Gen (list datetime) :=
  match n with
  | O => ret []
  | Datatypes.S n' =>
      let* days_offset := expovariate 0.3 in
      let days_offset :=
        min_float_int days_offset (td_days (end_date - current_time)) in
      let* comment_time :=
        add_timedelta current_time (days (int_of_float days_offset)) in
      if end_date <? comment_time then ret []
      else
        let* rest := draw_comment_times n' end_date comment_time in
        ret (comment_time :: rest)
  end.

(** The body of the loop over the tasks in [generate_comments].  Task rows
    carry no [project_type], so the text generator is always asked for the
    default, ["engineering"]. *)
Definition generate_task_comments (llm : LLMGenerator) (users : list User.t)
    (end_date : datetime) (comments : list Comment.t) (task : Task.t)
  : Gen (list Comment.t) :=
  let task_created := Task.created_at task in
  let task_id := Task.task_id task in
  let* num_comments :=
    choices1 [0; 1; 2; 3; 4; 5] [0.30; 0.35; 0.20; 0.10; 0.04; 0.01]%Q in
  let* comment_times :=
    draw_comment_times (Z.to_nat num_comments) end_date task_created in
  let* new :=
    mapM (fun comment_time =>
            let* commenter := select_actor users task 0.6 0.3 in
            let* comment_text :=
              generate_comment llm (Task.name task) "engineering" in
            let* cid := generate_id in
            ret (Comment.mk cid task_id (User.user_id commenter) comment_text
                   comment_time))
         comment_times in
  ret (comments ++ new).

Definition generate_comments (llm : LLMGenerator) (tasks : list Task.t)
    (users : list User.t) (start_date end_date : datetime)
  : Gen (list Comment.t) :=
  foldM (generate_task_comments llm users end_date) [] tasks.

(** The body of [for i in range(num_attachments)]: [None] when the upload
    time falls after the end date ([continue]) *)
Definition generate_attachment (users : list User.t) (end_date : datetime)
    (task : Task.t) : Gen (option Attachment.t) :=
  let task_created := Task.created_at task in
  let* days_offset := expovariate 2.0 in
  let days_offset :=
    min_float_int days_offset (td_days (end_date - task_created)) in
  let* uploaded_at :=
    add_timedelta task_created (days (int_of_float days_offset)) in
  if end_date <? uploaded_at then ret None
  else
    let project_type := "engineering" in
    let* file_category := select_file_category project_type in
    let* (file_name, file_type, size_range) :=
      choice (file_types_of file_category) in
    let* file_size := randint (fst size_range) (snd size_range) in
    let* attachment_id := generate_id in
    let* url_pattern := choice URL_PATTERNS in
    let url := format_url url_pattern attachment_id file_name in
    let* uploader := select_actor users task 0.5 0.3 in
    ret (Some (Attachment.mk attachment_id (Task.task_id task) file_name
                 file_type file_size url uploaded_at
                 (Some (User.user_id uploader)))).

(** The body of the loop over the tasks in [generate_attachments] *)
Definition generate_task_attachments (users : list User.t)
    (end_date : datetime) (attachments : list Attachment.t) (task : Task.t)
  : Gen (list Attachment.t) :=
  let* num_attachments :=
    choices1 [0; 1; 2; 3; 4] [0.70; 0.20; 0.07; 0.02; 0.01]%Q in
  let* new :=
    replicateM (Z.to_nat num_attachments)
      (generate_attachment users end_date task) in
  ret (attachments ++ omap id new).

Definition generate_attachments (tasks : list Task.t) (users : list User.t)
    (start_date end_date : datetime) : Gen (list Attachment.t) :=
  foldM (generate_task_attachments users end_date) [] tasks.
End Decay.

(** ** [main.py]: the run *)

Inductive row : Type :=
  | OrganizationRow (o : Organization.t)
  | UserRow (u : User.t)
  | TeamRow (t : Team.t)
  | MembershipRow (m : Membership.t)
  | ProjectRow (p : Project.t)
  | SectionRow (s : Section_.t)
  | TagRow (t : Tag.t)
  | TaskRow (t : Task.t)
  | CommentRow (c : Comment.t)
  | AttachmentRow (a : Attachment.t)
  | FieldDefRow (d : FieldDef.t)
  | FieldValueRow (v : FieldValue.t)
  | TaskTagRow (t : TaskTag.t).

(** The store: the batches handed to [executemany] and committed, oldest
    first, each with its table. *)
Definition store : Type := list (string * list row).

Definition Run (A : Type) : Type := M (world * store) A.

Definition lift {A} (g : Gen A) : Run A :=
  fun '(w, db) => let '(r, w') := g w in (r, (w', db)).

Definition insert_data (table_name : string) (data : list row) : Run unit :=
  fun '(w, db) =>
    match data with
    | [] => (Returns tt, (w, db))
    | _ :: _ => (Returns tt, (w, db ++ [(table_name, data)]))
    end.

Record config : Type := mkConfig {
  org_size : Z;
  num_teams : Z;
  start_date : datetime;
  end_date : datetime
}.

(** [main], from the clean database on.  The run starts from an empty
    store: an existing database file is removed first.  [log] is [math.log];
    [llm] is the text generator the task and comment generators each build
    from the one environment. *)
Definition main (log : Q -> Q) (llm : LLMGenerator) (cfg : config) : Run unit :=
  let* org_id := lift generate_id in
  let org_data :=
    [OrganizationRow
       (Organization.mk org_id "Acme Corporation" "acme.com" (start_date cfg))] in
  let* _ := insert_data "organizations" org_data in
  let* users :=
    lift (generate_users (org_size cfg) org_id (start_date cfg) (end_date cfg)) in
  let* _ := insert_data "users" (map UserRow users) in
  let* teams :=
    lift (generate_teams (num_teams cfg) org_id (start_date cfg) (end_date cfg)) in
  let* _ := insert_data "teams" (map TeamRow teams) in
  let* (memberships, team_memberships_dict) :=
    lift (generate_team_memberships teams users ∅) in
  let* _ := insert_data "team_memberships" (map MembershipRow memberships) in
  let* count := lift (randint 200 500) in
  let* (projects, sections) :=
    lift (generate_projects count teams users (start_date cfg) (end_date cfg)) in
  let* _ := insert_data "projects" (map ProjectRow projects) in
  let* _ := insert_data "sections" (map SectionRow sections) in
  let* tags := lift (generate_tags org_id 30) in
  let* _ := insert_data "tags" (map TagRow tags) in
  let* tasks :=
    lift (generate_tasks llm projects sections users team_memberships_dict
            (start_date cfg) (end_date cfg) 30) in
  let* _ := insert_data "tasks" (map TaskRow tasks) in
  let* subtasks := lift (generate_subtasks tasks users (b64 0.20)) in
  let* _ := insert_data "tasks" (map TaskRow subtasks) in
  let* comments :=
    lift (generate_comments log llm (tasks ++ subtasks) users (start_date cfg)
            (end_date cfg)) in
  let* _ := insert_data "comments" (map CommentRow comments) in
  let* attachments :=
    lift (generate_attachments log (tasks ++ subtasks) users (start_date cfg)
            (end_date cfg)) in
  let* _ := insert_data "attachments" (map AttachmentRow attachments) in
  let* custom_field_defs := lift (generate_custom_fields projects) in
  let* _ :=
    insert_data "custom_field_definitions" (map FieldDefRow custom_field_defs) in
  let* custom_field_values :=
    lift (generate_custom_field_values (tasks ++ subtasks) custom_field_defs) in
  let* _ :=
    insert_data "custom_field_values" (map FieldValueRow custom_field_values) in
  let* task_tags := lift (generate_task_tags (tasks ++ subtasks) tags) in
  insert_data "task_tags" (map TaskTagRow task_tags).

(** * Vocabulary of the properties *)

(** [ensures m P]: whenever [m] returns, its result satisfies [P]. *)
Definition ensures {S A} (m : M S A) (P : A -> Prop) : Prop :=
  forall s a s', m s = (Returns a, s') -> P a.

(** [terminates m]: [m] never exhausts the fuel of a loop. *)
Definition terminates {S A} (m : M S A) : Prop :=
  forall s, fst (m s) <> Diverges.

(** [appends m]: running [m] keeps the batches already in the store and may
    add some after them. *)
Definition appends {A} (m : Run A) : Prop :=
  forall w db, exists rest, snd (snd (m (w, db))) = db ++ rest.

(** The first batch of every run *)
Definition organization_batch (org_id : string) (cfg : config)
  : string * list row :=
  ("organizations",
   [OrganizationRow
      (Organization.mk org_id "Acme Corporation" "acme.com" (start_date cfg))]).

(** A date of the years 1 to 9999 *)
Definition is_datetime (dt : Z) : Prop := datetime_min <= dt <= datetime_max.

(** A task is consistent when it is flagged completed exactly when it
    carries a completion time. *)
Definition completion_consistent (t : Task.t) : Prop :=
  Task.completed t = true <-> Task.completed_at t <> None.

(** A slot counts under its field type when it is non-null. *)
Definition slot {A} (field_type : string) (value : option A) : list string :=
  match value with
  | Some _ => [field_type]
  | None => []
  end.

(** The field types whose slot is non-null in a value row, in slot order *)
Definition populated (v : FieldValue.t) : list string :=
  slot "text" (FieldValue.text_value v)
  ++ slot "number" (FieldValue.number_value v)
  ++ slot "enum" (FieldValue.enum_value v)
  ++ slot "date" (FieldValue.date_value v)
  ++ slot "multi_enum" (FieldValue.multi_enum_values v).

(** The definitions for which the generator has something to store on a
    task: free text and numbers always, a date when the task has a due date,
    an enumeration when the definition lists at least one option. *)
Definition has_value (task : Task.t) (d : FieldDef.t) : Prop :=
  let ft := FieldDef.field_type d in
  ft = "text" \/ ft = "number"
  \/ (ft = "date" /\ Task.due_date task <> None)
  \/ ((ft = "enum" \/ ft = "multi_enum")
      /\ exists o os, FieldDef.enum_options d = Some (o :: os)).

(** A value row [v] generated for [task] from the definition [d] *)
Definition value_of (task : Task.t) (d : FieldDef.t) (v : FieldValue.t) : Prop :=
  FieldValue.task_id v = Task.task_id task
  /\ FieldValue.custom_field_id v = FieldDef.custom_field_id d
  /\ (has_value task d /\ populated v = [FieldDef.field_type d]
      \/ ~ has_value task d /\ populated v = []).

(** A row [v] follows its definition, given the tasks and definitions handed
    to [generate_custom_field_values]: it belongs to one of the tasks and to
    one of the definitions of that task's project, at most one slot is
    non-null, and the slot of the definition's type is the one filled, which
    happens exactly when the generator has a value for it. *)
Definition slots_follow_definition (tasks : list Task.t)
    (custom_field_defs : list FieldDef.t) (v : FieldValue.t) : Prop :=
  exists task d,
    task ∈ tasks /\ d ∈ custom_field_defs
    /\ FieldDef.project_id d = Task.project_id task
    /\ FieldValue.task_id v = Task.task_id task
    /\ FieldValue.custom_field_id v = FieldDef.custom_field_id d
    /\ (length (populated v) <= 1)%nat
    /\ (forall ft, ft ∈ populated v -> ft = FieldDef.field_type d)
    /\ (populated v = [FieldDef.field_type d] <-> has_value task d)
    /\ (populated v = [] <-> ~ has_value task d).

(** The two name parts an address is built from: the first word of the name
    and its last word, both in lower case; the last part is empty when the
    name is a single word. *)
Definition first_last (name : string) : option (string * string) :=
  match split name with
  | [] => None
  | [word] => Some (lower word, "")
  | word :: words => Some (lower word, lower (List.last words word))
  end.

(** The address the loop of [generate_users] settles on for the name parts
    [first_name] and [last_name], given the addresses of the users before:
    [first.last@acme.com] if none of them has it, otherwise the address with
    the least suffix from 2 on that none of them has. *)
Definition email_choice (earlier : list string)
    (first_name last_name email : string) : Prop :=
  (email ∉ earlier)
  /\ (email = base_email first_name last_name "acme.com"
      \/ exists n, 2 <= n
           /\ email = suffixed_email first_name last_name n "acme.com"
           /\ base_email first_name last_name "acme.com" ∈ earlier
           /\ forall k, 2 <= k < n ->
                suffixed_email first_name last_name k "acme.com" ∈ earlier).

(** Every user of a list has the address chosen for its own name, given the
    users before it in the list. *)
Definition emails_chosen (users : list User.t) : Prop :=
  forall i u, users !! i = Some u ->
    exists first_name last_name,
      first_last (User.name u) = Some (first_name, last_name)
      /\ email_choice (map User.email (take i users)) first_name last_name
           (User.email u).

(** What the loop of [generate_users] maintains: the addresses handed out
    are pairwise distinct, they are the ones recorded as used, and each was
    chosen as above. *)
Definition users_invariant (acc : list User.t * gset string) : Prop :=
  NoDup (map User.email acc.1)
  /\ (forall e, e ∈ acc.2 <-> e ∈ map User.email acc.1)
  /\ emails_chosen acc.1.

(** A made-up company name: one of seven prefixes before one of seven
    suffixes *)
Definition made_up_name (name : string) : Prop :=
  exists prefix suffix,
    prefix ∈ ["Cloud"; "Data"; "Tech"; "Stream"; "Agile"; "Next"; "Prime"]
    /\ suffix ∈ ["Inc"; "Corp"; "LLC"; "Technologies"; "Solutions"; "Systems";
                 "Platforms"]
    /\ name = prefix +:+ suffix.

(** How a subtask relates to the task it was generated under *)
Definition subtask_of (p s : Task.t) : Prop :=
  Task.parent_task_id s = Some (Task.task_id p)
  /\ Task.project_id s = Task.project_id p
  /\ Task.created_at p <= Task.created_at s <= Task.created_at p + days 5
  /\ forall c, Task.completed_at s = Some c ->
       Task.created_at s + days 1 <= c <= Task.created_at s + days 7.

(** The characters of a lower-case hexadecimal numeral *)
Definition hex_chars : list ascii :=
  ["0"; "1"; "2"; "3"; "4"; "5"; "6"; "7"; "8"; "9";
   "a"; "b"; "c"; "d"; "e"; "f"]%char.

(** A user row of the organization: created within the run, in one of the
    departments, with a role of that department *)
Definition user_row (org_id : string) (start_date end_date : datetime)
    (u : User.t) : Prop :=
  User.organization_id u = org_id
  /\ start_date <= User.created_at u < end_date
  /\ User.department u ∈ departments
  /\ User.role u ∈ roles (User.department u).

(** A team row of the organization *)
Definition team_row (org_id : string) (start_date end_date : datetime)
    (t : Team.t) : Prop :=
  Team.organization_id t = org_id
  /\ start_date <= Team.created_at t < end_date
  /\ Team.description t
     = Team.name t +:+ " team responsible for core initiatives.".

(** The membership row of user [u] in [team] *)
Definition membership_of (team : Team.t) (u : User.t) (m : Membership.t)
  : Prop :=
  Membership.team_id m = Team.team_id team
  /\ Membership.user_id m = User.user_id u
  /\ Membership.joined_at m = User.created_at u
  /\ Membership.role m ∈ ["member"; "admin"].

(** The size of a team: three to thirty members, or everybody when there
    are fewer users than that *)
Definition team_size (users : list User.t) (k : nat) : Prop :=
  Z.min 3 (Z.of_nat (length users)) <= Z.of_nat k
  <= Z.min 30 (Z.of_nat (length users)).

(** The membership rows of one team: one row for each of its members, which
    are users taken at distinct positions of the user list *)
Definition team_block (users : list User.t) (team : Team.t)
    (block : list Membership.t) : Prop :=
  exists team_users,
    team_users ⊆+ users
    /\ team_size users (length team_users)
    /\ Forall2 (membership_of team) team_users block.

(** A task row, given what [generate_tasks] was handed: it sits in a section
    of one of the projects, is assigned to nobody or to a member of that
    project's team, was created by one of the users (by nobody only when
    there are no users), is no subtask, and neither its due date nor its
    completion time passes the end date. *)
Definition task_row (projects : list Project.t) (sections : list Section_.t)
    (users : list User.t) (team_memberships : gmap string (list string))
    (end_date : datetime) (t : Task.t) : Prop :=
  exists project section,
    project ∈ projects /\ section ∈ sections
    /\ Section_.project_id section = Project.project_id project
    /\ Task.project_id t = Project.project_id project
    /\ Task.section_id t = Section_.section_id section
    /\ Task.parent_task_id t = None
    /\ (forall a, Task.assignee_id t = Some a ->
          a ∈ default [] (team_memberships !! Project.team_id project))
    /\ match Task.created_by t with
       | Some c => c ∈ map User.user_id users
       | None => users = []
       end
    /\ Task.priority t ∈ PRIORITIES
    /\ (forall d, Task.due_date t = Some d -> d <= end_date)
    /\ (forall c, Task.completed_at t = Some c -> c <= end_date).

(** A definition taken from the catalog for [project] *)
Definition field_of_catalog (project : Project.t) (d : FieldDef.t) : Prop :=
  FieldDef.project_id d = Project.project_id project
  /\ (FieldDef.name d, (FieldDef.field_type d, FieldDef.enum_options d))
     ∈ FIELD_TEMPLATES.

(** The definitions of one project: none, or two to five catalog entries
    under pairwise distinct names *)
Definition project_fields (project : Project.t) (block : list FieldDef.t)
  : Prop :=
  (block = [] \/ (2 <= length block <= 5)%nat)
  /\ NoDup (map FieldDef.name block)
  /\ Forall (field_of_catalog project) block.

(** A project row, given the teams and users [generate_projects] was
    handed: created within the run, owned by one of the teams, of one of the
    three project types, named after a template of that type (possibly with
    a year or quarter appended), and created by one of the users (by nobody
    only when there are no users). *)
Definition project_row (teams : list Team.t) (users : list User.t)
    (start_date end_date : datetime) (p : Project.t) : Prop :=
  start_date <= Project.created_at p < end_date
  /\ Project.team_id p ∈ map Team.team_id teams
  /\ (exists type base,
        Project.project_type p = Some type
        /\ type ∈ ["engineering"; "marketing"; "operations"]
        /\ base ∈ get_project_name_templates type
        /\ Project.name p
           ∈ [base; base +:+ " 2024"; base +:+ " Q1"; base +:+ " Q2"])
  /\ Project.color p ∈ PROJECT_COLORS
  /\ match Project.created_by p with
     | Some c => c ∈ map User.user_id users
     | None => users = []
     end.

(** The sections of a project: the four standard ones, in their order,
    created with the project *)
Definition standard_sections (p : Project.t) (block : list Section_.t)
  : Prop :=
  map Section_.name block = STANDARD_SECTIONS
  /\ map Section_.position block = [0; 1; 2; 3]
  /\ Forall (fun s => Section_.project_id s = Project.project_id p
                      /\ Section_.created_at s = Project.created_at p) block.

(** A tag row of the organization *)
Definition tag_row (org_id : string) (t : Tag.t) : Prop :=
  Tag.organization_id t = org_id
  /\ Tag.name t ∈ TAG_TEMPLATES
  /\ Tag.color t ∈ TAG_COLORS.

(** The tag rows of one task: at most four of the tags, taken at distinct
    positions of the tag list *)
Definition task_tag_block (tags : list Tag.t) (task : Task.t)
    (block : list TaskTag.t) : Prop :=
  exists selected_tags,
    selected_tags ⊆+ tags
    /\ (length selected_tags <= 4)%nat
    /\ block
       = map (fun tag => TaskTag.mk (Task.task_id task) (Tag.tag_id tag))
           selected_tags.

(** A comment on [task]: written by one of the users, dated by the end date
    at the latest and, for a task created by then, not before the task *)
Definition comment_row (users : list User.t) (end_date : datetime)
    (task : Task.t) (c : Comment.t) : Prop :=
  Comment.task_id c = Task.task_id task
  /\ Comment.user_id c ∈ map User.user_id users
  /\ Comment.created_at c <= end_date
  /\ (Task.created_at task <= end_date ->
      Task.created_at task <= Comment.created_at c).

(** The comments of one task: five at most, and in the order of their
    dates when the task was created by the end date *)
Definition comment_block (users : list User.t) (end_date : datetime)
    (task : Task.t) (block : list Comment.t) : Prop :=
  (length block <= 5)%nat
  /\ Forall (comment_row users end_date task) block
  /\ (Task.created_at task <= end_date ->
      StronglySorted Z.le (map Comment.created_at block)).

(** An attachment of [task]: uploaded by one of the users, by the end date
    at the latest and, for a task created by then, not before the task; its
    name, type and size follow one template of a category open to
    engineering projects, and its URL is a storage pattern filled with its
    identifier and name. *)
Definition attachment_row (users : list User.t) (end_date : datetime)
    (task : Task.t) (a : Attachment.t) : Prop :=
  Attachment.task_id a = Task.task_id task
  /\ (exists uid, Attachment.uploaded_by a = Some uid
                  /\ uid ∈ map User.user_id users)
  /\ Attachment.uploaded_at a <= end_date
  /\ (Task.created_at task <= end_date ->
      Task.created_at task <= Attachment.uploaded_at a)
  /\ (exists category size_range,
        category ∈ ["document"; "image"; "code"; "spreadsheet"; "other"]
        /\ (Attachment.name a, Attachment.file_type a, size_range)
           ∈ file_types_of category
        /\ size_range.1 <= Attachment.file_size a <= size_range.2)
  /\ (exists url_pattern,
        url_pattern ∈ URL_PATTERNS
        /\ Attachment.url a
           = format_url url_pattern (Attachment.attachment_id a)
               (Attachment.name a)).

(** The attachments of one task: four at most *)
Definition attachment_block (users : list User.t) (end_date : datetime)
    (task : Task.t) (block : list Attachment.t) : Prop :=
  (length block <= 4)%nat /\ Forall (attachment_row users end_date task) block.

(** A stand-in for the logarithm in sample runs: the tangent at 1, which is
    never positive on (0, 1] *)
Definition tangent_log (x : Q) : Q := (x - 1)%Q.

(** The subtasks of one parent: two to five, each hanging under the parent
    in the parent's section, with the parent's assignee, creator, due date
    and priority *)
Definition subtask_block (p : Task.t) (block : list Task.t) : Prop :=
  (2 <= length block <= 5)%nat
  /\ Forall (fun s => subtask_of p s
                      /\ Task.section_id s = Task.section_id p
                      /\ Task.assignee_id s = Task.assignee_id p
                      /\ Task.created_by s = Task.created_by p
                      /\ Task.due_date s = Task.due_date p
                      /\ Task.priority s = Task.priority p) block.

(** A text generator without answers: the client is absent, or every call
    to it fails *)
Definition silent (llm : LLMGenerator) : Prop :=
  forall prompt,
    match client llm with
    | Some ask => ask prompt = None
    | None => True
    end.

(** The largest size [random_subset] may draw: [max_count], or the number of
    items when that is smaller or [max_count] is left out *)
Definition subset_bound {A} (items : list A) (max_count : option Z) : Z :=
  Z.min (default (Z.of_nat (length items)) max_count) (Z.of_nat (length items)).

(** * Sample data *)

(** The four sections [_generate_sections] attaches to a project, under
    identifiers made up from the project's *)
Definition sections_of (project_id : string) (created_at : Z) : list Section_.t :=
  imap (fun i name =>
          Section_.mk (project_id +:+ "-s" +:+ pretty i) project_id name
            (Z.of_nat i) created_at)
       STANDARD_SECTIONS.

(** A project created on Saturday 2024-06-29, two days before the default
    end date of a run *)
Definition late_project : Project.t :=
  Project.mk "p1" "t1" "Mobile App Redesign"
    "Project for Mobile App Redesign focusing on engineering initiatives."
    (Some "engineering") "blue" false (mk_datetime 2024 6 29 0 0 0) None.

(** A completed top-level task created on Friday 2024-06-28 at 10:00 *)
Definition late_task (task_id : string) : Task.t :=
  Task.mk task_id "p1" "p1-s0" None "Update documentation" "" None None None
    (mk_datetime 2024 6 28 10 0 0) true (Some (mk_datetime 2024 6 30 10 0 0))
    None "normal".

(** A task with a due date, and the five kinds of definition on its project *)
Definition dated_task : Task.t :=
  Task.mk "b" "p1" "p1-s1" None "Review security compliance" "" None
    (Some (mk_datetime 2024 6 14 0 0 0)) None (mk_datetime 2024 6 3 9 30 0)
    false None None "high".

Definition demo_fields : list FieldDef.t :=
  [FieldDef.mk "f1" "p1" "Owner" "text" None;
   FieldDef.mk "f2" "p1" "Budget" "number" None;
   FieldDef.mk "f3" "p1" "Effort" "enum" (Some ["XS"; "S"; "M"; "L"; "XL"]);
   FieldDef.mk "f4" "p1" "Target Date" "date" None;
   FieldDef.mk "f5" "p1" "Category" "multi_enum"
     (Some ["Feature"; "Bug"; "Enhancement"; "Documentation"; "Research"]);
   FieldDef.mk "f6" "p2" "Status" "enum"
     (Some ["Not Started"; "In Progress"; "Blocked"; "Done"])].

(** A run on which both passes return, with completed and open tasks *)
Definition demo_tape : list Z :=
  map (fun i => (Z.of_nat i * 7919 * 2 ^ 40) mod 2 ^ 53 + Z.of_nat i) (seq 1 200).

Definition demo_world : world :=
  mkWorld demo_tape [7 # 2; 41 # 10; 1 # 3]%Q [3; 1; 4; 1; 5; 9; 2; 6]
    ["Ada Lovelace"; "Alan Turing"; "ada lovelace"].

Definition demo_users : list User.t :=
  [User.mk "u1" "org" "ada.lovelace@acme.com" "Ada Lovelace" "Tech Lead"
     "Engineering" (mk_datetime 2024 1 10 0 0 0);
   User.mk "u2" "org" "alan.turing@acme.com" "Alan Turing" "Product Lead"
     "Product" (mk_datetime 2024 2 1 0 0 0);
   User.mk "u3" "org" "grace.hopper@acme.com" "Grace Hopper" "UX Designer"
     "Design" (mk_datetime 2024 2 20 0 0 0);
   User.mk "u4" "org" "edsger.dijkstra@acme.com" "Edsger Dijkstra"
     "Staff Engineer" "Engineering" (mk_datetime 2024 3 15 0 0 0)].

Definition demo_teams : list Team.t :=
  [Team.mk "t1" "org" "Platform Team"
     "Platform Team team responsible for core initiatives."
     (mk_datetime 2024 1 5 0 0 0);
   Team.mk "t2" "org" "UX Design"
     "UX Design team responsible for core initiatives."
     (mk_datetime 2024 1 20 0 0 0)].

Definition demo_memberships : gmap string (list string) :=
  {[ "t1" := ["u1"; "u4"]; "t2" := ["u3"] ]}.

(** Two projects created in spring, with their standard sections *)
Definition demo_projects : list Project.t :=
  [Project.mk "p1" "t1" "Bug Fix Sprint Q1"
     "Track and coordinate key engineering work for Bug Fix Sprint Q1."
     (Some "engineering") "green" false (mk_datetime 2024 3 4 0 0 0) (Some "u1");
   Project.mk "p2" "t2" "Website Redesign Project"
     "Project for Website Redesign Project focusing on marketing initiatives."
     (Some "marketing") "pink" false (mk_datetime 2024 4 8 0 0 0) (Some "u3")].

Definition demo_sections : list Section_.t :=
  sections_of "p1" (mk_datetime 2024 3 4 0 0 0)
  ++ sections_of "p2" (mk_datetime 2024 4 8 0 0 0).

(** Draws under which both sample projects get custom fields *)
Definition fields_world : world :=
  mkWorld [0; 1; 5; 2; 7; 9; 11; 3; 4; 0; 6; 8] []
    [1; 2; 3; 4; 5; 6; 7; 8; 9] [].

(** The draws of [demo_world] with entropy for forty identifiers *)
Definition entropy_world : world :=
  mkWorld demo_tape [7 # 2; 41 # 10; 1 # 3]%Q
    (map (fun i => (Z.of_nat i * 37) mod 256) (seq 1 640)) [].

(** * Properties *)

(** ** Reasoning about computations *)

Lemma ensures_ret {S A : Type} (a : A) (P : A -> Prop) : P a -> ensures (S := S) (ret a) P.
Proof. intros HP s a' s' [= <- _]. exact HP. Qed.

Lemma ensures_raise {S A : Type} (e : exn) (P : A -> Prop) : ensures (S := S) (raise e) P.
Proof. intros s a s' [=]. Qed.

Lemma ensures_weaken {S A : Type} (m : M S A) (P Q : A -> Prop) :
  ensures m P -> (forall a, P a -> Q a) -> ensures m Q.
Proof. intros Hm HPQ s a s' Hs. eapply HPQ, Hm, Hs. Qed.

Lemma ensures_bind {S A B : Type} (m : M S A) (k : A -> M S B) (P : A -> Prop) (Q : B -> Prop) :
  ensures m P -> (forall a, P a -> ensures (k a) Q) -> ensures (bind m k) Q.
Proof.
  intros Hm Hk s b s'. unfold bind.
  destruct (m s) as [[a| |] s1] eqn:Hms; try discriminate.
  intros Hks. eapply Hk; [eapply Hm, Hms | exact Hks].
Qed.

Lemma ensures_bind_any {S A B : Type} (m : M S A) (k : A -> M S B) (Q : B -> Prop) :
  (forall a, ensures (k a) Q) -> ensures (bind m k) Q.
Proof.
  intros Hk. apply ensures_bind with (P := fun _ => True); [easy | auto].
Qed.

Lemma ensures_lift_outcome {S A : Type} (r : outcome A) (P : A -> Prop) :
  (forall a, r = Returns a -> P a) -> ensures (S := S) (lift_outcome r) P.
Proof. intros H s a s' [= -> _]. auto. Qed.

Lemma ensures_foldM {S A B : Type} (body : B -> A -> M S B) (Inv : B -> Prop) (xs : list A) :
  (forall acc x, x ∈ xs -> Inv acc -> ensures (body acc x) Inv) ->
  forall acc, Inv acc -> ensures (foldM body acc xs) Inv.
Proof.
  induction xs as [|x xs IH]; intros Hbody acc Hacc; simpl.
  - by apply ensures_ret.
  - eapply ensures_bind.
    + apply Hbody; [left | done].
    + intros acc' Hacc'. apply IH; [|done].
      intros acc'' y Hy. apply Hbody. by right.
Qed.

Lemma ensures_and {S A} (m : M S A) (P Q : A -> Prop) :
  ensures m P -> ensures m Q -> ensures m (fun a => P a /\ Q a).
Proof. intros HP HQ s a s' Hs. split; [eapply HP | eapply HQ]; exact Hs. Qed.

Lemma ensures_replicateM_length {S A} (m : M S A) (n : nat) :
  ensures (replicateM n m) (fun l => length l = n).
Proof.
  induction n as [|n IH]; simpl; [by apply ensures_ret|].
  apply ensures_bind_any. intros y. eapply ensures_bind; [exact IH|].
  intros ys Hys. apply ensures_ret. simpl. by rewrite Hys.
Qed.

Lemma ensures_foldM_length {S A B C} (proj : B -> list C)
    (body : B -> A -> M S B) (xs : list A) :
  (forall acc x,
     ensures (body acc x)
       (fun acc' => length (proj acc') = Datatypes.S (length (proj acc)))) ->
  forall acc,
    ensures (foldM body acc xs)
      (fun acc' => length (proj acc') = (length (proj acc) + length xs)%nat).
Proof.
  intros Hbody. induction xs as [|x xs IH]; intros acc; simpl.
  - apply ensures_ret. lia.
  - eapply ensures_bind; [apply Hbody|]. intros acc1 Hacc1.
    eapply ensures_weaken; [apply IH|]. intros acc' Hacc'. cbv beta in *. lia.
Qed.

Lemma ensures_mapM {S A B : Type} (f : A -> M S B) (P : B -> Prop) (xs : list A) :
  (forall x, x ∈ xs -> ensures (f x) P) -> ensures (mapM f xs) (Forall P).
Proof.
  induction xs as [|x xs IH]; intros Hf; simpl.
  - by apply ensures_ret.
  - eapply ensures_bind; [apply Hf; left|].
    intros y Hy. eapply ensures_bind.
    + apply IH. intros z Hz. apply Hf. by right.
    + intros ys Hys. apply ensures_ret. by constructor.
Qed.

Lemma ensures_replicateM {S A : Type} (m : M S A) (P : A -> Prop) (n : nat) :
  ensures m P -> ensures (replicateM n m) (Forall P).
Proof.
  intros Hm. induction n as [|n IH]; simpl.
  - by apply ensures_ret.
  - eapply ensures_bind; [exact Hm|].
    intros y Hy. eapply ensures_bind; [exact IH|].
    intros ys Hys. apply ensures_ret. by constructor.
Qed.

Lemma terminates_ret {S A : Type} (a : A) : terminates (S := S) (ret a).
Proof. intros s. discriminate. Qed.

Lemma terminates_raise {S A : Type} (e : exn) : terminates (S := S) (A := A) (raise e).
Proof. intros s. discriminate. Qed.

Lemma terminates_bind {S A B : Type} (m : M S A) (k : A -> M S B) :
  terminates m -> (forall a, terminates (k a)) -> terminates (bind m k).
Proof.
  intros Hm Hk s. unfold bind. specialize (Hm s).
  destruct (m s) as [[a| |] s1]; simpl in *; [apply Hk | discriminate | done].
Qed.

(** The same, knowing what [m] returns *)
Lemma terminates_bind_ensures {S A B : Type} (m : M S A) (k : A -> M S B) (P : A -> Prop) :
  terminates m -> ensures m P -> (forall a, P a -> terminates (k a)) ->
  terminates (bind m k).
Proof.
  intros Hm HP Hk s. unfold bind. specialize (Hm s).
  destruct (m s) as [[a| |] s1] eqn:Hms; simpl in *;
    [eapply Hk, HP, Hms | discriminate | done].
Qed.

Lemma terminates_foldM {S A B : Type} (body : B -> A -> M S B) (xs : list A) :
  (forall acc x, terminates (body acc x)) ->
  forall acc, terminates (foldM body acc xs).
Proof.
  intros Hbody. induction xs as [|x xs IH]; intros acc; simpl.
  - apply terminates_ret.
  - apply terminates_bind; auto.
Qed.

Lemma terminates_foldM_inv {S A B : Type} (body : B -> A -> M S B) (Inv : B -> Prop)
    (xs : list A) :
  (forall acc x, Inv acc -> terminates (body acc x)) ->
  (forall acc x, Inv acc -> ensures (body acc x) Inv) ->
  forall acc, Inv acc -> terminates (foldM body acc xs).
Proof.
  intros Hbody Hinv. induction xs as [|x xs IH]; intros acc Hacc; simpl.
  - apply terminates_ret.
  - eapply terminates_bind_ensures; eauto.
Qed.

Lemma terminates_mapM {S A B : Type} (f : A -> M S B) (xs : list A) :
  (forall x, terminates (f x)) -> terminates (mapM f xs).
Proof.
  intros Hf. induction xs as [|x xs IH]; simpl.
  - apply terminates_ret.
  - apply terminates_bind; [apply Hf|]. intros y.
    apply terminates_bind; [apply IH|]. intros ys. apply terminates_ret.
Qed.

Lemma terminates_replicateM {S A : Type} (m : M S A) (n : nat) :
  terminates m -> terminates (replicateM n m).
Proof.
  intros Hm. induction n as [|n IH]; simpl.
  - apply terminates_ret.
  - apply terminates_bind; [apply Hm|]. intros y.
    apply terminates_bind; [apply IH|]. intros ys. apply terminates_ret.
Qed.

(** *** The primitives *)

Lemma next_raw_returns (w : world) :
  exists z w', next_raw w = (Returns z, w').
Proof. unfold next_raw. destruct (py_random w); eauto. Qed.

Lemma terminates_next_raw : terminates next_raw.
Proof. intros w. destruct (next_raw_returns w) as (z & w' & ->). discriminate. Qed.

Lemma terminates_random : terminates random.
Proof.
  apply terminates_bind; [apply terminates_next_raw | intros; apply terminates_ret].
Qed.

Lemma ensures_randrange (n : Z) : ensures (randrange n) (fun z => 0 <= z < n).
Proof.
  unfold randrange. destruct (Z.leb_spec n 0); [apply ensures_raise|].
  apply ensures_bind_any. intros z. apply ensures_ret. by apply Z.mod_pos_bound.
Qed.

Lemma terminates_randrange (n : Z) : terminates (randrange n).
Proof.
  unfold randrange. destruct (n <=? 0); [apply terminates_raise|].
  apply terminates_bind; [apply terminates_next_raw | intros; apply terminates_ret].
Qed.

Lemma ensures_randint (a b : Z) : ensures (randint a b) (fun z => a <= z <= b).
Proof.
  unfold randint. destruct (Z.leb_spec (b + 1 - a) 0); [apply ensures_raise|].
  apply ensures_bind_any. intros z. apply ensures_ret.
  pose proof (Z.mod_pos_bound z (b + 1 - a)). lia.
Qed.

Lemma randint_returns (a b : Z) (w : world) :
  a <= b -> exists z w', randint a b w = (Returns z, w') /\ a <= z <= b.
Proof.
  intros Hab. unfold randint. destruct (Z.leb_spec (b + 1 - a) 0); [lia|].
  unfold bind. destruct (next_raw_returns w) as (z & w' & ->).
  eexists _, _. split; [reflexivity|].
  pose proof (Z.mod_pos_bound z (b + 1 - a)). lia.
Qed.

Lemma terminates_randint (a b : Z) : terminates (randint a b).
Proof.
  unfold randint. destruct (b + 1 - a <=? 0); [apply terminates_raise|].
  apply terminates_bind; [apply terminates_next_raw | intros; apply terminates_ret].
Qed.

Lemma ensures_choice {A} (seq : list A) : ensures (choice seq) (fun x => x ∈ seq).
Proof.
  unfold choice. destruct seq as [|x seq]; [apply ensures_raise|].
  apply ensures_bind_any. intros z. apply ensures_ret.
  apply list_elem_of_In, nth_In.
  pose proof (Z.mod_pos_bound z (Z.of_nat (length (x :: seq)))). simpl in *. lia.
Qed.

Lemma terminates_choice {A} (seq : list A) : terminates (choice seq).
Proof.
  unfold choice. destruct seq; [apply terminates_raise|].
  apply terminates_bind; [apply terminates_next_raw | intros; apply terminates_ret].
Qed.

Lemma terminates_choices1 {A} (population : list A) (weights : list Q) :
  terminates (choices1 population weights).
Proof.
  unfold choices1. destruct (negb _); [apply terminates_raise|].
  destruct population; [apply terminates_raise|].
  destruct (Qleb _ _); [apply terminates_raise|].
  destruct (negb _); [apply terminates_raise|].
  apply terminates_bind; [apply terminates_random | intros; apply terminates_ret].
Qed.

Lemma bind_returns {S A B} (m : M S A) (k : A -> M S B) (s s' : S) (a : A) :
  m s = (Returns a, s') -> bind m k s = k a s'.
Proof. intros Hm. unfold bind. by rewrite Hm. Qed.

Lemma bind_raises {S A B} (m : M S A) (k : A -> M S B) (s s' : S) (e : exn) :
  m s = (Raises e, s') -> bind m k s = (Raises e, s').
Proof. intros Hm. unfold bind. by rewrite Hm. Qed.

(** *** Sums of dates *)

Lemma datetime_max_eq : datetime_max = 315537897599999999.
Proof. reflexivity. Qed.

Lemma checked_date_returns (dt : Z) :
  is_datetime dt -> checked_date dt = Returns dt.
Proof.
  intros [Hmin Hmax]. unfold checked_date.
  destruct (Z.ltb_spec dt datetime_min); [lia|].
  destruct (Z.ltb_spec datetime_max dt); [lia | done].
Qed.

Lemma checked_date_inv (dt r : Z) :
  checked_date dt = Returns r -> r = dt /\ is_datetime dt.
Proof.
  unfold checked_date, is_datetime.
  destruct (Z.ltb_spec dt datetime_min); [done|].
  destruct (Z.ltb_spec datetime_max dt); [done|].
  intros [= <-]. lia.
Qed.

Lemma checked_date_terminates (dt : Z) : checked_date dt <> Diverges.
Proof. unfold checked_date. by destruct (_ || _). Qed.

Lemma add_timedelta_returns {S} (dt td : Z) (s : S) :
  is_datetime (dt + td) -> add_timedelta dt td s = (Returns (dt + td), s).
Proof.
  intros Hin. unfold add_timedelta, lift_outcome.
  by rewrite checked_date_returns.
Qed.

Lemma add_timedelta_raises {S} (dt td : Z) (s : S) :
  datetime_max < dt + td -> add_timedelta dt td s = (Raises OverflowError, s).
Proof.
  intros Hout. unfold add_timedelta, lift_outcome, checked_date.
  destruct (Z.ltb_spec datetime_max (dt + td)); [|lia].
  by rewrite orb_true_r.
Qed.

Lemma ensures_add_timedelta {S} (dt td : Z) :
  ensures (S := S) (add_timedelta dt td)
    (fun r => r = dt + td /\ is_datetime r).
Proof.
  intros s r s' [= Hr _]. apply checked_date_inv in Hr as [-> Hin]. done.
Qed.

Lemma terminates_add_timedelta {S} (dt td : Z) :
  terminates (S := S) (add_timedelta dt td).
Proof. intros s. apply checked_date_terminates. Qed.

(** ** [random_date] *)

Ltac unfold_days :=
  unfold td_days, days, seconds, us_per_day, us_per_second in *.

(** Linear arithmetic over day counts, divisions by a day included *)
Ltac days_lia := unfold_days; Z.to_euclidean_division_equations; lia.

Lemma td_days_pos (td : Z) : 0 < td_days td <-> us_per_day <= td.
Proof. days_lia. Qed.

Lemma td_days_le (td : Z) : days (td_days td) <= td.
Proof. days_lia. Qed.

Lemma random_date_spec (start_date end_date : Z) (w : world) :
  (us_per_day <= end_date - start_date ->
   exists k w', random_date start_date end_date w = (Returns (start_date + days k), w')
                /\ 0 <= k < td_days (end_date - start_date))
  /\ (end_date - start_date < us_per_day ->
      random_date start_date end_date w = (Raises ValueError, w)).
Proof.
  unfold random_date, randrange, bind. split; intros Hd.
  - apply td_days_pos in Hd. destruct (Z.leb_spec (td_days (end_date - start_date)) 0); [lia|].
    destruct (next_raw_returns w) as (z & w' & ->).
    eexists _, _. split; [reflexivity|]. by apply Z.mod_pos_bound.
  - destruct (Z.leb_spec (td_days (end_date - start_date)) 0) as [|Hpos]; [done|].
    apply td_days_pos in Hpos. lia.
Qed.

Lemma ensures_random_date (start_date end_date : Z) :
  ensures (random_date start_date end_date)
    (fun d => exists k, 0 <= k /\ d = start_date + days k /\ d < end_date).
Proof.
  unfold random_date. eapply ensures_bind; [apply ensures_randrange|].
  intros k Hk. cbv beta in Hk. apply ensures_ret. exists k.
  split; [lia|]. split; [done|].
  pose proof (td_days_le (end_date - start_date)). days_lia.
Qed.

(** C10.  [random_date(start, end)] returns a value exactly when [end - start]
    is at least one full day; on a shorter positive span it raises
    [ValueError] instead; and a returned value is [start] plus a whole,
    non-negative number of days and lies strictly below [end]. *)
Theorem random_date_returns_iff_full_day (start_date end_date : Z) (w : world) :
  ((exists d w', random_date start_date end_date w = (Returns d, w'))
   <-> us_per_day <= end_date - start_date)
  /\ (start_date < end_date /\ end_date - start_date < us_per_day ->
      exists w', random_date start_date end_date w = (Raises ValueError, w'))
  /\ (forall d w', random_date start_date end_date w = (Returns d, w') ->
      exists k, 0 <= k /\ d = start_date + days k /\ d < end_date).
Proof.
  destruct (random_date_spec start_date end_date w) as [Hok Hraise].
  split; [split|split].
  - intros (d & w' & Hd). apply Z.nlt_ge. intros Hlt.
    rewrite (Hraise Hlt) in Hd. discriminate.
  - intros Hd. destruct (Hok Hd) as (k & w' & Hk & _). eauto.
  - intros [_ Hlt]. eauto.
  - intros d w' Hd. eapply ensures_random_date, Hd.
Qed.

(** A run that returns: a span of two days and a half, second draw. *)
Example random_date_full_days :
  random_date (mk_datetime 2024 1 1 0 0 0) (mk_datetime 2024 1 3 12 0 0)
    (mkWorld [7] [] [] [])
  = (Returns (mk_datetime 2024 1 2 0 0 0), mkWorld [] [] [] []).
Proof. reflexivity. Qed.

(** A run that raises: the span is twenty-three hours. *)
Example random_date_short_span :
  fst (random_date (mk_datetime 2024 1 1 0 0 0) (mk_datetime 2024 1 1 23 0 0)
         (mkWorld [7] [] [] []))
  = Raises ValueError.
Proof. reflexivity. Qed.

(** ** [generate_completion_date] *)

Lemma terminates_lognormal : terminates lognormal.
Proof. intros w. unfold lognormal, next_np. by destruct (np_random w). Qed.

Lemma lognormal_returns (w : world) : exists x w', lognormal w = (Returns x, w').
Proof. unfold lognormal, next_np. destruct (np_random w); eauto. Qed.

Lemma random_returns (w : world) : exists r w', random w = (Returns r, w').
Proof.
  unfold random, bind. destruct (next_raw_returns w) as (z & w' & ->).
  unfold ret. eauto.
Qed.

Lemma days_mono (a b : Z) : a <= b -> days a <= days b.
Proof. days_lia. Qed.

(** What [generate_completion_date] returns for a completed task when the
    dates it computes on the way are dates of the years 1 to 9999: never
    later than the end date, and at least a day after the creation unless
    the end date comes first. *)
Lemma completion_date_bounds (created_at : Z) (due_date : option Z)
    (end_date : Z) (w : world) :
  datetime_min <= created_at -> created_at + days 60 <= datetime_max ->
  (forall due, due_date = Some due ->
     datetime_min <= due - days 3 /\ due + days 7 <= datetime_max) ->
  exists c w',
    generate_completion_date created_at due_date true end_date w
      = (Returns (Some c), w')
    /\ c <= end_date
    /\ Z.min (created_at + days 1) end_date <= c.
Proof.
  intros Hmin Hmax Hdue. unfold datetime_min in *.
  assert (forall dt, 0 <= dt <= datetime_max -> is_datetime dt) as Hin by done.
  unfold generate_completion_date. change (negb true) with false. cbv iota.
  destruct (lognormal_returns w) as (x & w1 & Hx).
  rewrite (bind_returns _ _ _ _ _ Hx).
  set (cycle := Z.min (Z.max 1 (int_of_float x)) 60).
  assert (days 1 <= days cycle <= days 60) as Hcycle
    by (split; apply days_mono; lia).
  assert (0 < days 1) as Hday by done.
  clearbody cycle.
  assert (is_datetime (created_at + days cycle)) as Hsum by (apply Hin; lia).
  rewrite (bind_returns _ _ _ _ _ (add_timedelta_returns _ _ _ Hsum)).
  destruct (Z.ltb_spec (created_at + days cycle) created_at) as [?|_]; [lia|].
  rewrite (bind_returns _ _ w1 w1 (created_at + days cycle)) by done.
  destruct due_date as [due|].
  - destruct (Hdue due eq_refl) as [Hlow Hhigh].
    destruct (random_returns w1) as (r & w2 & Hr).
    rewrite (bind_returns _ _ _ _ _ Hr).
    destruct (Qltb r 0.7).
    + destruct (randint_returns (-3) 7 w2) as (v & w3 & Hv & Hvb); [lia|].
      rewrite (bind_returns _ _ _ _ _ Hv).
      assert (days (-3) <= days v <= days 7) as Hvd
        by (split; apply days_mono; lia).
      assert (due - days 3 = due + days (-3)) as Hneg by (unfold days; lia).
      assert (is_datetime (due + days v)) as Hnear by (apply Hin; lia).
      assert (is_datetime (created_at + days 1)) as Hnext by (apply Hin; lia).
      rewrite (bind_returns _ _ _ _ _ (add_timedelta_returns _ _ _ Hnear)).
      rewrite (bind_returns _ _ _ _ _ (add_timedelta_returns _ _ _ Hnext)).
      eexists _, _. split; [reflexivity|]. lia.
    + eexists _, _. split; [reflexivity|].
      repeat case_match; lia.
  - eexists _, _. split; [reflexivity|].
    repeat case_match; lia.
Qed.

(** C6, as amended.  For a completed task created at least one day before
    the run end date, [generate_completion_date] returns a timestamp in
    [[created_at + 1 day, end_date]], on the cycle-time path and on the
    due-date-anchored path alike, provided the dates it computes on the way
    stay within the years 1 to 9999: the creation time plus a cycle time of
    sixty days at most, and the due date moved by three days back to seven
    days on. *)
Theorem completion_date_in_window (created_at : Z) (due_date : option Z)
    (end_date : Z) (w : world) :
  created_at + days 1 <= end_date ->
  datetime_min <= created_at -> created_at + days 60 <= datetime_max ->
  (forall due, due_date = Some due ->
     datetime_min <= due - days 3 /\ due + days 7 <= datetime_max) ->
  exists c w',
    generate_completion_date created_at due_date true end_date w
      = (Returns (Some c), w')
    /\ created_at + days 1 <= c <= end_date.
Proof.
  intros Hwin Hmin Hmax Hdue.
  destruct (completion_date_bounds created_at due_date end_date w Hmin Hmax Hdue)
    as (c & w' & Hrun & Hle & Hge).
  exists c, w'. split; [done|]. lia.
Qed.

Lemma completion_date_in_window_witness :
  exists c w',
    generate_completion_date (mk_datetime 2024 3 4 9 0 0)
      (Some (mk_datetime 2024 3 8 0 0 0)) true (mk_datetime 2024 7 1 0 0 0)
      (mkWorld [0; 5] [7 # 2]%Q [] [])
      = (Returns (Some c), w')
    /\ mk_datetime 2024 3 4 9 0 0 + days 1 <= c <= mk_datetime 2024 7 1 0 0 0.
Proof.
  apply (completion_date_in_window (mk_datetime 2024 3 4 9 0 0)
           (Some (mk_datetime 2024 3 8 0 0 0)) (mk_datetime 2024 7 1 0 0 0)).
  - vm_compute. discriminate.
  - vm_compute. discriminate.
  - vm_compute. discriminate.
  - intros due [= <-]. split; vm_compute; discriminate.
Defined.

(** C6, as stated, fails on two counts.  A task created on the end date
    itself (so "at or before" it) completes on the end date, less than a day
    after creation.  And at the end of the calendar the creation time plus
    the cycle time is no date any more: for a task created two days before
    the last day, with an end date a day later, the function stops with
    [OverflowError] before it clamps. *)
Lemma completion_date_window_counterexample :
  (mk_datetime 2024 7 1 0 0 0 <= mk_datetime 2024 7 1 0 0 0
   /\ generate_completion_date (mk_datetime 2024 7 1 0 0 0) None true
        (mk_datetime 2024 7 1 0 0 0) (mkWorld [] [7 # 2]%Q [] [])
      = (Returns (Some (mk_datetime 2024 7 1 0 0 0)), mkWorld [] [] [] [])
   /\ mk_datetime 2024 7 1 0 0 0 < mk_datetime 2024 7 1 0 0 0 + days 1)
  /\ (mk_datetime 9999 12 30 0 0 0 + days 1 <= mk_datetime 9999 12 31 23 0 0
      /\ generate_completion_date (mk_datetime 9999 12 30 0 0 0) None true
           (mk_datetime 9999 12 31 23 0 0) (mkWorld [] [7 # 2]%Q [] [])
         = (Raises OverflowError, mkWorld [] [] [] [])).
Proof. vm_compute. repeat split; discriminate. Qed.

(** ** [random_weekday_date] *)

Lemma weekday_loop_unfold (fuel : nat) (end_date date : Z) :
  weekday_loop fuel end_date date
  = if 5 <=? weekday date then
      match fuel with
      | O => Diverges
      | Datatypes.S fuel' =>
          if date <? end_date - days 2
          then weekday_loop fuel' end_date (date + days 1)
          else weekday_loop fuel' end_date (date - days 1)
      end
    else Returns date.
Proof. by destruct fuel. Qed.

(** When the loop hands back a date, the date is a weekday. *)
Lemma weekday_loop_weekday (fuel : nat) (end_date date d : Z) :
  weekday_loop fuel end_date date = Returns d -> 0 <= weekday d < 5.
Proof.
  revert date. induction fuel as [|fuel IH]; intros date;
    rewrite weekday_loop_unfold; destruct (Z.leb_spec 5 (weekday date)) as [|Hwd];
    try discriminate.
  - intros [= <-]. unfold weekday in *. days_lia.
  - destruct (date <? end_date - days 2); apply IH.
  - intros [= <-]. unfold weekday in *. days_lia.
Qed.

(** A Saturday strictly before [end_date - 2 days] whose Sunday is not: the
    loop moves to the Sunday, back to the Saturday, and so on for ever. *)
Lemma weekday_loop_oscillates (end_date sat : Z) :
  weekday sat = 5 ->
  sat < end_date - days 2 <= sat + days 1 ->
  forall fuel,
    weekday_loop fuel end_date sat = Diverges
    /\ weekday_loop fuel end_date (sat + days 1) = Diverges.
Proof.
  intros Hsat Hend.
  assert (weekday (sat + days 1) = 6) as Hsun by (unfold weekday in *; days_lia).
  induction fuel as [|fuel [IHsat IHsun]].
  - rewrite !weekday_loop_unfold, Hsat, Hsun. done.
  - split; rewrite weekday_loop_unfold.
    + rewrite Hsat. change (5 <=? 5) with true. cbv iota.
      destruct (Z.ltb_spec sat (end_date - days 2)); [done | lia].
    + rewrite Hsun. change (5 <=? 6) with true. cbv iota.
      destruct (Z.ltb_spec (sat + days 1) (end_date - days 2)); [lia|].
      by replace (sat + days 1 - days 1) with sat by lia.
Qed.

(** C7, the run on which the sampler never returns.  From Saturday
    2024-01-06 to Tuesday 2024-01-09 (so [start < end], three full days
    apart), when [random_date] picks the start date itself, no amount of
    fuel lets the weekday loop finish. *)
Theorem random_weekday_date_diverges (fuel : nat) :
  mk_datetime 2024 1 6 0 0 0 < mk_datetime 2024 1 9 0 0 0
  /\ fst (random_weekday_date fuel (mk_datetime 2024 1 6 0 0 0)
            (mk_datetime 2024 1 9 0 0 0) (mkWorld [0] [] [] []))
     = Diverges.
Proof.
  split; [done|].
  unfold random_weekday_date.
  rewrite (bind_returns _ _ _ (mkWorld [] [] [] []) (mk_datetime 2024 1 6 0 0 0))
    by reflexivity.
  unfold lift_outcome. cbn [fst].
  apply weekday_loop_oscillates; by vm_compute.
Qed.

(** On spans shorter than a day the sampler raises instead of returning. *)
Lemma random_weekday_date_short_span (fuel : nat) (start_date end_date : Z)
    (w : world) :
  end_date - start_date < us_per_day ->
  random_weekday_date fuel start_date end_date w = (Raises ValueError, w).
Proof.
  intros Hlt. unfold random_weekday_date.
  apply bind_raises. by apply random_date_spec.
Qed.

(** Whenever the sampler does return, the date is Monday to Friday. *)
Theorem random_weekday_date_weekday (fuel : nat) (start_date end_date : Z)
    (w w' : world) (d : Z) :
  random_weekday_date fuel start_date end_date w = (Returns d, w') ->
  0 <= weekday d < 5.
Proof.
  revert w d w'.
  change (ensures (random_weekday_date fuel start_date end_date)
            (fun d => 0 <= weekday d < 5)).
  unfold random_weekday_date. apply ensures_bind_any. intros date.
  apply ensures_lift_outcome. intros d. apply weekday_loop_weekday.
Qed.

Lemma random_weekday_date_weekday_witness :
  random_weekday_date 2 (mk_datetime 2024 1 6 0 0 0) (mk_datetime 2024 7 1 0 0 0)
    (mkWorld [0] [] [] [])
  = (Returns (mk_datetime 2024 1 8 0 0 0), mkWorld [] [] [] [])
  /\ 0 <= weekday (mk_datetime 2024 1 8 0 0 0) < 5.
Proof.
  split; [reflexivity|].
  apply (random_weekday_date_weekday 2 (mk_datetime 2024 1 6 0 0 0)
           (mk_datetime 2024 7 1 0 0 0) (mkWorld [0] [] [] [])
           (mkWorld [] [] [] [])).
  reflexivity.
Defined.

(** ** [generate_due_date]: the weekend loop needs two steps at most *)

Lemma back_to_weekday_spec (due_date r : Z) :
  back_to_weekday 2 due_date = Returns r ->
  due_date - days 2 <= r <= due_date /\ 0 <= weekday r < 5.
Proof.
  unfold back_to_weekday.
  destruct (Z.leb_spec 5 (weekday due_date)) as [H1|H1].
  - destruct (checked_date (due_date - days 1)) as [d1| |] eqn:Hd1;
      [|discriminate..].
    apply checked_date_inv in Hd1 as [-> _].
    destruct (Z.leb_spec 5 (weekday (due_date - days 1))) as [H2|H2].
    + destruct (checked_date (due_date - days 1 - days 1)) as [d2| |] eqn:Hd2;
        [|discriminate..].
      apply checked_date_inv in Hd2 as [-> _].
      destruct (Z.leb_spec 5 (weekday (due_date - days 1 - days 1))) as [H3|H3];
        [discriminate|].
      intros [= <-]. unfold weekday in *. days_lia.
    + intros [= <-]. unfold weekday in *. days_lia.
  - intros [= <-]. unfold weekday in *. days_lia.
Qed.

(** A weekend lies five days past [datetime.min] at least: the loop leaves
    it within two steps, none of which leaves the calendar. *)
Lemma back_to_weekday_returns (due_date : Z) :
  is_datetime due_date -> exists d, back_to_weekday 2 due_date = Returns d.
Proof.
  intros [Hmin Hmax]. unfold datetime_min in Hmin. unfold back_to_weekday.
  assert (forall dt, 0 <= dt <= datetime_max -> checked_date dt = Returns dt)
    as Hin by (intros dt Hdt; by apply checked_date_returns).
  destruct (Z.leb_spec 5 (weekday due_date)) as [H1|]; [|eauto].
  rewrite Hin by (unfold weekday in *; days_lia).
  destruct (Z.leb_spec 5 (weekday (due_date - days 1))) as [H2|]; [|eauto].
  rewrite Hin by (unfold weekday in *; days_lia).
  destruct (Z.leb_spec 5 (weekday (due_date - days 1 - days 1))) as [H3|]; [|eauto].
  unfold weekday in *. days_lia.
Qed.

Lemma back_to_weekday_terminates (due_date : Z) :
  back_to_weekday 2 due_date <> Diverges.
Proof.
  unfold back_to_weekday.
  destruct (Z.leb_spec 5 (weekday due_date)) as [H1|]; [|done].
  destruct (checked_date (due_date - days 1)) as [d1| |] eqn:Hd1; [|done|];
    [|by apply checked_date_terminates in Hd1].
  apply checked_date_inv in Hd1 as [-> _].
  destruct (Z.leb_spec 5 (weekday (due_date - days 1))) as [H2|]; [|done].
  destruct (checked_date (due_date - days 1 - days 1)) as [d2| |] eqn:Hd2;
    [|done|]; [|by apply checked_date_terminates in Hd2].
  apply checked_date_inv in Hd2 as [-> _].
  destruct (Z.leb_spec 5 (weekday (due_date - days 1 - days 1))) as [H3|];
    [|done].
  unfold weekday in *. days_lia.
Qed.

(** ** Task creation times *)

(** C5, a run that breaks the lower bound.  With the default dates
    (2024-01-01 to 2024-07-01) and a project created on Saturday 2024-06-29,
    a task drawn at 01:00 on that Saturday is moved to Monday 2024-07-01
    01:00, which is past the end date, and then seven days back: it is
    created on Monday 2024-06-24, five days before its project. *)
Theorem task_created_before_its_project :
  match fst (generate_tasks (mkLLM None) [late_project]
               (sections_of "p1" (mk_datetime 2024 6 29 0 0 0)) [] ∅
               (mk_datetime 2024 1 1 0 0 0) (mk_datetime 2024 7 1 0 0 0) 30
               (mkWorld [0; 3600; 2 ^ 52] [] [] [])) with
  | Returns (t :: _) =>
      Task.project_id t = Project.project_id late_project
      /\ Task.created_at t = mk_datetime 2024 6 24 1 0 0
      /\ Task.created_at t
         < Z.max (Project.created_at late_project) (mk_datetime 2024 1 1 0 0 0)
  | _ => False
  end.
Proof. vm_compute. repeat split; reflexivity. Qed.

(** The series itself, on the same draw *)
Example creation_times_below_start :
  fst (generate_creation_times (mk_datetime 2024 6 29 0 0 0)
         (mk_datetime 2024 7 1 0 0 0) 1 (mkWorld [3600; 2 ^ 52] [] [] []))
  = Returns [mk_datetime 2024 6 24 1 0 0].
Proof. reflexivity. Qed.

(** ** Subtasks *)

(** C3, a run that breaks the upper bound.  Of five tasks created on
    2024-06-28, three days before the end date 2024-07-01, one becomes a
    parent; its first subtask is created five days after it, on 2024-07-03,
    and completed seven days later, on 2024-07-10: both after the end date. *)
Theorem subtask_after_end_date :
  match fst (generate_subtasks
               [late_task "a"; late_task "b"; late_task "c"; late_task "d";
                late_task "e"] [] (b64 0.20)
               (mkWorld [0; 0; 0; 5; 0; 6] [] [] [])) with
  | Returns (s :: _) =>
      Task.parent_task_id s = Some "a"
      /\ Task.created_at (late_task "a") <= mk_datetime 2024 7 1 0 0 0
      /\ Task.created_at s = mk_datetime 2024 7 3 10 0 0
      /\ Task.completed_at s = Some (mk_datetime 2024 7 10 10 0 0)
      /\ mk_datetime 2024 7 1 0 0 0 < Task.created_at s
  | _ => False
  end.
Proof. vm_compute. repeat split; (reflexivity || discriminate). Qed.

(** ** The store only grows *)

Lemma appends_ret {A} (a : A) : appends (ret a).
Proof. intros w db. exists []. by rewrite app_nil_r. Qed.

Lemma appends_lift {A} (g : Gen A) : appends (lift g).
Proof.
  intros w db. exists []. unfold lift. destruct (g w) as [r w'].
  by rewrite app_nil_r.
Qed.

Lemma appends_insert_data (table_name : string) (data : list row) :
  appends (insert_data table_name data).
Proof.
  intros w db. unfold insert_data. destruct data.
  - exists []. by rewrite app_nil_r.
  - by eexists.
Qed.

Lemma appends_bind {A B} (m : Run A) (k : A -> Run B) :
  appends m -> (forall a, appends (k a)) -> appends (bind m k).
Proof.
  intros Hm Hk w db. unfold bind. destruct (Hm w db) as [rest1 H1].
  destruct (m (w, db)) as [[a| |] [w1 db1]]; simpl in H1; subst db1.
  - destruct (Hk a w1 (db ++ rest1)) as [rest2 H2].
    exists (rest1 ++ rest2). by rewrite H2, app_assoc.
  - by exists rest1.
  - by exists rest1.
Qed.

Lemma lift_returns {A} (g : Gen A) (w : world) (db : store) (a : A) (w' : world) :
  g w = (Returns a, w') -> lift g (w, db) = (Returns a, (w', db)).
Proof. intros Hg. unfold lift. by rewrite Hg. Qed.

Lemma lift_raises {A} (g : Gen A) (w : world) (db : store) (e : exn) (w' : world) :
  g w = (Raises e, w') -> lift g (w, db) = (Raises e, (w', db)).
Proof. intros Hg. unfold lift. by rewrite Hg. Qed.

Lemma insert_data_returns (table_name : string) (r : row) (data : list row)
    (w : world) (db : store) :
  insert_data table_name (r :: data) (w, db)
  = (Returns tt, (w, db ++ [(table_name, r :: data)])).
Proof. reflexivity. Qed.

Lemma insert_data_nothing (table_name : string) (w : world) (db : store) :
  insert_data table_name [] (w, db) = (Returns tt, (w, db)).
Proof. reflexivity. Qed.

Ltac appends_auto :=
  repeat first
    [ apply appends_ret | apply appends_lift | apply appends_insert_data
    | apply appends_bind; [| intros ?]
    | match goal with |- appends (match ?x with _ => _ end) => destruct x end ].

Lemma generate_id_returns (w : world) :
  exists i w', generate_id w = (Returns i, w')
               /\ py_random w' = py_random w /\ np_random w' = np_random w
               /\ faker_names w' = faker_names w.
Proof.
  assert (forall w, exists b w', next_byte w = (Returns b, w')
            /\ py_random w' = py_random w /\ np_random w' = np_random w
            /\ faker_names w' = faker_names w) as Hbyte.
  { intros w0. unfold next_byte. destruct (os_urandom w0); eauto 10. }
  assert (forall n w, exists bs w', replicateM n next_byte w = (Returns bs, w')
            /\ py_random w' = py_random w /\ np_random w' = np_random w
            /\ faker_names w' = faker_names w) as Hbytes.
  { induction n as [|n IH]; intros w0; simpl; [unfold ret; eauto 10|].
    destruct (Hbyte w0) as (b & w1 & Hb & ? & ? & ?).
    destruct (IH w1) as (bs & w2 & Hbs & ? & ? & ?).
    rewrite (bind_returns _ _ _ _ _ Hb), (bind_returns _ _ _ _ _ Hbs).
    unfold ret. eexists _, _. split; [done|]. split_and!; congruence. }
  destruct (Hbytes 16%nat w) as (bs & w' & Hbs & ?).
  unfold generate_id, uuid4, bind. rewrite Hbs. unfold ret. eauto.
Qed.

Lemma terminates_generate_id : terminates generate_id.
Proof. intros w. destruct (generate_id_returns w) as (i & w' & -> & _). done. Qed.

(** The first thing a run commits is the organization row, under the
    identifier [generate_id] drew first. *)
Lemma main_commits_organization (log : Q -> Q) (llm : LLMGenerator)
    (cfg : config) (w w1 : world) (org_id : string) :
  generate_id w = (Returns org_id, w1) ->
  exists rest,
    snd (snd (main log llm cfg (w, [])))
    = ("organizations",
       [OrganizationRow
          (Organization.mk org_id "Acme Corporation" "acme.com" (start_date cfg))])
      :: rest.
Proof.
  intros Hid. unfold main.
  rewrite (bind_returns _ _ _ _ _ (lift_returns _ _ [] _ _ Hid)).
  cbv beta zeta.
  rewrite (bind_returns _ _ _ _ _ (insert_data_returns _ _ _ _ _)).
  cbv beta.
  match goal with
  | |- context [?k (w1, ?db)] =>
      assert (appends k) as Happ by appends_auto;
      destruct (Happ w1 db) as [rest Hrest]
  end.
  exists rest. exact Hrest.
Qed.

(** ** Reproducibility *)

(** C1, two runs that differ.  Under one configuration and one stream of the
    seeded [random] module (and the same numpy draws and names), two runs
    that meet different operating-system entropy commit different
    organization rows: the identifier comes from [uuid.uuid4], which the
    seed does not reach. *)
Theorem same_seed_different_organization (log : Q -> Q) (llm : LLMGenerator)
    (cfg : config) (py : list Z) (np : list Q) (names : list string) :
  exists rest1 rest2,
    snd (snd (main log llm cfg (mkWorld py np [] names, [])))
    = ("organizations",
       [OrganizationRow
          (Organization.mk "00000000000040008000000000000000"
             "Acme Corporation" "acme.com" (start_date cfg))]) :: rest1
    /\ snd (snd (main log llm cfg (mkWorld py np [1] names, [])))
       = ("organizations",
          [OrganizationRow
             (Organization.mk "01000000000040008000000000000000"
                "Acme Corporation" "acme.com" (start_date cfg))]) :: rest2
    /\ snd (snd (main log llm cfg (mkWorld py np [] names, [])))
       <> snd (snd (main log llm cfg (mkWorld py np [1] names, []))).
Proof.
  destruct (main_commits_organization log llm cfg (mkWorld py np [] names)
              (mkWorld py np [] names) "00000000000040008000000000000000")
    as [rest1 H1]; [reflexivity|].
  destruct (main_commits_organization log llm cfg (mkWorld py np [1] names)
              (mkWorld py np [] names) "01000000000040008000000000000000")
    as [rest2 H2]; [reflexivity|].
  exists rest1, rest2. split; [done|]. split; [done|].
  rewrite H1, H2. intros [=].
Qed.

(** ** Completion flags *)

(** One step through a computation whose intermediate results do not matter *)
Ltac ensures_skip :=
  lazymatch goal with
  | |- ensures (bind _ _) _ => apply ensures_bind_any; intros ?
  | |- ensures (match ?x with _ => _ end) _ => destruct x
  end.

Lemma ensures_generate_completion_date (created_at : Z) (due_date : option Z)
    (completed : bool) (end_date : Z) :
  ensures (generate_completion_date created_at due_date completed end_date)
    (fun r => completed = true <-> r <> None).
Proof.
  unfold generate_completion_date. destruct completed; simpl.
  - repeat first [by apply ensures_ret | ensures_skip].
  - apply ensures_ret. split; [discriminate | done].
Qed.

Lemma ensures_generate_task (llm : LLMGenerator) (users : list User.t)
    (end_date : Z) (project_id project_type : string)
    (project_sections : list Section_.t) (team_members : list string)
    (completion_rate : Q) (created_at : Z) :
  ensures (generate_task llm users end_date project_id project_type
             project_sections team_members completion_rate created_at)
    completion_consistent.
Proof.
  unfold generate_task.
  do 7 ensures_skip.
  eapply ensures_bind; [apply ensures_generate_completion_date|].
  intros completed_at Hc. do 3 ensures_skip. by apply ensures_ret.
Qed.

Lemma ensures_generate_tasks (llm : LLMGenerator) (projects : list Project.t)
    (sections : list Section_.t) (users : list User.t)
    (team_memberships : gmap string (list string))
    (start_date end_date tasks_per_project : Z) :
  ensures (generate_tasks llm projects sections users team_memberships
             start_date end_date tasks_per_project)
    (Forall completion_consistent).
Proof.
  unfold generate_tasks. apply ensures_foldM; [|done].
  intros tasks project _ Htasks. unfold generate_project_tasks.
  destruct (default [] _) as [|section project_sections]; [by apply ensures_ret|].
  do 3 ensures_skip.
  eapply ensures_bind.
  - apply ensures_mapM. intros created_at _. apply ensures_generate_task.
  - intros new Hnew. apply ensures_ret. by apply Forall_app.
Qed.

Lemma ensures_generate_subtask (parent_task : Task.t) (parent_created : Z) :
  ensures (generate_subtask parent_task parent_created) completion_consistent.
Proof.
  unfold generate_subtask. do 5 ensures_skip.
  destruct (if Task.completed parent_task then _ else _) eqn:Hc.
  - do 2 ensures_skip. by apply ensures_ret.
  - apply ensures_ret. split; [discriminate | done].
Qed.

Lemma ensures_generate_subtasks (tasks : list Task.t) (users : list User.t)
    (subtask_ratio : Q) :
  ensures (generate_subtasks tasks users subtask_ratio)
    (Forall completion_consistent).
Proof.
  unfold generate_subtasks. ensures_skip. apply ensures_foldM; [|done].
  intros subtasks parent_task _ Hsub. unfold generate_parent_subtasks.
  ensures_skip. eapply ensures_bind.
  - apply ensures_replicateM, ensures_generate_subtask.
  - intros new Hnew. apply ensures_ret. by apply Forall_app.
Qed.

(** C8.  In a run, every task produced by [generate_tasks] and every subtask
    produced from those tasks by [generate_subtasks] is flagged completed if
    and only if its [completed_at] is non-null. *)
Theorem completed_iff_completed_at (llm : LLMGenerator)
    (projects : list Project.t) (sections : list Section_.t)
    (users : list User.t) (team_memberships : gmap string (list string))
    (start_date end_date tasks_per_project : Z) (subtask_ratio : Q)
    (w w1 w2 : world) (tasks subtasks : list Task.t) :
  generate_tasks llm projects sections users team_memberships
    start_date end_date tasks_per_project w = (Returns tasks, w1) ->
  generate_subtasks tasks users subtask_ratio w1 = (Returns subtasks, w2) ->
  forall t, t ∈ tasks ++ subtasks ->
    Task.completed t = true <-> Task.completed_at t <> None.
Proof.
  intros Htasks Hsubtasks t Ht.
  apply ensures_generate_tasks in Htasks.
  apply ensures_generate_subtasks in Hsubtasks.
  apply elem_of_app in Ht as [Ht|Ht].
  - by eapply (proj1 (Forall_forall _ _)) in Htasks.
  - by eapply (proj1 (Forall_forall _ _)) in Hsubtasks.
Qed.

Lemma completed_iff_completed_at_witness :
  exists tasks subtasks w1 w2,
    generate_tasks (mkLLM None) [late_project]
      (sections_of "p1" (mk_datetime 2024 6 29 0 0 0)) [] ∅
      (mk_datetime 2024 1 1 0 0 0) (mk_datetime 2024 7 1 0 0 0) 8 demo_world
      = (Returns tasks, w1)
    /\ generate_subtasks tasks [] (b64 0.20) w1 = (Returns subtasks, w2)
    /\ length tasks = 8%nat /\ length subtasks = 4%nat
    /\ forall t, t ∈ tasks ++ subtasks ->
         Task.completed t = true <-> Task.completed_at t <> None.
Proof.
  eexists _, _, _, _.
  split; [vm_compute; reflexivity|].
  split; [vm_compute; reflexivity|].
  split; [reflexivity|]. split; [reflexivity|].
  eapply (completed_iff_completed_at (mkLLM None) [late_project]
            (sections_of "p1" (mk_datetime 2024 6 29 0 0 0)) [] ∅
            (mk_datetime 2024 1 1 0 0 0) (mk_datetime 2024 7 1 0 0 0) 8
            (b64 0.20) demo_world);
    [vm_compute; reflexivity | vm_compute; reflexivity].
Defined.

(** ** Custom field values *)

Lemma truthy_options_Some (o : option (list string)) (l : list string) :
  truthy_options o = Some l -> exists x xs, o = Some (x :: xs) /\ l = x :: xs.
Proof. destruct o as [[|x xs]|]; intros [= <-]; eauto. Qed.

Lemma truthy_options_None (o : option (list string)) :
  truthy_options o = None -> ~ exists x xs, o = Some (x :: xs).
Proof. destruct o as [[|x xs]|]; intros [=] (y & ys & [=]). Qed.

Ltac has_value_tac :=
  split; [| unfold populated; simpl; congruence];
  first [ progress eauto 10
        | intuition (eauto 10; congruence)
        | intros [?|[?|[[? ?]|[[?|?] ?]]]]; (congruence || eauto) ].

Lemma ensures_generate_field_value (task : Task.t) (d : FieldDef.t) :
  ensures (generate_field_value task d)
    (from_option (value_of task d) True).
Proof.
  unfold generate_field_value. ensures_skip. ensures_skip; [by apply ensures_ret|].
  ensures_skip.
  assert (forall v : FieldValue.t,
            FieldValue.task_id v = Task.task_id task ->
            FieldValue.custom_field_id v = FieldDef.custom_field_id d ->
            (has_value task d /\ populated v = [FieldDef.field_type d]
             \/ ~ has_value task d /\ populated v = []) ->
            from_option (value_of task d) True (Some v)) as Hvalue.
  { intros v Ht Hd Hv. by split_and!. }
  unfold has_value in Hvalue.
  repeat case_bool_decide.
  - apply ensures_ret, Hvalue; [done..|]. left. has_value_tac.
  - ensures_skip. apply ensures_ret, Hvalue; [done..|]. left. has_value_tac.
  - destruct (truthy_options _) as [options|] eqn:Hopt.
    + apply truthy_options_Some in Hopt as (o & os & Hopt & ->).
      ensures_skip. apply ensures_ret, Hvalue; [done..|]. left.
      has_value_tac.
    + apply truthy_options_None in Hopt.
      apply ensures_ret, Hvalue; [done..|]. right. has_value_tac.
  - destruct (Task.due_date task) as [due|] eqn:Hdue.
    + apply ensures_ret, Hvalue; [done..|]. left. has_value_tac.
    + apply ensures_ret, Hvalue; [done..|]. right. has_value_tac.
  - destruct (truthy_options _) as [options|] eqn:Hopt.
    + apply truthy_options_Some in Hopt as (o & os & Hopt & ->).
      do 2 ensures_skip. apply ensures_ret, Hvalue; [done..|]. left.
      has_value_tac.
    + apply truthy_options_None in Hopt.
      apply ensures_ret, Hvalue; [done..|]. right. has_value_tac.
  - apply ensures_ret, Hvalue; [done..|]. right. has_value_tac.
Qed.

(** Every definition filed under a project belongs to that project. *)
Lemma group_fields_lookup (custom_field_defs : list FieldDef.t) (pid : string)
    (l : list FieldDef.t) (d : FieldDef.t) :
  group_fields custom_field_defs !! pid = Some l -> d ∈ l ->
  d ∈ custom_field_defs /\ FieldDef.project_id d = pid.
Proof.
  unfold group_fields.
  set (Inv := fun (m : gmap string (list FieldDef.t)) =>
                forall pid l d, m !! pid = Some l -> d ∈ l ->
                  d ∈ custom_field_defs /\ FieldDef.project_id d = pid).
  enough (forall ds m, ds ⊆ custom_field_defs -> Inv m ->
            Inv (fold_left
                   (fun by_project field_def =>
                      <[FieldDef.project_id field_def :=
                          default [] (by_project !! FieldDef.project_id field_def)
                          ++ [field_def]]> by_project) ds m)) as Hfold.
  { intros Hl Hd. eapply (Hfold custom_field_defs ∅); [done| |exact Hl|exact Hd].
    intros ??? Hempty. by rewrite lookup_empty in Hempty. }
  induction ds as [|d0 ds IH]; intros m Hsub Hm; [done|].
  simpl. apply IH; [set_solver|].
  intros pid' l' d' Hl' Hd'.
  destruct (decide (FieldDef.project_id d0 = pid')) as [<-|Hne].
  - rewrite lookup_insert_eq in Hl'. injection Hl' as <-.
    apply elem_of_app in Hd' as [Hd'|Hd'].
    + destruct (m !! FieldDef.project_id d0) as [l0|] eqn:Hl0; simpl in Hd'.
      * by eapply Hm.
      * by apply elem_of_nil in Hd'.
    + apply list_elem_of_singleton in Hd' as ->. split; [set_solver | done].
  - rewrite lookup_insert_ne in Hl' by done. by eapply Hm.
Qed.

(** C2, as amended.  Every row emitted by [generate_custom_field_values] was
    generated for one of the tasks from one of the definitions of that
    task's project; it has at most one non-null value slot; a non-null slot
    is the one of the definition's field type; and the slot is filled exactly
    when the generator has a value for it (text, number, a date on a task
    with a due date, an enumeration with options), all five slots staying
    null otherwise. *)
Theorem custom_field_value_slots (tasks : list Task.t)
    (custom_field_defs : list FieldDef.t) (w w' : world)
    (values : list FieldValue.t) :
  generate_custom_field_values tasks custom_field_defs w = (Returns values, w') ->
  forall v, v ∈ values -> slots_follow_definition tasks custom_field_defs v.
Proof.
  intros Hrun.
  set (good := fun v => exists task d,
                 task ∈ tasks /\ d ∈ custom_field_defs
                 /\ FieldDef.project_id d = Task.project_id task
                 /\ value_of task d v).
  assert (Forall good values) as Hgood.
  { revert Hrun. apply ensures_foldM; [|done].
    intros acc task Htask Hacc. unfold generate_task_values.
    destruct (group_fields custom_field_defs !! Task.project_id task)
      as [project_fields|] eqn:Hfields; simpl; [|by apply ensures_ret].
    apply ensures_foldM; [|done].
    intros acc' d Hd Hacc'.
    eapply ensures_bind; [apply ensures_generate_field_value|].
    intros [v|] Hv; apply ensures_ret; simpl in *; [|by rewrite app_nil_r].
    apply Forall_app. split; [done|]. apply Forall_singleton.
    destruct (group_fields_lookup _ _ _ _ Hfields Hd) as [Hin Hpid].
    exists task, d. eauto. }
  intros v Hv. eapply (proj1 (Forall_forall _ _)) in Hgood; [|exact Hv].
  destruct Hgood as (task & d & Htask & Hd & Hpid & Hid & Hfid & Hslots).
  exists task, d. split_and!; try done;
    destruct Hslots as [[Hhas ->]|[Hhas ->]]; simpl; try done.
  - lia.
  - by intros ft ?%list_elem_of_singleton.
  - by intros ft ?%elem_of_nil.
Qed.

Lemma custom_field_value_slots_witness :
  exists values w',
    generate_custom_field_values [late_task "a"; dated_task] demo_fields
      (mkWorld [] [] [] []) = (Returns values, w')
    /\ length values = 10%nat
    /\ forall v, v ∈ values ->
         slots_follow_definition [late_task "a"; dated_task] demo_fields v.
Proof.
  eexists _, _. split; [vm_compute; reflexivity|]. split; [reflexivity|].
  apply (custom_field_value_slots [late_task "a"; dated_task] demo_fields
           (mkWorld [] [] [] []) (mkWorld [] [] [] [])).
  vm_compute. reflexivity.
Defined.

(** C2, as stated, fails: for a date field on a task without a due date the
    generator emits a row whose five value slots are all null. *)
Lemma custom_field_value_without_slot :
  generate_custom_field_values [late_task "a"]
    [FieldDef.mk "f4" "p1" "Target Date" "date" None] (mkWorld [] [] [] [])
  = (Returns
       [FieldValue.mk "00000000000040008000000000000000" "a" "f4"
          None None None None None],
     mkWorld [] [] [] [])
  /\ Task.due_date (late_task "a") = None.
Proof. split; reflexivity. Qed.

(** ** User emails *)

Lemma string_app_cons (a : ascii) (s t : string) :
  String a s +:+ t = String a (s +:+ t).
Proof. reflexivity. Qed.

Lemma string_app_length (s t : string) :
  String.length (s +:+ t) = (String.length s + String.length t)%nat.
Proof.
  induction s as [|a s IH]; [done|].
  rewrite string_app_cons. simpl. by rewrite IH.
Qed.

Lemma string_app_inv_tail (s1 s2 t : string) :
  s1 +:+ t = s2 +:+ t -> s1 = s2.
Proof.
  revert s2. induction s1 as [|a s1 IH]; intros [|b s2] Heq.
  - done.
  - apply (f_equal String.length) in Heq.
    rewrite !string_app_length in Heq. simpl in Heq. lia.
  - apply (f_equal String.length) in Heq.
    rewrite !string_app_length in Heq. simpl in Heq. lia.
  - rewrite !string_app_cons in Heq. injection Heq as -> Heq.
    f_equal. by apply IH.
Qed.

Lemma pretty_N_go_length (x : N) (s : string) :
  (String.length s <= String.length (pretty_N_go x s))%nat.
Proof.
  revert s. induction (N.lt_wf_0 x) as [x _ IH]; intros s.
  destruct (decide (x = 0)%N) as [->|Hx]; [by rewrite pretty_N_go_0|].
  rewrite pretty_N_go_step by lia.
  etrans; [|apply IH; apply N.div_lt; lia]. simpl. lia.
Qed.

Lemma pretty_Z_nonempty (n : Z) : 0 < n -> pretty n <> "".
Proof.
  destruct n as [|p|p]; try lia. intros _ Hempty.
  unfold pretty, pretty_Z, pretty, pretty_positive, pretty, pretty_N in Hempty.
  destruct (decide (N.pos p = 0)%N) as [|_]; [done|].
  rewrite pretty_N_go_step in Hempty by lia.
  pose proof (pretty_N_go_length (N.pos p `div` 10)
                (String (pretty_N_char (N.pos p `mod` 10)) "")) as Hlen.
  rewrite Hempty in Hlen. simpl in Hlen. lia.
Qed.

Lemma suffixed_email_inj (first_name last_name domain : string) (n m : Z) :
  suffixed_email first_name last_name n domain
  = suffixed_email first_name last_name m domain -> n = m.
Proof.
  unfold suffixed_email. intros Heq.
  do 3 apply (inj (String.app _)) in Heq.
  apply string_app_inv_tail in Heq. by apply (inj pretty) in Heq.
Qed.

Lemma suffixed_email_not_base (first_name last_name domain : string) (n : Z) :
  0 < n ->
  suffixed_email first_name last_name n domain
  <> base_email first_name last_name domain.
Proof.
  unfold suffixed_email, base_email. intros Hn Heq.
  do 3 apply (inj (String.app _)) in Heq.
  apply (string_app_inv_tail _ "") in Heq. by apply pretty_Z_nonempty in Heq.
Qed.

Lemma email_loop_unfold (fuel : nat) (used_emails : gset string)
    (first_name last_name domain : string) (suffix : Z) (email : string) :
  email_loop fuel used_emails first_name last_name domain suffix email
  = if decide (email ∈ used_emails) then
      match fuel with
      | O => Diverges
      | Datatypes.S fuel' =>
          email_loop fuel' used_emails first_name last_name domain (suffix + 1)
            (suffixed_email first_name last_name (suffix + 1) domain)
      end
    else Returns email.
Proof. by destruct fuel. Qed.

(** What the loop hands back is unused.  It is the address the loop started
    from, or that one is in use and so is every address with a suffix
    between the one the loop started from and the one it stopped at. *)
Lemma email_loop_sound (fuel : nat) (used_emails : gset string)
    (first_name last_name domain : string) (suffix : Z) (email e : string) :
  email_loop fuel used_emails first_name last_name domain suffix email
    = Returns e ->
  (e ∉ used_emails)
  /\ (e = email
      \/ (email ∈ used_emails
          /\ exists n, suffix < n
               /\ e = suffixed_email first_name last_name n domain
               /\ forall k, suffix < k < n ->
                    suffixed_email first_name last_name k domain ∈ used_emails)).
Proof.
  revert suffix email. induction fuel as [|fuel IH]; intros suffix email;
    rewrite email_loop_unfold;
    destruct (decide (email ∈ used_emails)) as [Hused|];
    try discriminate; try (intros [= <-]; by auto).
  intros Hloop.
  apply IH in Hloop as [Hfresh [-> | (Hnext & n & Hn & -> & Hall)]].
  - split; [done|]. right. split; [done|]. exists (suffix + 1).
    split_and!; [lia | done |]. intros k Hk. lia.
  - split; [done|]. right. split; [done|]. exists n.
    split_and!; [lia | done |]. intros k Hk.
    destruct (decide (k = suffix + 1)) as [->|]; [done|]. apply Hall. lia.
Qed.

(** The choice is deterministic: the users before and the name leave one
    address. *)
Lemma email_choice_unique (earlier : list string)
    (first_name last_name e1 e2 : string) :
  email_choice earlier first_name last_name e1 ->
  email_choice earlier first_name last_name e2 -> e1 = e2.
Proof.
  intros [Hfresh1 [-> | (n1 & Hn1 & -> & Hbase1 & Hall1)]]
         [Hfresh2 [-> | (n2 & Hn2 & -> & Hbase2 & Hall2)]]; try done.
  destruct (Z.lt_trichotomy n1 n2) as [Hlt | [-> | Hlt]]; [|done|].
  - destruct Hfresh1. apply Hall2. lia.
  - destruct Hfresh2. apply Hall1. lia.
Qed.

(** The loop cannot outlast the addresses in use: each round discards one of
    them for good, since the candidates are pairwise distinct. *)
Lemma email_loop_fuel (used_emails : gset string)
    (first_name last_name domain : string) (fuel : nat) :
  forall (remaining : gset string) (suffix : Z) (email : string),
    (size remaining <= fuel)%nat ->
    0 < suffix ->
    (email ∈ used_emails -> email ∈ remaining) ->
    (forall n, suffix < n ->
       suffixed_email first_name last_name n domain ∈ used_emails ->
       suffixed_email first_name last_name n domain ∈ remaining) ->
    (forall n, suffix < n ->
       suffixed_email first_name last_name n domain <> email) ->
    exists e,
      email_loop fuel used_emails first_name last_name domain suffix email
      = Returns e.
Proof.
  induction fuel as [|fuel IH]; intros remaining suffix email Hsize Hpos Hcur Hnext Hne;
    rewrite email_loop_unfold;
    destruct (decide (email ∈ used_emails)) as [Hused|]; eauto.
  - apply Hcur in Hused.
    assert (size remaining <> 0%nat); [|lia].
    apply size_non_empty_iff. set_solver.
  - apply Hcur in Hused.
    apply (IH (remaining ∖ {[email]})).
    + rewrite size_difference by set_solver. rewrite size_singleton.
      assert (size remaining <> 0%nat); [|lia].
      apply size_non_empty_iff. set_solver.
    + lia.
    + intros Hin. apply elem_of_difference. split.
      * apply Hnext; [lia | done].
      * rewrite elem_of_singleton. apply Hne. lia.
    + intros n Hn Hin. apply elem_of_difference. split.
      * apply Hnext; [lia | done].
      * rewrite elem_of_singleton. apply Hne. lia.
    + intros n Hn Heq. apply suffixed_email_inj in Heq. lia.
Qed.

Lemma email_loop_returns (used_emails : gset string)
    (first_name last_name domain : string) :
  exists e,
    email_loop (Datatypes.S (size used_emails)) used_emails first_name last_name
      domain 1 (base_email first_name last_name domain)
    = Returns e.
Proof.
  apply (email_loop_fuel _ _ _ _ _ used_emails); auto with lia.
  intros n Hn. apply suffixed_email_not_base. lia.
Qed.

Lemma ensures_generate_user (org_id : string) (acc : list User.t * gset string)
    (created_at : Z) :
  users_invariant acc ->
  ensures (generate_user org_id "acme.com" acc created_at) users_invariant.
Proof.
  destruct acc as [users used_emails]. intros (Hnodup & Hused & Hchosen).
  simpl in Hnodup, Hused, Hchosen.
  unfold generate_user. ensures_skip. rename a into name. do 2 ensures_skip.
  destruct (split name) as [|first rest] eqn:Hsplit; [apply ensures_raise|].
  set (last_name := if (1 <? length (first :: rest))%nat
                    then lower (List.last rest first) else "").
  assert (first_last name = Some (lower first, last_name)) as Hparts.
  { unfold first_last, last_name. rewrite Hsplit. by destruct rest. }
  clearbody last_name.
  eapply ensures_bind.
  { apply ensures_lift_outcome. intros e He.
    exact (email_loop_sound _ _ _ _ _ _ _ _ He). }
  intros email [Hfresh Hemail]. ensures_skip. rename a1 into uid.
  apply ensures_ret.
  unfold users_invariant. simpl. split_and!.
  - rewrite map_app. simpl. apply NoDup_app.
    split_and!; [done | | apply NoDup_singleton].
    intros e He Heq%list_elem_of_singleton. apply Hfresh. rewrite <- Heq.
    by apply Hused.
  - intros e. rewrite map_app, elem_of_app, elem_of_union, Hused. simpl.
    by rewrite elem_of_singleton, list_elem_of_singleton.
  - intros i u Hi. apply lookup_app_Some in Hi as [Hi | [Hge Hi]].
    + rewrite take_app_le by (apply Nat.lt_le_incl; by eapply lookup_lt_Some).
      by apply Hchosen.
    + apply list_lookup_singleton_Some in Hi as [Hi <-].
      replace i with (length users) by lia. rewrite take_app_length.
      exists (lower first), last_name. split; [done|]. simpl. split.
      * intros Hin. by apply Hfresh, Hused.
      * destruct Hemail as [-> | (Hbase & n & Hn & -> & Hall)]; [by left|].
        right. exists n. split_and!; [lia | done | by apply Hused |].
        intros k Hk. apply Hused, Hall. lia.
Qed.

Lemma ensures_generate_user_length (org_id domain : string)
    (acc : list User.t * gset string) (created_at : Z) :
  ensures (generate_user org_id domain acc created_at)
    (fun acc' => length acc'.1 = Datatypes.S (length acc.1)).
Proof.
  destruct acc as [users used_emails]. unfold generate_user. do 3 ensures_skip.
  destruct (split _); [apply ensures_raise|]. do 2 ensures_skip.
  apply ensures_ret. simpl. rewrite length_app. simpl. lia.
Qed.

Lemma ensures_generate_users (count : Z) (org_id : string)
    (start_date end_date : Z) :
  ensures (generate_users count org_id start_date end_date)
    (fun users =>
       length users = Z.to_nat count
       /\ NoDup (map User.email users)
       /\ emails_chosen users).
Proof.
  unfold generate_users.
  eapply ensures_bind; [apply ensures_replicateM_length|]. intros times Hlen.
  eapply ensures_bind.
  - apply ensures_and.
    + apply (ensures_foldM _ users_invariant).
      * intros acc created_at _. apply ensures_generate_user.
      * split_and!; simpl; [apply NoDup_nil_2 | set_solver |].
        intros i u Hi. by rewrite lookup_nil in Hi.
    + apply (ensures_foldM_length fst). intros acc created_at.
      apply ensures_generate_user_length.
  - intros [users used] [(Hnodup & _ & Hchosen) Hcount]. apply ensures_ret.
    simpl in *. split; [|done].
    by rewrite Hcount, merge_sort_Permutation.
Qed.

Lemma terminates_next_name : terminates next_name.
Proof. intros w. unfold next_name. by destruct (faker_names w). Qed.

Lemma terminates_random_date (start_date end_date : Z) :
  terminates (random_date start_date end_date).
Proof.
  apply terminates_bind; [apply terminates_randrange | intros; apply terminates_ret].
Qed.

Lemma terminates_generate_user (org_id : string)
    (acc : list User.t * gset string) (created_at : Z) :
  terminates (generate_user org_id "acme.com" acc created_at).
Proof.
  destruct acc as [users used_emails]. unfold generate_user.
  apply terminates_bind; [apply terminates_next_name | intros name].
  apply terminates_bind; [apply terminates_choices1 | intros dept].
  apply terminates_bind; [apply terminates_choice | intros role].
  destruct (split name) as [|first rest]; [apply terminates_raise|].
  apply terminates_bind.
  - intros w. unfold lift_outcome.
    destruct (email_loop_returns used_emails (lower first)
                (if (1 <? length (first :: rest))%nat
                 then lower (List.last rest first) else "") "acme.com")
      as [e He].
    simpl in *. by rewrite He.
  - intros email.
    apply terminates_bind; [apply terminates_generate_id | intros uid].
    apply terminates_ret.
Qed.

(** C9.  For every user count and date range, [generate_users] never gets
    stuck looking for a free address, and whenever it returns it returns as
    many users as asked for, whose email addresses are pairwise distinct.
    Each address is settled by the name and the users before: it is
    [first.last@acme.com] for the user's own name when no earlier user has
    that address; on a collision it is that form with a numeric suffix after
    the last name, the least one from 2 on that no earlier user has. *)
Theorem user_emails_distinct (count : Z) (org_id : string)
    (start_date end_date : Z) (w : world) :
  fst (generate_users count org_id start_date end_date w) <> Diverges
  /\ forall users w',
       generate_users count org_id start_date end_date w = (Returns users, w') ->
       length users = Z.to_nat count
       /\ NoDup (map User.email users)
       /\ forall i u, users !! i = Some u ->
            exists first_name last_name,
              first_last (User.name u) = Some (first_name, last_name)
              /\ email_choice (map User.email (take i users))
                   first_name last_name (User.email u).
Proof.
  split.
  - revert w. change (terminates (generate_users count org_id start_date end_date)).
    unfold generate_users.
    apply terminates_bind;
      [apply terminates_replicateM, terminates_random_date | intros times].
    apply terminates_bind.
    + apply terminates_foldM. intros acc created_at.
      apply terminates_generate_user.
    + intros [users used]. apply terminates_ret.
  - intros users w' Hrun.
    by apply ensures_generate_users in Hrun as (Hlen & Hnodup & Hchosen).
Qed.

(** Three users with the same first and last name: the first keeps the
    plain address, the next two get the suffixes 2 and 3. *)
Lemma user_emails_distinct_witness :
  exists users w',
    generate_users 3 "org" (mk_datetime 2024 1 1 0 0 0)
      (mk_datetime 2024 7 1 0 0 0)
      (mkWorld [] [] [] ["John Smith"; "john  SMITH"; "John Q. Smith"])
    = (Returns users, w')
    /\ map User.email users
       = ["john.smith@acme.com"; "john.smith2@acme.com"; "john.smith3@acme.com"]
    /\ length users = Z.to_nat 3
    /\ NoDup (map User.email users)
    /\ forall i u, users !! i = Some u ->
         exists first_name last_name,
           first_last (User.name u) = Some (first_name, last_name)
           /\ email_choice (map User.email (take i users))
                first_name last_name (User.email u).
Proof.
  eexists _, _. split; [vm_compute; reflexivity|]. split; [reflexivity|].
  eapply (proj2 (user_emails_distinct 3 "org" (mk_datetime 2024 1 1 0 0 0)
                   (mk_datetime 2024 7 1 0 0 0)
                   (mkWorld [] [] [] ["John Smith"; "john  SMITH"; "John Q. Smith"]))).
  vm_compute. reflexivity.
Defined.

(** ** Configuration errors *)

Lemma replicateM_raises {S A} (n : nat) (m : M S A) (s : S) (e : exn) :
  m s = (Raises e, s) ->
  replicateM (Datatypes.S n) m s = (Raises e, s).
Proof. intros Hm. simpl. by apply bind_raises. Qed.

Lemma generate_users_raises (count : Z) (org_id : string)
    (start_date end_date : Z) (w : world) :
  0 < count -> end_date - start_date < us_per_day ->
  generate_users count org_id start_date end_date w = (Raises ValueError, w).
Proof.
  intros Hcount Hspan. unfold generate_users.
  destruct (Z.to_nat count) as [|n] eqn:Hn; [lia|].
  apply bind_raises, replicateM_raises. by apply random_date_spec.
Qed.

Lemma generate_users_nobody (count : Z) (org_id : string)
    (start_date end_date : Z) (w : world) :
  count <= 0 ->
  generate_users count org_id start_date end_date w = (Returns [], w).
Proof.
  intros Hcount. unfold generate_users.
  replace (Z.to_nat count) with 0%nat by lia. reflexivity.
Qed.

Lemma sample_pool_returns {A} (k : nat) (pool : list A) (w : world) :
  (k <= length pool)%nat ->
  exists r w', sample_pool k pool w = (Returns r, w') /\ length r = k.
Proof.
  revert pool w. induction k as [|k IH]; intros pool w Hk; simpl.
  - by eexists _, _.
  - destruct pool as [|x pool]; [simpl in Hk; lia|].
    destruct (next_raw_returns w) as (z & w1 & Hz).
    rewrite (bind_returns _ _ _ _ _ Hz).
    match goal with
    | |- context [sample_pool k ?pool'] =>
        destruct (IH pool' w1) as (r & w2 & Hr & Hlen)
    end.
    { rewrite length_take, length_insert. simpl in *. lia. }
    rewrite (bind_returns _ _ _ _ _ Hr). eexists _, _. split; [done|].
    simpl. by rewrite Hlen.
Qed.

Lemma sample_returns {A} (population : list A) (k : Z) (w : world) :
  0 <= k <= Z.of_nat (length population) ->
  exists r w', sample population k w = (Returns r, w')
               /\ length r = Z.to_nat k.
Proof.
  intros Hk. unfold sample.
  destruct (Z.ltb_spec k 0); [lia|].
  destruct (Z.ltb_spec (Z.of_nat (length population)) k); [lia|]. simpl.
  apply sample_pool_returns. lia.
Qed.

Lemma mapM_returns {S A B} (f : A -> M S B) (xs : list A) :
  (forall x s, exists y s', f x s = (Returns y, s')) ->
  forall s, exists ys s', mapM f xs s = (Returns ys, s') /\ length ys = length xs.
Proof.
  intros Hf. induction xs as [|x xs IH]; intros s; simpl.
  - by eexists _, _.
  - destruct (Hf x s) as (y & s1 & Hy). destruct (IH s1) as (ys & s2 & Hys & Hlen).
    rewrite (bind_returns _ _ _ _ _ Hy), (bind_returns _ _ _ _ _ Hys).
    eexists _, _. split; [done|]. simpl. by rewrite Hlen.
Qed.

(** The names [generate_teams] goes through: as many as teams are asked for *)
Lemma generate_teams_names (count : Z) (selected_names : list string) :
  0 < count ->
  length selected_names
  = Z.to_nat (Z.min count (Z.of_nat (length TEAM_NAME_TEMPLATES))) ->
  length
    (take (Z.to_nat count)
       (if Z.of_nat (length TEAM_NAME_TEMPLATES) <? count
        then selected_names
             ++ map (fun i => "Team " +:+ pretty (Z.of_nat i + 1))
                  (seq 0 (Z.to_nat (count - Z.of_nat (length TEAM_NAME_TEMPLATES))))
        else selected_names))
  = Z.to_nat count.
Proof.
  intros Hcount Hlen. rewrite length_take.
  destruct (Z.ltb_spec (Z.of_nat (length TEAM_NAME_TEMPLATES)) count).
  - rewrite length_app, length_map, length_seq. lia.
  - lia.
Qed.

Lemma generate_teams_raises (count : Z) (org_id : string)
    (start_date end_date : Z) (w : world) :
  0 < count -> end_date - start_date < us_per_day ->
  exists w', generate_teams count org_id start_date end_date w
             = (Raises ValueError, w').
Proof.
  intros Hcount Hspan. unfold generate_teams.
  destruct (sample_returns TEAM_NAME_TEMPLATES
              (Z.min count (Z.of_nat (length TEAM_NAME_TEMPLATES))) w)
    as (names & w1 & Hnames & Hlen); [lia|].
  rewrite (bind_returns _ _ _ _ _ Hnames).
  pose proof (generate_teams_names count names Hcount Hlen) as Htake.
  destruct (take _ _) as [|name rest]; [simpl in Htake; lia|].
  exists w1. simpl. apply bind_raises, bind_raises. by apply random_date_spec.
Qed.

Lemma generate_teams_returns (count : Z) (org_id : string)
    (start_date end_date : Z) (w : world) :
  0 < count -> us_per_day <= end_date - start_date ->
  exists team teams w',
    generate_teams count org_id start_date end_date w
    = (Returns (team :: teams), w').
Proof.
  intros Hcount Hspan. unfold generate_teams.
  destruct (sample_returns TEAM_NAME_TEMPLATES
              (Z.min count (Z.of_nat (length TEAM_NAME_TEMPLATES))) w)
    as (names & w1 & Hnames & Hlen); [lia|].
  rewrite (bind_returns _ _ _ _ _ Hnames).
  pose proof (generate_teams_names count names Hcount Hlen) as Htake.
  match goal with
  | |- context [mapM ?f ?xs] =>
      destruct (mapM_returns f xs) with (s := w1) as (teams & w2 & Hteams & Hl)
  end.
  { intros name s.
    destruct (proj1 (random_date_spec start_date end_date s) Hspan)
      as (k & s1 & Hk & _).
    destruct (generate_id_returns s1) as (tid & s2 & Htid & _).
    rewrite (bind_returns _ _ _ _ _ Hk), (bind_returns _ _ _ _ _ Htid).
    by eexists _, _. }
  rewrite Htake in Hl. destruct teams as [|team teams]; [simpl in Hl; lia|].
  by exists team, teams, w2.
Qed.

Lemma generate_teams_negative (count : Z) (org_id : string)
    (start_date end_date : Z) (w : world) :
  count < 0 ->
  generate_teams count org_id start_date end_date w = (Raises ValueError, w).
Proof.
  intros Hcount. unfold generate_teams. apply bind_raises. unfold sample.
  replace (Z.min count _) with count by lia.
  by destruct (Z.ltb_spec count 0); [|lia].
Qed.

Lemma generate_projects_raises (count : Z) (teams : list Team.t)
    (users : list User.t) (start_date end_date : Z) (w : world) :
  0 < count -> end_date - start_date < us_per_day ->
  generate_projects count teams users start_date end_date w
  = (Raises ValueError, w).
Proof.
  intros Hcount Hspan. unfold generate_projects.
  destruct (Z.to_nat count) as [|n] eqn:Hn; [lia|].
  apply bind_raises, replicateM_raises. by apply random_date_spec.
Qed.

(** With less than a full day between its dates a run stops at the first
    [random_date], whichever generator reaches it: the users, else the
    teams (whose [random.sample] refuses a negative count), else the
    projects, of which there are two hundred at least.  The organization row
    has been committed by then, and nothing else. *)
Lemma short_span_aborts (log : Q -> Q) (llm : LLMGenerator) (cfg : config)
    (w : world) :
  end_date cfg - start_date cfg < us_per_day ->
  exists org_id w',
    main log llm cfg (w, [])
    = (Raises ValueError, (w', [organization_batch org_id cfg])).
Proof.
  intros Hspan. destruct (generate_id_returns w) as (org_id & w1 & Hid & _).
  exists org_id. unfold main, organization_batch.
  rewrite (bind_returns _ _ _ _ _ (lift_returns _ _ [] _ _ Hid)). cbv beta zeta.
  rewrite (bind_returns _ _ _ _ _ (insert_data_returns _ _ _ _ _)).
  destruct (Z.lt_ge_cases 0 (org_size cfg)) as [Husers|Husers].
  { exists w1. apply bind_raises, lift_raises. by apply generate_users_raises. }
  rewrite (bind_returns _ _ _ _ _
             (lift_returns _ _ _ _ _ (generate_users_nobody _ _ _ _ _ Husers))).
  rewrite (bind_returns _ _ _ _ _ (insert_data_nothing _ _ _)).
  destruct (Z.lt_trichotomy (num_teams cfg) 0) as [Hteams | [Hteams | Hteams]].
  - exists w1. apply bind_raises, lift_raises. by apply generate_teams_negative.
  - rewrite Hteams.
    rewrite (bind_returns _ _ (w1, _) (w1, _) []) by reflexivity.
    rewrite (bind_returns _ _ _ _ _ (insert_data_nothing _ _ _)).
    rewrite (bind_returns _ _ (w1, _) (w1, _) ([], ∅)) by reflexivity.
    cbv beta iota.
    rewrite (bind_returns _ _ _ _ _ (insert_data_nothing _ _ _)).
    destruct (randint_returns 200 500 w1) as (count & w2 & Hcount & Hge); [lia|].
    rewrite (bind_returns _ _ _ _ _ (lift_returns _ _ _ _ _ Hcount)).
    exists w2. apply bind_raises, lift_raises, generate_projects_raises; [lia|done].
  - destruct (generate_teams_raises (num_teams cfg) org_id (start_date cfg)
                (end_date cfg) w1) as [w2 Hgen]; [lia | done |].
    exists w2. by apply bind_raises, lift_raises.
Qed.

(** Without users and with a team, on dates a day apart or more, nothing
    stops a run before the teams are committed: whatever becomes of it, its
    store begins with the organization row and the team rows. *)
Lemma teams_written_without_users (log : Q -> Q) (llm : LLMGenerator)
    (cfg : config) (w : world) :
  org_size cfg = 0 -> 0 < num_teams cfg ->
  us_per_day <= end_date cfg - start_date cfg ->
  exists org_id team teams rest,
    snd (snd (main log llm cfg (w, [])))
    = organization_batch org_id cfg
      :: ("teams", map TeamRow (team :: teams)) :: rest.
Proof.
  intros Husers Hteams Hspan.
  destruct (generate_id_returns w) as (org_id & w1 & Hid & _).
  unfold main, organization_batch.
  rewrite (bind_returns _ _ _ _ _ (lift_returns _ _ [] _ _ Hid)). cbv beta zeta.
  rewrite (bind_returns _ _ _ _ _ (insert_data_returns _ _ _ _ _)).
  rewrite (bind_returns _ _ _ _ _
             (lift_returns _ _ _ _ _
                (generate_users_nobody _ _ _ _ _ (Z.eq_le_incl _ _ Husers)))).
  rewrite (bind_returns _ _ _ _ _ (insert_data_nothing _ _ _)).
  destruct (generate_teams_returns (num_teams cfg) org_id (start_date cfg)
              (end_date cfg) w1 Hteams Hspan) as (team & teams & w2 & Hgen).
  rewrite (bind_returns _ _ _ _ _ (lift_returns _ _ _ _ _ Hgen)).
  cbn [map].
  rewrite (bind_returns _ _ _ _ _ (insert_data_returns _ _ _ _ _)).
  cbv beta.
  match goal with
  | |- context [?k (w2, ?db)] =>
      assert (appends k) as Happ by appends_auto;
      destruct (Happ w2 db) as [rest Hrest]
  end.
  exists org_id, team, teams, rest. exact Hrest.
Qed.

(** C4, as amended.  A configuration whose end date is not after its start
    date is fatal: the run aborts with a [ValueError], once the organization
    row has been written and before any other row.  A configuration with
    zero users and at least one team, whose end date is a day or more after
    the start date, is not turned down before the writes: the organization
    row and the team rows are written, whatever becomes of the run later. *)
Theorem configuration_errors (log : Q -> Q) (llm : LLMGenerator) (cfg : config)
    (w : world) :
  (end_date cfg <= start_date cfg ->
   exists org_id w',
     main log llm cfg (w, [])
     = (Raises ValueError, (w', [organization_batch org_id cfg])))
  /\ (org_size cfg = 0 -> 0 < num_teams cfg ->
      us_per_day <= end_date cfg - start_date cfg ->
      exists org_id team teams rest,
        snd (snd (main log llm cfg (w, [])))
        = organization_batch org_id cfg
          :: ("teams", map TeamRow (team :: teams)) :: rest).
Proof.
  split.
  - intros Hdates. apply short_span_aborts. unfold us_per_day, us_per_second. lia.
  - apply teams_written_without_users.
Qed.

Lemma configuration_errors_witness :
  (exists org_id w',
     main tangent_log (mkLLM None)
       (mkConfig 10 2 (mk_datetime 2024 7 1 0 0 0) (mk_datetime 2024 1 1 0 0 0))
       (mkWorld [] [] [] [], [])
     = (Raises ValueError,
        (w', [organization_batch org_id
                (mkConfig 10 2 (mk_datetime 2024 7 1 0 0 0)
                   (mk_datetime 2024 1 1 0 0 0))])))
  /\ (exists org_id team teams rest,
        snd (snd (main tangent_log (mkLLM None)
                    (mkConfig 0 2 (mk_datetime 2024 1 1 0 0 0)
                       (mk_datetime 2024 7 1 0 0 0))
                    (mkWorld [5; 17; 40; 3] [] (map Z.of_nat (seq 1 48)) [],
                     [])))
        = organization_batch org_id
            (mkConfig 0 2 (mk_datetime 2024 1 1 0 0 0)
               (mk_datetime 2024 7 1 0 0 0))
          :: ("teams", map TeamRow (team :: teams)) :: rest).
Proof.
  split.
  - apply (proj1 (configuration_errors tangent_log (mkLLM None)
                    (mkConfig 10 2 (mk_datetime 2024 7 1 0 0 0)
                       (mk_datetime 2024 1 1 0 0 0))
                    (mkWorld [] [] [] []))).
    vm_compute. discriminate.
  - apply (proj2 (configuration_errors tangent_log (mkLLM None)
                    (mkConfig 0 2 (mk_datetime 2024 1 1 0 0 0)
                       (mk_datetime 2024 7 1 0 0 0))
                    (mkWorld [5; 17; 40; 3] [] (map Z.of_nat (seq 1 48)) []))).
    + reflexivity.
    + reflexivity.
    + vm_compute. discriminate.
Defined.

(** C4, as stated, fails on both counts.  With an end date before the start
    date the run does abort, but the organization row has been written by
    then; with no users and two teams the first two batches of the store are
    the organization row and the two team rows. *)
Lemma rows_written_before_abort :
  (mk_datetime 2024 1 1 0 0 0 <= mk_datetime 2024 7 1 0 0 0
   /\ main tangent_log (mkLLM None)
        (mkConfig 10 2 (mk_datetime 2024 7 1 0 0 0) (mk_datetime 2024 1 1 0 0 0))
        (mkWorld [] [] [] [], [])
      = (Raises ValueError,
         (mkWorld [] [] [] [],
          [("organizations",
            [OrganizationRow
               (Organization.mk "00000000000040008000000000000000"
                  "Acme Corporation" "acme.com"
                  (mk_datetime 2024 7 1 0 0 0))])])))
  /\ take 2
       (snd (snd (main tangent_log (mkLLM None)
                    (mkConfig 0 2 (mk_datetime 2024 1 1 0 0 0)
                       (mk_datetime 2024 7 1 0 0 0))
                    (mkWorld [5; 17; 40; 3] [] (map Z.of_nat (seq 1 48)) [],
                     []))))
     = [("organizations",
         [OrganizationRow
            (Organization.mk "0102030405064708890a0b0c0d0e0f10"
               "Acme Corporation" "acme.com" (mk_datetime 2024 1 1 0 0 0))]);
        ("teams",
         [TeamRow
            (Team.mk "1112131415164718991a1b1c1d1e1f20"
               "0102030405064708890a0b0c0d0e0f10" "Data Engineering"
               "Data Engineering team responsible for core initiatives."
               (mk_datetime 2024 2 10 0 0 0));
          TeamRow
            (Team.mk "2122232425264728a92a2b2c2d2e2f30"
               "0102030405064708890a0b0c0d0e0f10" "UX Design"
               "UX Design team responsible for core initiatives."
               (mk_datetime 2024 1 4 0 0 0))])].
Proof.
  split; [split; [by vm_compute | reflexivity]|]. vm_compute. reflexivity.
Qed.

(** ** What does hold of subtasks and creation times *)

Lemma ensures_sample_pool {A} (k : nat) (pool : list A) :
  ensures (sample_pool k pool) (fun r => forall y, y ∈ r -> y ∈ pool).
Proof.
  revert pool. induction k as [|k IH]; intros pool; simpl.
  - apply ensures_ret. intros y Hy. by apply elem_of_nil in Hy.
  - destruct pool as [|x pool]; [apply ensures_ret; by intros y Hy|].
    apply ensures_bind_any. intros z.
    assert (forall i, nth i (x :: pool) x ∈ x :: pool) as Hnth.
    { intros i. destruct (nth_in_or_default i (x :: pool) x) as [Hin| ->].
      - by apply list_elem_of_In.
      - left. }
    eapply ensures_bind; [apply IH|].
    intros rest Hrest. apply ensures_ret. intros y Hy.
    apply elem_of_cons in Hy as [->|Hy]; [apply Hnth|].
    apply Hrest, elem_of_take in Hy as (i & Hi & _).
    apply list_lookup_insert_Some in Hi as [(_ & <- & _)|(_ & Hi)]; [apply Hnth|].
    by eapply list_elem_of_lookup_2.
Qed.

Lemma ensures_sample {A} (population : list A) (k : Z) :
  ensures (sample population k) (fun r => forall y, y ∈ r -> y ∈ population).
Proof.
  unfold sample. destruct (_ || _); [apply ensures_raise|].
  apply ensures_sample_pool.
Qed.

Lemma ensures_subtask_of (parent_task : Task.t) :
  ensures (generate_subtask parent_task (Task.created_at parent_task))
    (subtask_of parent_task).
Proof.
  unfold generate_subtask. ensures_skip.
  eapply ensures_bind; [apply ensures_randint|]. intros offset Hoffset. cbv beta in Hoffset.
  eapply ensures_bind; [apply ensures_add_timedelta|]. intros created [-> _].
  do 2 ensures_skip.
  assert (days 0 <= days offset <= days 5) as Hdays
    by (split; apply days_mono; lia).
  change (days 0) with 0 in Hdays.
  destruct (if Task.completed parent_task then _ else _).
  - eapply ensures_bind; [apply ensures_randint|]. intros d Hd. cbv beta in Hd.
    eapply ensures_bind; [apply ensures_add_timedelta|]. intros c0 [-> _].
    apply ensures_ret. unfold subtask_of. simpl. split_and!; try done; try lia.
    intros c [= <-].
    assert (days 1 <= days d <= days 7) by (split; apply days_mono; lia). lia.
  - apply ensures_ret. unfold subtask_of. simpl. split_and!; try done; lia.
Qed.

(** Every subtask hangs under one of the tasks given, is created on the
    parent's creation day or up to five days later, and, when completed, is
    completed one to seven days after its own creation. *)
Theorem subtasks_follow_parents (tasks : list Task.t) (users : list User.t)
    (subtask_ratio : Q) (w w' : world) (subtasks : list Task.t) :
  generate_subtasks tasks users subtask_ratio w = (Returns subtasks, w') ->
  forall s, s ∈ subtasks -> exists p, p ∈ tasks /\ subtask_of p s.
Proof.
  intros Hrun.
  enough (Forall (fun s => exists p, p ∈ tasks /\ subtask_of p s) subtasks) as H
    by (by apply Forall_forall).
  revert Hrun. unfold generate_subtasks.
  eapply ensures_bind; [apply ensures_sample|]. intros parents Hparents.
  apply ensures_foldM; [|done].
  intros acc parent Hparent Hacc. unfold generate_parent_subtasks.
  ensures_skip. eapply ensures_bind.
  - apply ensures_replicateM, ensures_subtask_of.
  - intros new Hnew. apply ensures_ret, Forall_app. split; [done|].
    eapply Forall_impl; [exact Hnew|]. intros s Hs. exists parent. auto.
Qed.

Lemma subtasks_follow_parents_witness :
  exists subtasks w',
    generate_subtasks
      [late_task "a"; late_task "b"; late_task "c"; late_task "d"; late_task "e"]
      [] (b64 0.20) (mkWorld [0; 0; 0; 5; 0; 6] [] [] []) = (Returns subtasks, w')
    /\ length subtasks = 2%nat
    /\ forall s, s ∈ subtasks ->
         exists p,
           p ∈ [late_task "a"; late_task "b"; late_task "c"; late_task "d";
                late_task "e"]
           /\ subtask_of p s.
Proof.
  eexists _, _. split; [vm_compute; reflexivity|]. split; [reflexivity|].
  apply (subtasks_follow_parents
           [late_task "a"; late_task "b"; late_task "c"; late_task "d";
            late_task "e"] [] (b64 0.20) (mkWorld [0; 0; 0; 5; 0; 6] [] [] [])
           (mkWorld [] [] [] [])).
  vm_compute. reflexivity.
Defined.

Lemma round_half_even_bounds (a b : Z) :
  0 < b ->
  a / b <= round_half_even a b /\ 2 * (b * round_half_even a b) <= 2 * a + b.
Proof.
  intros Hb. unfold round_half_even.
  pose proof (Z.div_mod a b ltac:(lia)) as Hdiv.
  pose proof (Z.mod_pos_bound a b Hb) as Hmod.
  set (q := a / b) in *. set (r := a mod b) in *. clearbody q r.
  destruct (Z.ltb_spec (2 * r) b); [lia|].
  destruct (Z.ltb_spec b (2 * r)); [lia|].
  destruct (Z.even q); lia.
Qed.

(** Below [2 ** 34] seconds (some 544 years) a float is finer than a
    microsecond: rounding the seconds of a span to binary64 does not carry
    them over the next whole second. *)
Lemma int_of_float_total_seconds (td : Z) :
  0 <= td < seconds (2 ^ 34) ->
  int_of_float (total_seconds td) = td / us_per_second.
Proof.
  intros [Hlo Hhi]. unfold seconds, us_per_second in *.
  change (2 ^ 34) with 17179869184 in Hhi.
  unfold total_seconds, b64. cbn [Qnum Qden].
  destruct td as [|n|n]; [reflexivity| |lia].
  set (N := Z.pos n) in *. assert (0 < N) as HN by done. clearbody N.
  unfold b64_pos. change (Z.log2 1000000) with 19.
  assert (0 <= Z.log2 N < 54) as Hlog.
  { split; [apply Z.log2_nonneg|]. apply Z.log2_lt_pow2; [done|].
    change (2 ^ 54) with 18014398509481984. lia. }
  set (k0 := Z.log2 N - 19) in *.
  set (k := if N * 2 ^ Z.max 0 (- k0) <? 1000000 * 2 ^ Z.max 0 k0
            then k0 - 1 else k0).
  assert (k <= 33) as Hk.
  { unfold k. destruct (Z.ltb_spec (N * 2 ^ Z.max 0 (- k0))
                          (1000000 * 2 ^ Z.max 0 k0)) as [|Hge]; [lia|].
    destruct (Z.le_gt_cases k0 33) as [|Hgt]; [done|].
    assert (k0 = 34) as Heq by lia. rewrite Heq in Hge.
    change (Z.max 0 (Z.opp 34)) with 0 in Hge. change (Z.max 0 34) with 34 in Hge.
    change (2 ^ 34) with 17179869184 in Hge. change (2 ^ 0) with 1 in Hge.
    lia. }
  clearbody k. clear k0 Hlog.
  destruct (Z.leb_spec 0 (k - 52)); [lia|].
  replace (Z.max 0 (k - 52)) with 0 by lia.
  replace (Z.max 0 (- (k - 52))) with (- (k - 52)) by lia.
  set (s := - (k - 52)) in *. assert (19 <= s) as Hs by lia. clearbody s.
  assert (2 ^ 19 <= 2 ^ s) as Hpow by (apply Z.pow_le_mono_r; lia).
  set (P := 2 ^ s) in *. clearbody P. change (2 ^ 19) with 524288 in Hpow.
  change (2 ^ 0) with 1. rewrite Z.mul_1_r.
  destruct (round_half_even_bounds (N * P) 1000000 ltac:(lia)) as [Hfloor Hceil].
  set (m := round_half_even (N * P) 1000000) in *. clearbody m.
  pose proof (Z.div_mod N 1000000 ltac:(lia)) as Hdiv.
  pose proof (Z.mod_pos_bound N 1000000 ltac:(lia)) as Hmod.
  set (q := N / 1000000) in *. set (r := N mod 1000000) in *. clearbody q r.
  assert (0 <= q) as Hq by lia.
  assert (q * P <= m < (q + 1) * P) as Hm.
  { assert (q * P <= N * P / 1000000) as Hdown.
    { apply Z.div_le_lower_bound; [lia|]. nia. }
    assert (r * P <= 999999 * P) as Hr by nia.
    nia. }
  assert (0 <= m) as Hm0 by nia.
  unfold int_of_float, Qltb. cbn [Qnum Qden].
  destruct (Z.ltb_spec (m * 1) (0 * Z.pos (Z.to_pos P))); [lia|].
  unfold Qfloor. rewrite Z2Pos.id by lia.
  symmetry. apply (Z.div_unique m P q (m - q * P)); lia.
Qed.

(** Over a thousand years they are carried over: from 1000-01-01 and a
    microsecond to 2024-01-01 the float is the next whole second. *)
Example total_seconds_rounds_up :
  int_of_float
    (total_seconds (mk_datetime 2024 1 1 0 0 0
                    - (mk_datetime 1000 1 1 0 0 0 + 1)))
  = 32314291200
  /\ (mk_datetime 2024 1 1 0 0 0 - (mk_datetime 1000 1 1 0 0 0 + 1))
     / us_per_second = 32314291199.
Proof. split; reflexivity. Qed.

Lemma ensures_creation_time (start_date end_date : Z) :
  0 <= end_date - start_date < seconds (2 ^ 34) ->
  ensures (creation_time start_date end_date
             (total_seconds (end_date - start_date)))
    (fun dt => start_date - days 6 <= dt <= end_date).
Proof.
  intros Hspan. unfold creation_time.
  rewrite int_of_float_total_seconds by done.
  eapply ensures_bind; [apply ensures_randint|]. intros s Hs. cbv beta in Hs.
  eapply ensures_bind; [apply ensures_add_timedelta|]. intros dt0 [-> _].
  assert (start_date <= start_date + seconds s <= end_date) as Hdt by days_lia.
  set (dt := start_date + seconds s) in *. clearbody dt.
  assert (0 < days 6) by done.
  destruct (weekday dt <? 3); [ensures_skip; apply ensures_ret; lia|].
  destruct (Z.leb_spec 5 (weekday dt)) as [Hwd|]; [|apply ensures_ret; lia].
  ensures_skip. destruct (Qgtb _ _); [|apply ensures_ret; lia].
  assert (weekday dt < 7) by (unfold weekday; days_lia).
  set (k := if (7 - weekday dt) mod 7 =? 0 then 1 else (7 - weekday dt) mod 7).
  assert (1 <= k <= 2) as Hk.
  { unfold k. destruct (Z.eqb_spec ((7 - weekday dt) mod 7) 0); [lia|].
    Z.to_euclidean_division_equations. lia. }
  assert (days 1 <= days k <= days 2) by (split; apply days_mono; lia).
  clearbody k. assert (days 7 = days 1 + days 6) by done.
  assert (days 2 <= days 6) by done. assert (0 < days 1) by done.
  eapply ensures_bind; [apply ensures_add_timedelta|]. intros dt1 [-> _].
  destruct (Z.ltb_spec end_date (dt + days k)).
  - eapply ensures_weaken; [apply ensures_add_timedelta|].
    intros r [-> _]. lia.
  - apply ensures_ret. lia.
Qed.

(** With the start not after the end, and less than [2 ** 34] seconds
    between them, every creation time of the series is at most the end date
    and at most six days before the start date. *)
Theorem creation_times_window (start_date end_date count : Z) (w w' : world)
    (times : list Z) :
  start_date <= end_date ->
  end_date - start_date < seconds (2 ^ 34) ->
  generate_creation_times start_date end_date count w = (Returns times, w') ->
  forall dt, dt ∈ times -> start_date - days 6 <= dt <= end_date.
Proof.
  intros Horder Hspan Hrun.
  enough (Forall (fun dt => start_date - days 6 <= dt <= end_date) times) as H
    by (by apply Forall_forall).
  revert Hrun. unfold generate_creation_times.
  eapply ensures_bind.
  { apply ensures_replicateM, ensures_creation_time. lia. }
  intros unsorted Hall. apply ensures_ret. by rewrite merge_sort_Permutation.
Qed.

Lemma creation_times_window_witness :
  exists times w',
    generate_creation_times (mk_datetime 2024 6 29 0 0 0)
      (mk_datetime 2024 7 1 0 0 0) 3 (mkWorld [3600; 2 ^ 52; 90000; 1] [] [] [])
    = (Returns times, w')
    /\ length times = 3%nat
    /\ forall dt, dt ∈ times ->
         mk_datetime 2024 6 29 0 0 0 - days 6 <= dt <= mk_datetime 2024 7 1 0 0 0.
Proof.
  eexists _, _. split; [vm_compute; reflexivity|]. split; [reflexivity|].
  apply (creation_times_window (mk_datetime 2024 6 29 0 0 0)
           (mk_datetime 2024 7 1 0 0 0) 3
           (mkWorld [3600; 2 ^ 52; 90000; 1] [] [] []) (mkWorld [] [] [] [])).
  - by vm_compute.
  - by vm_compute.
  - vm_compute. reflexivity.
Defined.

(** * Further properties of the generators *)

(** ** More about the primitives *)

Lemma ensures_mapM_length {S A B} (f : A -> M S B) (xs : list A) :
  ensures (mapM f xs) (fun ys => length ys = length xs).
Proof.
  induction xs as [|x xs IH]; simpl; [by apply ensures_ret|].
  apply ensures_bind_any. intros y. eapply ensures_bind; [exact IH|].
  intros ys Hys. apply ensures_ret. simpl. by rewrite Hys.
Qed.

(** [mapM] relates each result to the element it was computed from. *)
Lemma ensures_mapM_Forall2 {S A B} (f : A -> M S B) (R : A -> B -> Prop)
    (xs : list A) :
  (forall x, x ∈ xs -> ensures (f x) (R x)) ->
  ensures (mapM f xs) (Forall2 R xs).
Proof.
  induction xs as [|x xs IH]; intros Hf; simpl.
  - apply ensures_ret. constructor.
  - eapply ensures_bind; [apply Hf; left|].
    intros y Hy. eapply ensures_bind.
    + apply IH. intros z Hz. apply Hf. by right.
    + intros ys Hys. apply ensures_ret. by constructor.
Qed.

Lemma bisect_le (cum : list Q) (x : Q) (hi : nat) : (bisect cum x hi <= hi)%nat.
Proof.
  revert cum. induction hi as [|hi IH]; intros [|c cum]; simpl; try lia.
  destruct (Qleb c x); [|lia]. specialize (IH cum). lia.
Qed.

Lemma ensures_choices1 {A} (population : list A) (weights : list Q) :
  ensures (choices1 population weights) (fun x => x ∈ population).
Proof.
  unfold choices1. destruct (negb _); [apply ensures_raise|].
  destruct population as [|x population]; [apply ensures_raise|].
  destruct (Qleb _ _); [apply ensures_raise|].
  destruct (negb _); [apply ensures_raise|].
  apply ensures_bind_any. intros r. apply ensures_ret.
  apply list_elem_of_In, nth_In.
  match goal with |- (bisect ?c ?y ?hi < _)%nat => pose proof (bisect_le c y hi) end.
  simpl in *. lia.
Qed.

(** One round of the pool algorithm takes one candidate out of the pool. *)
Lemma sample_pool_round {A} (pool : list A) (x : A) (j : nat) :
  (j < length pool)%nat ->
  pool ≡ₚ nth j pool x
          :: take (length pool - 1) (<[j := nth (length pool - 1) pool x]> pool).
Proof.
  induction pool as [|z init _] using rev_ind; [simpl; lia|]. intros Hj.
  rewrite length_app in *. simpl in *.
  replace (length init + 1 - 1)%nat with (length init) by lia.
  assert (nth (length init) (init ++ [z]) x = z) as ->.
  { apply nth_lookup_Some. by rewrite list_lookup_middle. }
  destruct (decide (j = length init)) as [->|Hne].
  - assert (nth (length init) (init ++ [z]) x = z) as ->.
    { apply nth_lookup_Some. by rewrite list_lookup_middle. }
    rewrite list_insert_id by (by rewrite list_lookup_middle).
    rewrite take_app_length. by rewrite Permutation_app_comm.
  - assert (j < length init)%nat as Hlt by lia.
    destruct (lookup_lt_is_Some_2 init j Hlt) as [a Ha].
    assert (nth j (init ++ [z]) x = a) as ->.
    { apply nth_lookup_Some. by rewrite lookup_app_l. }
    rewrite insert_app_l by done.
    rewrite take_app_length' by (by rewrite length_insert).
    rewrite insert_take_drop by done.
    rewrite <- (take_drop_middle init j a Ha) at 1.
    rewrite <- app_assoc. simpl.
    rewrite <- Permutation_middle. apply Permutation_cons; [done|].
    apply Permutation_app_head.
    rewrite Permutation_app_comm. done.
Qed.

(** Sampling is without replacement: the result is, up to order, a part of
    the population, and has the size asked for. *)
Lemma ensures_sample_pool_submseteq {A} (k : nat) (pool : list A) :
  ensures (sample_pool k pool)
    (fun r => r ⊆+ pool /\ length r = Nat.min k (length pool)).
Proof.
  revert pool. induction k as [|k IH]; intros pool; simpl.
  - apply ensures_ret. split; [apply submseteq_nil_l | done].
  - destruct pool as [|x pool]; [by apply ensures_ret|].
    apply ensures_bind_any. intros z.
    set (j := Z.to_nat (z mod Z.of_nat (length (x :: pool)))).
    assert (j < length (x :: pool))%nat as Hj.
    { unfold j. pose proof (Z.mod_pos_bound z (Z.of_nat (length (x :: pool)))).
      simpl in *. lia. }
    pose proof (sample_pool_round (x :: pool) x j Hj) as Hround.
    eapply ensures_bind; [apply IH|].
    intros rest [Hsub Hlen]. apply ensures_ret. split.
    + etrans; [apply submseteq_skip, Hsub|].
      apply Permutation_submseteq. symmetry. exact Hround.
    + cbn [length]. rewrite Hlen, length_take, length_insert. simpl. lia.
Qed.

Lemma ensures_sample_submseteq {A} (population : list A) (k : Z) :
  ensures (sample population k)
    (fun r => r ⊆+ population /\ Z.of_nat (length r) = k).
Proof.
  unfold sample.
  destruct (Z.ltb_spec k 0); [apply ensures_raise|].
  destruct (Z.ltb_spec (Z.of_nat (length population)) k); [apply ensures_raise|].
  simpl. eapply ensures_weaken; [apply ensures_sample_pool_submseteq|].
  intros r [Hsub Hlen]. split; [done|]. lia.
Qed.

(** ** [generate_due_date] *)

(** What holds of a due date whenever one is returned *)
Lemma ensures_generate_due_date (created_at end_date : Z) (dist : distribution) :
  ensures (generate_due_date created_at end_date dist)
    (fun r => forall d, r = Some d ->
       d <= end_date
       /\ (created_at <= end_date ->
           created_at - days 16 <= d <= created_at + days 90)).
Proof.
  unfold generate_due_date.
  eapply ensures_bind
    with (P := fun o : option Z => forall k, o = Some k -> -14 <= k <= 90).
  { destruct dist.
    - ensures_skip.
      repeat (ensures_skip; [try (by apply ensures_ret)|]);
        try (by apply ensures_ret);
        (eapply ensures_bind; [apply ensures_randint|]);
        intros z Hz; cbv beta in Hz; apply ensures_ret; intros k [= <-]; lia.
    - eapply ensures_bind; [apply ensures_randint|].
      intros z Hz. cbv beta in Hz. apply ensures_ret. intros k [= <-]. lia. }
  intros [k|] Hk; [|by apply ensures_ret]. specialize (Hk k eq_refl).
  assert (days (-14) <= days k <= days 90) as Hdays
    by (split; apply days_mono; lia).
  eapply ensures_bind; [apply ensures_add_timedelta|]. intros due0 [-> _].
  eapply ensures_bind
    with (P := fun due =>
                 due <= end_date
                 /\ (created_at <= end_date ->
                     created_at - days 14 <= due <= created_at + days 90)).
  { destruct (Z.ltb_spec end_date (created_at + days k)).
    - apply ensures_ret. unfold_days. lia.
    - eapply ensures_bind; [apply ensures_add_timedelta|].
      intros earliest [-> _].
      destruct (Z.ltb_spec (created_at + days k) (created_at + - days 30));
        [unfold_days; lia|].
      apply ensures_ret. unfold_days. lia. }
  intros due [Hle Hwin]. ensures_skip. destruct (Qltb _ _).
  - eapply ensures_bind.
    { apply ensures_lift_outcome. intros d Hd.
      exact (back_to_weekday_spec _ _ Hd). }
    intros d [Hd _]. apply ensures_ret. intros d' [= <-]. unfold_days. lia.
  - apply ensures_ret. intros d' [= <-]. unfold_days. lia.
Qed.

(** The function returns when the dates it computes on the way are dates:
    thirty days before the creation and ninety days after it. *)
Lemma generate_due_date_returns (created_at end_date : Z) (dist : distribution)
    (w : world) :
  is_datetime end_date ->
  datetime_min + days 30 <= created_at ->
  created_at + days 90 <= datetime_max ->
  exists r w', generate_due_date created_at end_date dist w = (Returns r, w').
Proof.
  intros Hend Hlow Hhigh. unfold generate_due_date.
  assert (forall dt, created_at - days 30 <= dt <= created_at + days 90 ->
            is_datetime dt) as Hin.
  { intros dt Hdt. unfold is_datetime in *. lia. }
  match goal with
  | |- context [bind ?m _ w] =>
      assert (exists o w1, m w = (Returns o, w1)
                /\ forall k, o = Some k -> -14 <= k <= 90)
        as (o & w1 & Hdraw & Hk)
  end.
  { destruct dist.
    - destruct (random_returns w) as (rand & wa & Hrand).
      rewrite (bind_returns _ _ _ _ _ Hrand).
      destruct (Qltb rand 0.10); [by eexists _, _|].
      destruct (Qltb rand 0.35);
        [|destruct (Qltb rand 0.75); [|destruct (Qltb rand 0.95)]].
      + destruct (randint_returns 1 7 wa) as (z & wz & Hz & Hb); [lia|].
        rewrite (bind_returns _ _ _ _ _ Hz). eexists _, _. split; [done|].
        intros k [= <-]. lia.
      + destruct (randint_returns 8 30 wa) as (z & wz & Hz & Hb); [lia|].
        rewrite (bind_returns _ _ _ _ _ Hz). eexists _, _. split; [done|].
        intros k [= <-]. lia.
      + destruct (randint_returns 31 90 wa) as (z & wz & Hz & Hb); [lia|].
        rewrite (bind_returns _ _ _ _ _ Hz). eexists _, _. split; [done|].
        intros k [= <-]. lia.
      + destruct (randint_returns (-14) (-1) wa) as (z & wz & Hz & Hb); [lia|].
        rewrite (bind_returns _ _ _ _ _ Hz). eexists _, _. split; [done|].
        intros k [= <-]. lia.
    - destruct (randint_returns 1 90 w) as (z & wz & Hz & Hb); [lia|].
      rewrite (bind_returns _ _ _ _ _ Hz). eexists _, _. split; [done|].
      intros k [= <-]. lia. }
  rewrite (bind_returns _ _ _ _ _ Hdraw).
  destruct o as [k|]; [|by eexists _, _].
  specialize (Hk k eq_refl).
  assert (days (-14) <= days k <= days 90) as Hdays
    by (split; apply days_mono; lia).
  assert (is_datetime (created_at + days k)) as Hdue
    by (apply Hin; unfold_days; lia).
  rewrite (bind_returns _ _ _ _ _ (add_timedelta_returns _ _ _ Hdue)).
  match goal with
  | |- context [bind ?m _ w1] =>
      assert (exists due, m w1 = (Returns due, w1) /\ is_datetime due)
        as (due & Hclamp & Hvalid)
  end.
  { destruct (Z.ltb_spec end_date (created_at + days k)); [by exists end_date|].
    assert (is_datetime (created_at + - days 30)) as Hearly
      by (apply Hin; unfold_days; lia).
    rewrite (bind_returns _ _ _ _ _ (add_timedelta_returns _ _ _ Hearly)).
    destruct (Z.ltb_spec (created_at + days k) (created_at + - days 30));
      [unfold_days; lia|].
    by exists (created_at + days k). }
  rewrite (bind_returns _ _ _ _ _ Hclamp).
  destruct (random_returns w1) as (r & w2 & Hr).
  rewrite (bind_returns _ _ _ _ _ Hr).
  destruct (Qltb r 0.85); [|by eexists _, _].
  destruct (back_to_weekday_returns due Hvalid) as [d Hd].
  rewrite (bind_returns _ _ w2 w2 d) by (unfold lift_outcome; by rewrite Hd).
  by eexists _, _.
Qed.

(** [generate_due_date] returns when the creation time is a date at least
    thirty days after [datetime.min] and ninety days before [datetime.max],
    and the end date is a date.  A due date is never later than the end date
    (the weekend adjustment only moves it back), and for a task created by
    the end date it lies between sixteen days before the creation (fourteen
    overdue days and two weekend days) and ninety days after it. *)
Theorem due_date_bounds (created_at end_date : Z) (dist : distribution)
    (w : world) :
  is_datetime end_date ->
  datetime_min + days 30 <= created_at ->
  created_at + days 90 <= datetime_max ->
  exists r w',
    generate_due_date created_at end_date dist w = (Returns r, w')
    /\ forall d, r = Some d ->
         d <= end_date
         /\ (created_at <= end_date ->
             created_at - days 16 <= d <= created_at + days 90).
Proof.
  intros Hend Hlow Hhigh.
  destruct (generate_due_date_returns created_at end_date dist w Hend Hlow Hhigh)
    as (r & w' & Hrun).
  exists r, w'. split; [done|].
  exact (ensures_generate_due_date created_at end_date dist _ _ _ Hrun).
Qed.

Lemma due_date_bounds_witness :
  exists r w',
    generate_due_date (mk_datetime 2024 6 20 9 0 0) (mk_datetime 2024 7 1 0 0 0)
      Realistic (mkWorld [2 ^ 52; 11; 0] [] [] [])
    = (Returns r, w')
    /\ forall d, r = Some d ->
         d <= mk_datetime 2024 7 1 0 0 0
         /\ (mk_datetime 2024 6 20 9 0 0 <= mk_datetime 2024 7 1 0 0 0 ->
             mk_datetime 2024 6 20 9 0 0 - days 16 <= d
             <= mk_datetime 2024 6 20 9 0 0 + days 90).
Proof.
  apply (due_date_bounds (mk_datetime 2024 6 20 9 0 0)
           (mk_datetime 2024 7 1 0 0 0) Realistic
           (mkWorld [2 ^ 52; 11; 0] [] [] [])).
  - split; vm_compute; discriminate.
  - vm_compute. discriminate.
  - vm_compute. discriminate.
Defined.

(** Near the end of the calendar the due date drawn is no date any more:
    the function stops with [OverflowError] before it clamps. *)
Example due_date_overflow :
  fst (generate_due_date (mk_datetime 9999 12 1 0 0 0)
         (mk_datetime 9999 12 31 0 0 0) Uniform (mkWorld [89] [] [] []))
  = Raises OverflowError.
Proof. reflexivity. Qed.

(** ** [generate_creation_times], continued *)

(** The series has as many timestamps as asked for, in ascending order. *)
Theorem creation_times_sorted (start_date end_date count : Z) (w w' : world)
    (times : list Z) :
  generate_creation_times start_date end_date count w = (Returns times, w') ->
  length times = Z.to_nat count /\ StronglySorted Z.le times.
Proof.
  revert w times w'.
  change (ensures (generate_creation_times start_date end_date count)
            (fun times => length times = Z.to_nat count
                          /\ StronglySorted Z.le times)).
  unfold generate_creation_times.
  eapply ensures_bind; [apply ensures_replicateM_length|].
  intros unsorted Hlen. apply ensures_ret. split.
  - by rewrite merge_sort_Permutation.
  - apply StronglySorted_merge_sort; apply _.
Qed.

Lemma creation_times_sorted_witness :
  exists times w',
    generate_creation_times (mk_datetime 2024 1 1 0 0 0)
      (mk_datetime 2024 7 1 0 0 0) 4
      (mkWorld [9000000; 1; 40; 2; 777777; 3; 5000000; 4] [] [] [])
    = (Returns times, w')
    /\ length times = 4%nat /\ StronglySorted Z.le times.
Proof.
  eexists _, _. split; [vm_compute; reflexivity|].
  apply (creation_times_sorted (mk_datetime 2024 1 1 0 0 0)
           (mk_datetime 2024 7 1 0 0 0) 4
           (mkWorld [9000000; 1; 40; 2; 777777; 3; 5000000; 4] [] [] [])
           (mkWorld [] [] [] [])).
  vm_compute. reflexivity.
Defined.

(** ** [generate_id] *)

Lemma hex_length (width : nat) (n : Z) : String.length (hex width n) = width.
Proof.
  revert n. induction width as [|width IH]; intros n; simpl; [done|].
  rewrite string_app_length, IH. simpl. lia.
Qed.

Lemma hex_digit_char (d : Z) : 0 <= d < 16 -> hex_digit d ∈ hex_chars.
Proof.
  intros Hd. unfold hex_digit. apply list_elem_of_In, nth_In. simpl. lia.
Qed.

Lemma list_ascii_of_string_app (s t : string) :
  String.list_ascii_of_string (s +:+ t)
  = String.list_ascii_of_string s ++ String.list_ascii_of_string t.
Proof.
  induction s as [|a s IH]; [done|].
  rewrite string_app_cons. simpl. by rewrite IH.
Qed.

Lemma hex_chars_only (width : nat) (n : Z) :
  Forall (fun c => c ∈ hex_chars) (String.list_ascii_of_string (hex width n)).
Proof.
  revert n. induction width as [|width IH]; intros n; simpl; [constructor|].
  rewrite list_ascii_of_string_app. apply Forall_app. split; [apply IH|].
  apply Forall_singleton, hex_digit_char. by apply Z.mod_pos_bound.
Qed.

(** The character at position [k]: the nibble of weight [16 ^ (width-1-k)] *)
Lemma hex_get (width : nat) (n : Z) (k : nat) :
  (k < width)%nat ->
  String.get k (hex width n)
  = Some (hex_digit ((n / 16 ^ Z.of_nat (width - 1 - k)) mod 16)).
Proof.
  revert n. induction width as [|width IH]; intros n Hk; [lia|]. simpl hex.
  destruct (decide (k = width)) as [->|Hne].
  - rewrite <- (hex_length width (n / 16)) at 1.
    change (String.get (String.length (hex width (n / 16)))
              (String.append (hex width (n / 16))
                 (String (hex_digit (n mod 16)) "")))
      with (String.get (0 + String.length (hex width (n / 16)))
              (String.append (hex width (n / 16))
                 (String (hex_digit (n mod 16)) ""))).
    rewrite <- String.append_correct2.
    replace (Datatypes.S width - 1 - width)%nat with 0%nat by lia.
    simpl. by rewrite Z.div_1_r.
  - rewrite <- String.append_correct1 by (rewrite hex_length; lia).
    rewrite IH by lia. do 2 f_equal.
    replace (Z.of_nat (Datatypes.S width - 1 - k))
      with (Z.of_nat (width - 1 - k) + 1) by lia.
    rewrite Z.pow_add_r, Z.pow_1_r by lia.
    rewrite Z.div_div by (try apply Z.pow_pos_nonneg; lia).
    f_equal. f_equal. lia.
Qed.

(** The version and variant bits of a version-4 UUID, whatever the entropy *)
Lemma uuid4_bits (x : Z) :
  let i :=
    Z.lor
      (Z.land
         (Z.lor (Z.land x (Z.lnot (Z.shiftl 0xc000 48))) (Z.shiftl 0x8000 48))
         (Z.lnot (Z.shiftl 0xf000 64)))
      (Z.shiftl 4 76) in
  (i / 16 ^ 19) mod 16 = 4 /\ 8 <= (i / 16 ^ 15) mod 16 <= 11.
Proof.
  intros i.
  assert (forall k b, 0 <= k ->
            Z.testbit i k = b -> (i / 2 ^ k) mod 2 = Z.b2z b) as Hbit.
  { intros k b Hk <-. by rewrite <- Z.testbit_spec'. }
  assert (Z.testbit i 76 = false /\ Z.testbit i 77 = false
          /\ Z.testbit i 78 = true /\ Z.testbit i 79 = false
          /\ Z.testbit i 62 = false /\ Z.testbit i 63 = true)
    as (H76 & H77 & H78 & H79 & H62 & H63).
  { unfold i. repeat first [rewrite Z.lor_spec | rewrite Z.land_spec].
    repeat split;
      match goal with
      | |- context [Z.testbit x ?k] => generalize (Z.testbit x k)
      end; intros []; vm_compute; reflexivity. }
  apply (Hbit 76 _ ltac:(lia)) in H76. apply (Hbit 77 _ ltac:(lia)) in H77.
  apply (Hbit 78 _ ltac:(lia)) in H78. apply (Hbit 79 _ ltac:(lia)) in H79.
  apply (Hbit 62 _ ltac:(lia)) in H62. apply (Hbit 63 _ ltac:(lia)) in H63.
  clearbody i. simpl Z.b2z in *.
  change (16 ^ 19) with (2 ^ 76). change (16 ^ 15) with (2 ^ 60).
  assert (i / 2 ^ 77 = i / 2 ^ 76 / 2) as E77
    by (rewrite Z.div_div by lia; done).
  assert (i / 2 ^ 78 = i / 2 ^ 76 / 4) as E78
    by (rewrite Z.div_div by lia; done).
  assert (i / 2 ^ 79 = i / 2 ^ 76 / 8) as E79
    by (rewrite Z.div_div by lia; done).
  assert (i / 2 ^ 62 = i / 2 ^ 60 / 4) as E62
    by (rewrite Z.div_div by lia; done).
  assert (i / 2 ^ 63 = i / 2 ^ 60 / 8) as E63
    by (rewrite Z.div_div by lia; done).
  rewrite E77 in H77. rewrite E78 in H78. rewrite E79 in H79.
  rewrite E62 in H62. rewrite E63 in H63.
  clear E77 E78 E79 E62 E63 Hbit.
  set (hi := i / 2 ^ 76) in *. set (lo := i / 2 ^ 60) in *.
  clearbody hi lo. clear i.
  Z.to_euclidean_division_equations. lia.
Qed.

(** Every identifier is the 32-digit lower-case hexadecimal form of a
    version-4 UUID: the thirteenth digit is 4 and the seventeenth is 8, 9, a
    or b; and [generate_id] always returns. *)
Theorem generate_id_format (w : world) :
  exists i w',
    generate_id w = (Returns i, w')
    /\ String.length i = 32%nat
    /\ Forall (fun c => c ∈ hex_chars) (String.list_ascii_of_string i)
    /\ String.get 12 i = Some "4"%char
    /\ exists c, String.get 16 i = Some c /\ c ∈ ["8"; "9"; "a"; "b"]%char.
Proof.
  assert (forall n w, exists bs w', replicateM n next_byte w = (Returns bs, w'))
    as Hbytes.
  { induction n as [|n IH]; intros w0; simpl; [by eexists _, _|].
    assert (exists b w1, next_byte w0 = (Returns b, w1)) as (b & w1 & Hb)
      by (unfold next_byte; destruct (os_urandom w0); eauto).
    destruct (IH w1) as (bs & w2 & Hbs).
    rewrite (bind_returns _ _ _ _ _ Hb), (bind_returns _ _ _ _ _ Hbs).
    by eexists _, _. }
  destruct (Hbytes 16%nat w) as (bs & w' & Hbs).
  unfold generate_id, uuid4, bind. rewrite Hbs. unfold ret.
  eexists _, _. split; [reflexivity|].
  destruct (uuid4_bits (int_from_bytes bs)) as [Hversion Hvariant].
  cbv zeta in Hversion, Hvariant.
  split; [apply hex_length|]. split; [apply hex_chars_only|].
  rewrite !hex_get by lia. split.
  - change (Z.of_nat (32 - 1 - 12)) with 19. by rewrite Hversion.
  - change (Z.of_nat (32 - 1 - 16)) with 15. eexists. split; [done|].
    match goal with |- hex_digit ?n ∈ _ => generalize dependent n end.
    intros n Hn.
    assert (n = 8 \/ n = 9 \/ n = 10 \/ n = 11) as Hcases by lia. clear Hn.
    destruct Hcases as [-> | [-> | [-> | ->]]]; vm_compute; set_solver.
Qed.

(** ** Loops that append *)

(** A loop whose body appends a block to the list it accumulates returns
    the blocks of its items, in order. *)
Lemma ensures_foldM_blocks {S A B C} (proj : B -> list C)
    (body : B -> A -> M S B) (R : A -> list C -> Prop) (xs : list A) :
  (forall acc x, x ∈ xs ->
     ensures (body acc x)
       (fun acc' => exists block, proj acc' = proj acc ++ block /\ R x block)) ->
  forall acc,
    ensures (foldM body acc xs)
      (fun acc' => exists blocks,
         proj acc' = proj acc ++ concat blocks /\ Forall2 R xs blocks).
Proof.
  induction xs as [|x xs IH]; intros Hbody acc; simpl.
  - apply ensures_ret. exists []. simpl. by rewrite app_nil_r.
  - eapply ensures_bind; [apply Hbody; left|].
    intros acc1 (block & Hacc1 & Hblock).
    eapply ensures_weaken.
    + apply IH. intros acc2 y Hy. apply Hbody. by right.
    + intros acc' (blocks & Hacc' & Hblocks). exists (block :: blocks).
      split; [|by constructor].
      rewrite Hacc', Hacc1. simpl. by rewrite app_assoc.
Qed.

(** The same for a body that appends one row per item *)
Lemma ensures_foldM_rows {S A B C} (proj : B -> list C)
    (body : B -> A -> M S B) (R : A -> C -> Prop) (xs : list A) :
  (forall acc x, x ∈ xs ->
     ensures (body acc x)
       (fun acc' => exists row, proj acc' = proj acc ++ [row] /\ R x row)) ->
  forall acc,
    ensures (foldM body acc xs)
      (fun acc' => exists rows,
         proj acc' = proj acc ++ rows /\ Forall2 R xs rows).
Proof.
  induction xs as [|x xs IH]; intros Hbody acc; simpl.
  - apply ensures_ret. exists []. by rewrite app_nil_r.
  - eapply ensures_bind; [apply Hbody; left|].
    intros acc1 (row & Hacc1 & Hrow).
    eapply ensures_weaken.
    + apply IH. intros acc2 y Hy. apply Hbody. by right.
    + intros acc' (rows & Hacc' & Hrows). exists (row :: rows).
      split; [|by constructor].
      rewrite Hacc', Hacc1. by rewrite <- app_assoc.
Qed.

Lemma Forall2_fmap_eq {A B} (f : B -> A) (xs : list A) (ys : list B) :
  Forall2 (fun x y => f y = x) xs ys -> map f ys = xs.
Proof. induction 1; simpl; congruence. Qed.

Lemma Forall2_Forall_r_in {A B} (R : A -> B -> Prop) (P : B -> Prop)
    (xs : list A) (ys : list B) :
  Forall2 R xs ys -> (forall x y, x ∈ xs -> R x y -> P y) -> Forall P ys.
Proof.
  induction 1 as [|x y xs ys Hxy _ IH]; intros HP; constructor.
  - eapply HP; [left | done].
  - apply IH. intros x' y' Hx'. apply HP. by right.
Qed.

Lemma Forall_concat_blocks {A B} (R : A -> list B -> Prop) (P : B -> Prop)
    (xs : list A) (blocks : list (list B)) :
  Forall2 R xs blocks -> (forall x block, x ∈ xs -> R x block -> Forall P block) ->
  Forall P (concat blocks).
Proof.
  induction 1 as [|x block xs blocks Hx _ IH]; intros HP; simpl; [done|].
  apply Forall_app. split.
  - eapply HP; [left | done].
  - apply IH. intros x' block' Hx'. apply HP. by right.
Qed.

(** ** [random_subset] and [weighted_choice] *)

Lemma randint_raises (a b : Z) (w : world) :
  b < a -> randint a b w = (Raises ValueError, w).
Proof.
  intros Hab. unfold randint. by destruct (Z.leb_spec (b + 1 - a) 0); [|lia].
Qed.

(** [random_subset] returns a part of [items], without repetition of
    positions, of a size between [min_count] and the smaller of [max_count]
    and the number of items.  It raises [ValueError] when [min_count] exceeds
    that bound, and returns when [min_count] is between zero and the
    bound. *)
Theorem random_subset_spec {A} (items : list A) (min_count : Z)
    (max_count : option Z) (w : world) :
  (forall r w', random_subset items min_count max_count w = (Returns r, w') ->
     r ⊆+ items
     /\ min_count <= Z.of_nat (length r) <= subset_bound items max_count)
  /\ (subset_bound items max_count < min_count ->
      random_subset items min_count max_count w = (Raises ValueError, w))
  /\ (0 <= min_count <= subset_bound items max_count ->
      exists r w', random_subset items min_count max_count w = (Returns r, w')).
Proof.
  unfold random_subset.
  change (Z.min (default (Z.of_nat (length items)) max_count)
            (Z.of_nat (length items)))
    with (subset_bound items max_count).
  assert (subset_bound items max_count <= Z.of_nat (length items)) as Hbound
    by (unfold subset_bound; lia).
  set (upper := subset_bound items max_count) in *. clearbody upper.
  split_and!.
  - revert w.
    change (ensures
              (let* count := randint min_count upper in sample items count)
              (fun r => r ⊆+ items
                        /\ min_count <= Z.of_nat (length r) <= upper)).
    eapply ensures_bind; [apply ensures_randint|].
    intros count Hcount. cbv beta in Hcount.
    eapply ensures_weaken; [apply ensures_sample_submseteq|].
    intros r [Hsub Hlen]. split; [done | lia].
  - intros Hlt. by apply bind_raises, randint_raises.
  - intros [Hmin Hupper].
    destruct (randint_returns min_count upper w) as (count & w1 & Hrun & Hcount);
      [done|].
    rewrite (bind_returns _ _ _ _ _ Hrun).
    destruct (sample_returns items count w1) as (r & w2 & Hr & _); [lia|].
    by exists r, w2.
Qed.

Lemma Qleb_le (x y : Q) : Qleb x y = true <-> (x <= y)%Q.
Proof. unfold Qleb, Qle. apply Z.leb_le. Qed.

Lemma accumulate_length (acc : Q) (ws : list Q) :
  length (accumulate acc ws) = length ws.
Proof. revert acc. induction ws as [|x ws IH]; intros acc; simpl; auto. Qed.

(** The running total of positive weights is positive. *)
Lemma accumulate_last_pos (acc : Q) (ws : list Q) :
  (0 <= acc)%Q -> ws <> [] -> Forall (fun q => (0 < q)%Q) ws ->
  (0 < default 0 (last (accumulate acc ws)))%Q.
Proof.
  revert acc. induction ws as [|x ws IH]; intros acc Hacc Hne Hpos; [done|].
  apply Forall_cons in Hpos as [Hx Hws].
  assert (0 < acc + x)%Q as Hsum.
  { apply Qlt_le_trans with (0 + x)%Q; [by rewrite Qplus_0_l|].
    apply Qplus_le_l. exact Hacc. }
  destruct ws as [|y ws]; [exact Hsum|].
  change (accumulate acc (x :: y :: ws))
    with ((acc + x)%Q :: accumulate (acc + x) (y :: ws)).
  rewrite last_cons.
  specialize (IH (acc + x)%Q (Qlt_le_weak _ _ Hsum) ltac:(done) Hws).
  by destruct (last (accumulate (acc + x) (y :: ws))).
Qed.

Lemma Qltb_lt (x y : Q) : Qltb x y = true <-> (x < y)%Q.
Proof. unfold Qltb, Qlt. apply Z.ltb_lt. Qed.

(** The running totals of probabilities are positive and at most the number
    of weights added. *)
Lemma accumulate_bounds (acc : Q) (ws : list Q) :
  (0 <= acc)%Q -> Forall (fun q => (0 < q)%Q /\ (q <= 1)%Q) ws ->
  Forall (fun c => (0 < c)%Q /\ (c <= acc + inject_Z (Z.of_nat (length ws)))%Q)
    (accumulate acc ws).
Proof.
  revert acc. induction ws as [|x ws IH]; intros acc Hacc Hws; [constructor|].
  apply Forall_cons in Hws as [[Hx0 Hx1] Hws].
  change (length (x :: ws)) with (Datatypes.S (length ws)).
  rewrite Nat2Z.inj_succ, <- Z.add_1_r, inject_Z_plus.
  pose proof (Nat2Z.is_nonneg (length ws)) as Hn. rewrite Zle_Qle in Hn.
  change (inject_Z 1) with 1%Q. change (inject_Z 0) with 0%Q in Hn.
  simpl. constructor; [split; lra|].
  eapply Forall_impl; [apply (IH (acc + x)%Q); [lra | done]|].
  intros c [Hc0 Hc1]. cbv beta in *. split; lra.
Qed.

Lemma choices1_returns {A} (population : list A) (weights : list Q) (w : world) :
  length weights = length population -> population <> [] ->
  Forall (fun q => (0 < q)%Q /\ (q <= 1)%Q) weights ->
  Z.of_nat (length weights) < 2 ^ 63 ->
  exists x w', choices1 population weights w = (Returns x, w').
Proof.
  intros Hlen Hne Hprob Hmany. unfold choices1. rewrite accumulate_length.
  destruct (Nat.eqb_spec (length weights) (length population)); [|done].
  destruct population as [|c population]; [done|].
  change (negb true) with false. cbv iota.
  assert (weights <> []) as Hws by (by destruct weights).
  assert (Forall (fun q => (0 < q)%Q) weights) as Hpos.
  { eapply Forall_impl; [exact Hprob|]. by intros q [Hq _]. }
  pose proof (accumulate_last_pos 0 weights (Qle_refl 0) Hws Hpos) as Htotal.
  destruct (Qleb _ 0) eqn:Hle.
  { apply Qleb_le in Hle. by apply Qle_not_lt in Hle. }
  assert (forallb isfinite (accumulate 0 weights) = true) as ->.
  { apply forallb_forall. intros cum Hcum.
    pose proof (accumulate_bounds 0 weights (Qle_refl 0) Hprob) as Hall.
    apply list_elem_of_In in Hcum.
    apply (proj1 (Forall_forall _ _) Hall) in Hcum as [Hc0 Hc1].
    assert (inject_Z (Z.of_nat (length weights)) < float_overflow)%Q as Hbound.
    { unfold float_overflow. rewrite <- Zlt_Qlt.
      eapply Z.lt_trans; [exact Hmany|]. by vm_compute. }
    assert (- float_overflow < 0)%Q as Hneg by (by vm_compute).
    unfold isfinite. apply andb_true_intro.
    split; apply Qltb_lt; lra. }
  change (negb true) with false. cbv iota.
  destruct (random_returns w) as (r & w' & Hr).
  rewrite (bind_returns _ _ _ _ _ Hr). by eexists _, _.
Qed.

(** [weighted_choice] returns one of the choices.  It raises [ValueError]
    when the two lists differ in length, and returns whenever they agree in
    length, there is a choice, and every weight is a probability: positive
    and at most 1 (a list has less than [2 ** 63] entries). *)
Theorem weighted_choice_spec {A} (choices : list A) (weights : list Q)
    (w : world) :
  (forall x w', weighted_choice choices weights w = (Returns x, w') ->
     x ∈ choices)
  /\ (length weights <> length choices ->
      weighted_choice choices weights w = (Raises ValueError, w))
  /\ (length weights = length choices -> choices <> [] ->
      Forall (fun q => (0 < q)%Q /\ (q <= 1)%Q) weights ->
      Z.of_nat (length weights) < 2 ^ 63 ->
      exists x w', weighted_choice choices weights w = (Returns x, w')).
Proof.
  unfold weighted_choice. split_and!.
  - intros x w'. apply ensures_choices1.
  - intros Hlen. unfold choices1. rewrite accumulate_length.
    by destruct (Nat.eqb_spec (length weights) (length choices)).
  - apply choices1_returns.
Qed.

Lemma weighted_choice_spec_witness :
  exists x w',
    weighted_choice ["a"; "b"; "c"] [0.5; 0.3; 0.2]%Q (mkWorld [2 ^ 52] [] [] [])
    = (Returns x, w').
Proof.
  apply (proj2 (proj2 (weighted_choice_spec ["a"; "b"; "c"] [0.5; 0.3; 0.2]%Q
                         (mkWorld [2 ^ 52] [] [] [])))).
  - reflexivity.
  - discriminate.
  - repeat constructor; by vm_compute.
  - reflexivity.
Defined.

(** Weights whose total is no finite float are refused. *)
Example weighted_choice_refuses_infinite_total :
  fst (weighted_choice ["a"; "b"]
         [inject_Z (10 ^ 308); inject_Z (10 ^ 308)] (mkWorld [] [] [] []))
  = Raises ValueError.
Proof. reflexivity. Qed.

(** ** Users, teams and memberships *)

Lemma ensures_generate_user_row (org_id domain : string)
    (acc : list User.t * gset string) (created_at : Z) :
  ensures (generate_user org_id domain acc created_at)
    (fun acc' => exists u,
       acc'.1 = acc.1 ++ [u]
       /\ (User.created_at u = created_at
           /\ User.organization_id u = org_id
           /\ User.department u ∈ departments
           /\ User.role u ∈ roles (User.department u))).
Proof.
  destruct acc as [users used_emails]. unfold generate_user. ensures_skip.
  eapply ensures_bind; [apply ensures_choices1|]. intros dept Hdept.
  eapply ensures_bind; [apply ensures_choice|]. intros role Hrole.
  ensures_skip; [apply ensures_raise|]. do 2 ensures_skip.
  apply ensures_ret. eexists. split; [reflexivity|]. by simpl.
Qed.

(** [generate_users] returns as many users as asked for, in the order of
    their creation times; every one belongs to the organization, is created
    within the run, and has a role of the department drawn for it. *)
Theorem users_in_creation_order (count : Z) (org_id : string)
    (start_date end_date : Z) (w w' : world) (users : list User.t) :
  generate_users count org_id start_date end_date w = (Returns users, w') ->
  length users = Z.to_nat count
  /\ StronglySorted Z.le (map User.created_at users)
  /\ Forall (user_row org_id start_date end_date) users.
Proof.
  revert w users w'.
  change (ensures (generate_users count org_id start_date end_date)
            (fun users =>
               length users = Z.to_nat count
               /\ StronglySorted Z.le (map User.created_at users)
               /\ Forall (user_row org_id start_date end_date) users)).
  unfold generate_users.
  eapply ensures_bind.
  { apply ensures_and; [apply ensures_replicateM_length|].
    apply ensures_replicateM, ensures_random_date. }
  intros times [Hlen Htimes]. eapply ensures_bind.
  { apply (ensures_foldM_rows fst). intros acc x _.
    apply ensures_generate_user_row. }
  intros [users used] (rows & Hrows & Hall). simpl in Hrows. subst rows.
  apply ensures_ret.
  assert (map User.created_at users = merge_sort Z.le times) as Hmap.
  { apply Forall2_fmap_eq. eapply Forall2_impl; [exact Hall|].
    by intros x u (-> & _). }
  split_and!.
  - rewrite <- (length_map User.created_at), Hmap, merge_sort_Permutation.
    exact Hlen.
  - rewrite Hmap. apply StronglySorted_merge_sort; apply _.
  - eapply Forall2_Forall_r_in; [exact Hall|].
    intros x u Hx (Hcreated & Horg & Hdept & Hrole).
    rewrite merge_sort_Permutation in Hx.
    destruct (proj1 (Forall_forall _ _) Htimes x Hx) as (k & Hk & -> & Hlt).
    split_and!; try done; rewrite Hcreated; [days_lia | done].
Qed.

Lemma users_in_creation_order_witness :
  exists users w',
    generate_users 3 "org" (mk_datetime 2024 1 1 0 0 0)
      (mk_datetime 2024 7 1 0 0 0) demo_world
    = (Returns users, w')
    /\ length users = 3%nat
    /\ StronglySorted Z.le (map User.created_at users)
    /\ Forall (user_row "org" (mk_datetime 2024 1 1 0 0 0)
                 (mk_datetime 2024 7 1 0 0 0)) users.
Proof.
  eexists _, _. split; [vm_compute; reflexivity|].
  eapply (users_in_creation_order 3 "org" (mk_datetime 2024 1 1 0 0 0)
            (mk_datetime 2024 7 1 0 0 0) demo_world).
  vm_compute. reflexivity.
Defined.

Lemma submseteq_NoDup {A} (l k : list A) : l ⊆+ k -> NoDup k -> NoDup l.
Proof.
  intros [k' Hk]%submseteq_Permutation Hnodup. rewrite Hk in Hnodup.
  by apply NoDup_app in Hnodup as [? _].
Qed.

Lemma TEAM_NAME_TEMPLATES_NoDup : NoDup TEAM_NAME_TEMPLATES.
Proof. apply (bool_decide_unpack _). vm_compute. exact I. Qed.

(** No template reads like a numbered filler. *)
Lemma filler_not_template (s : string) : "Team " +:+ s ∉ TEAM_NAME_TEMPLATES.
Proof.
  change ("Team " +:+ s)
    with (String "T" (String "e" (String "a" (String "m" (String " " s))))).
  unfold TEAM_NAME_TEMPLATES. intros H.
  repeat (apply elem_of_cons in H as [H|H]; [discriminate|]).
  by apply elem_of_nil in H.
Qed.

(** The names handed to the teams are pairwise distinct. *)
Lemma team_names_NoDup (count : Z) (selected_names : list string) :
  selected_names ⊆+ TEAM_NAME_TEMPLATES ->
  NoDup
    (take (Z.to_nat count)
       (if Z.of_nat (length TEAM_NAME_TEMPLATES) <? count
        then selected_names
             ++ map (fun i => "Team " +:+ pretty (Z.of_nat i + 1))
                  (seq 0 (Z.to_nat (count - Z.of_nat (length TEAM_NAME_TEMPLATES))))
        else selected_names)).
Proof.
  intros Hsub.
  pose proof (submseteq_NoDup _ _ Hsub TEAM_NAME_TEMPLATES_NoDup) as Hnodup.
  eapply sublist_NoDup; [|apply sublist_take].
  destruct (_ <? _); [|done]. apply NoDup_app. split_and!; [done | |].
  - intros name Hname [i [-> _]]%list_elem_of_fmap.
    eapply filler_not_template, elem_of_submseteq; [exact Hname | exact Hsub].
  - apply NoDup_fmap_2_strong; [|apply NoDup_seq].
    intros i j _ _ Hij. apply (inj (String.append "Team ")) in Hij.
    apply (inj pretty) in Hij. lia.
Qed.

(** [generate_teams] returns only for a count that is not negative, and then
    returns that many teams, under pairwise distinct names; each belongs to
    the organization, is created within the run, and is described after its
    name. *)
Theorem teams_named_apart (count : Z) (org_id : string)
    (start_date end_date : Z) (w w' : world) (teams : list Team.t) :
  generate_teams count org_id start_date end_date w = (Returns teams, w') ->
  0 <= count
  /\ length teams = Z.to_nat count
  /\ NoDup (map Team.name teams)
  /\ Forall (team_row org_id start_date end_date) teams.
Proof.
  revert w teams w'.
  change (ensures (generate_teams count org_id start_date end_date)
            (fun teams =>
               0 <= count
               /\ length teams = Z.to_nat count
               /\ NoDup (map Team.name teams)
               /\ Forall (team_row org_id start_date end_date) teams)).
  unfold generate_teams.
  eapply ensures_bind; [apply ensures_sample_submseteq|].
  intros selected_names [Hsub Hlen].
  assert (0 <= count) as Hcount by lia.
  pose proof (team_names_NoDup count selected_names Hsub) as Hnodup.
  assert (length
            (take (Z.to_nat count)
               (if Z.of_nat (length TEAM_NAME_TEMPLATES) <? count
                then selected_names
                     ++ map (fun i => "Team " +:+ pretty (Z.of_nat i + 1))
                          (seq 0 (Z.to_nat
                                    (count - Z.of_nat (length TEAM_NAME_TEMPLATES))))
                else selected_names))
          = Z.to_nat count) as Htake.
  { rewrite length_take.
    destruct (Z.ltb_spec (Z.of_nat (length TEAM_NAME_TEMPLATES)) count).
    - rewrite length_app, length_map, length_seq. lia.
    - lia. }
  eapply ensures_weaken.
  - apply (ensures_mapM_Forall2 _
             (fun name t => Team.name t = name
                            /\ team_row org_id start_date end_date t)).
    intros name _.
    eapply ensures_bind; [apply ensures_random_date|].
    intros created_at (k & Hk & -> & Hlt). ensures_skip. apply ensures_ret.
    split; [done|]. unfold team_row. simpl. split_and!; [done | days_lia | done | done].
  - intros teams Hteams. cbv beta.
    assert (map Team.name teams = take (Z.to_nat count)
              (if Z.of_nat (length TEAM_NAME_TEMPLATES) <? count
               then selected_names
                    ++ map (fun i => "Team " +:+ pretty (Z.of_nat i + 1))
                         (seq 0 (Z.to_nat
                                   (count - Z.of_nat (length TEAM_NAME_TEMPLATES))))
               else selected_names)) as Hnames.
    { apply Forall2_fmap_eq. eapply Forall2_impl; [exact Hteams|].
      by intros name t [-> _]. }
    split_and!; [done | | by rewrite Hnames |].
    + by rewrite <- (length_map Team.name), Hnames.
    + eapply Forall2_Forall_r_in; [exact Hteams|]. by intros name t _ [_ ?].
Qed.

Lemma teams_named_apart_witness :
  exists teams w',
    generate_teams 26 "org" (mk_datetime 2024 1 1 0 0 0)
      (mk_datetime 2024 7 1 0 0 0) demo_world
    = (Returns teams, w')
    /\ 0 <= 26
    /\ length teams = 26%nat
    /\ NoDup (map Team.name teams)
    /\ Forall (team_row "org" (mk_datetime 2024 1 1 0 0 0)
                 (mk_datetime 2024 7 1 0 0 0)) teams.
Proof.
  eexists _, _. split; [vm_compute; reflexivity|].
  eapply (teams_named_apart 26 "org" (mk_datetime 2024 1 1 0 0 0)
            (mk_datetime 2024 7 1 0 0 0) demo_world).
  vm_compute. reflexivity.
Defined.

(** A property of each item that the body of a loop establishes for its own
    item and keeps for the others holds of every item at the end. *)
Lemma ensures_foldM_each {S A B} (body : B -> A -> M S B) (P : A -> B -> Prop)
    (xs : list A) :
  (forall acc x y, P y acc -> ensures (body acc x) (P y)) ->
  (forall acc x, ensures (body acc x) (P x)) ->
  forall acc,
    ensures (foldM body acc xs) (fun acc' => forall x, x ∈ xs -> P x acc').
Proof.
  intros Hkeep Hnew. induction xs as [|x xs IH]; intros acc; simpl.
  - apply ensures_ret. intros x Hx. by apply elem_of_nil in Hx.
  - eapply ensures_bind; [apply Hnew|]. intros acc1 Hx.
    eapply ensures_weaken.
    + apply ensures_and; [apply IH|].
      apply (ensures_foldM _ (P x)); [|exact Hx].
      intros acc2 y _. apply Hkeep.
    + intros acc' [Hxs Hx'] y [->|Hy]%elem_of_cons; auto.
Qed.

Lemma ensures_team_memberships (users : list User.t)
    (acc : list Membership.t * gmap string (list string)) (team : Team.t) :
  ensures (team_memberships users acc team)
    (fun acc' => exists team_users block,
       team_users ⊆+ users
       /\ team_size users (length team_users)
       /\ Forall2 (membership_of team) team_users block
       /\ acc'.1 = acc.1 ++ block
       /\ acc'.2
          = <[Team.team_id team := map User.user_id team_users]> acc.2).
Proof.
  destruct acc as [memberships dict]. unfold team_memberships. ensures_skip.
  rename a into rand.
  eapply ensures_bind with (P := fun size => 3 <= size <= 30).
  { repeat case_match;
      (eapply ensures_weaken; [apply ensures_randint|]);
      intros z Hz; cbv beta in *; lia. }
  intros size Hsize.
  eapply ensures_bind; [apply ensures_sample_submseteq|].
  intros team_users [Hsub Hlen].
  assert (team_size users (length team_users)) as Hteam
    by (unfold team_size; lia).
  eapply ensures_bind.
  { apply (ensures_mapM_Forall2 _ (membership_of team)).
    intros user _. do 2 ensures_skip. apply ensures_ret.
    unfold membership_of. simpl. split_and!; try done.
    destruct (Qgtb _ _); repeat constructor. }
  intros new Hnew. apply ensures_ret. by exists team_users, new.
Qed.

(** Every membership row links one of the given teams to one of the given
    users, from the day that user was created, as member or admin.  The rows
    come team by team; a team has between three and thirty members (all the
    users when there are fewer), and no user twice.  The mapping handed in
    ends up with the member identifiers of every team. *)
Theorem memberships_follow_teams (teams : list Team.t) (users : list User.t)
    (team_memberships_dict dict' : gmap string (list string))
    (w w' : world) (memberships : list Membership.t) :
  generate_team_memberships teams users team_memberships_dict w
  = (Returns (memberships, dict'), w') ->
  (exists blocks,
     memberships = concat blocks /\ Forall2 (team_block users) teams blocks)
  /\ forall team, team ∈ teams ->
       exists team_users,
         team_users ⊆+ users
         /\ team_size users (length team_users)
         /\ dict' !! Team.team_id team = Some (map User.user_id team_users).
Proof.
  intros Hrun.
  pose (P := fun (team : Team.t)
                 (acc : list Membership.t * gmap string (list string)) =>
               exists team_users,
                 team_users ⊆+ users
                 /\ team_size users (length team_users)
                 /\ acc.2 !! Team.team_id team
                    = Some (map User.user_id team_users)).
  assert (ensures (generate_team_memberships teams users team_memberships_dict)
            (fun acc' =>
               (exists blocks,
                  acc'.1 = [] ++ concat blocks
                  /\ Forall2 (team_block users) teams blocks)
               /\ forall team, team ∈ teams -> P team acc')) as Hspec.
  { unfold generate_team_memberships. apply ensures_and.
    - apply (ensures_foldM_blocks fst). intros acc team _.
      eapply ensures_weaken; [apply ensures_team_memberships|].
      intros acc' (team_users & block & Hsub & Hsize & Hrows & Hblock & _).
      exists block. split; [done|]. by exists team_users.
    - apply ensures_foldM_each.
      + intros acc team other (team_users & Hsub & Hsize & Hlookup).
        eapply ensures_weaken; [apply ensures_team_memberships|].
        intros acc' (new_users & _ & Hsub' & Hsize' & _ & _ & Hdict). unfold P.
        rewrite Hdict.
        destruct (decide (Team.team_id team = Team.team_id other)) as [Heq|Hne].
        * exists new_users. rewrite Heq, lookup_insert_eq. done.
        * exists team_users. by rewrite lookup_insert_ne.
      + intros acc team.
        eapply ensures_weaken; [apply ensures_team_memberships|].
        intros acc' (new_users & _ & Hsub' & Hsize' & _ & _ & Hdict).
        exists new_users. by rewrite Hdict, lookup_insert_eq. }
  exact (Hspec _ _ _ Hrun).
Qed.

Lemma memberships_follow_teams_witness :
  exists memberships dict' w',
    generate_team_memberships demo_teams demo_users ∅ demo_world
    = (Returns (memberships, dict'), w')
    /\ (exists blocks,
          memberships = concat blocks
          /\ Forall2 (team_block demo_users) demo_teams blocks)
    /\ forall team, team ∈ demo_teams ->
         exists team_users,
           team_users ⊆+ demo_users
           /\ team_size demo_users (length team_users)
           /\ dict' !! Team.team_id team = Some (map User.user_id team_users).
Proof.
  eexists _, _, _. split; [vm_compute; reflexivity|].
  eapply (memberships_follow_teams demo_teams demo_users ∅ _ demo_world).
  vm_compute. reflexivity.
Defined.

(** ** Tasks *)

Lemma returns_ensures {S A} (m : M S A) (P : A -> Prop) :
  (forall s, exists a s', m s = (Returns a, s') /\ P a) -> ensures m P.
Proof.
  intros Hm s a s' Hs. destruct (Hm s) as (a' & s'' & Hs' & HP). congruence.
Qed.

Lemma ensures_due_date_before_end (created_at end_date : Z) (dist : distribution) :
  ensures (generate_due_date created_at end_date dist)
    (fun r => forall d, r = Some d -> d <= end_date).
Proof.
  eapply ensures_weaken; [apply ensures_generate_due_date|].
  intros r Hr d Hd. by apply Hr.
Qed.

Lemma ensures_completion_date_before_end (created_at : Z) (due_date : option Z)
    (completed : bool) (end_date : Z) :
  ensures (generate_completion_date created_at due_date completed end_date)
    (fun r => forall c, r = Some c -> c <= end_date).
Proof.
  unfold generate_completion_date. destruct completed; simpl.
  - do 3 (apply ensures_bind_any; intros ?).
    assert (forall x, (if end_date <? x then end_date else x) <= end_date)
      as Hclamp by (intros x; case_match; lia).
    destruct due_date as [due|].
    + apply ensures_bind_any. intros r. destruct (Qltb r 0.7).
      * do 3 (apply ensures_bind_any; intros ?).
        apply ensures_ret. intros c [= <-]. lia.
      * apply ensures_ret. intros c [= <-]. apply Hclamp.
    + apply ensures_ret. intros c [= <-]. apply Hclamp.
  - apply ensures_ret. discriminate.
Qed.

Lemma group_sections_lookup (sections : list Section_.t) (pid : string)
    (l : list Section_.t) (s : Section_.t) :
  group_sections sections !! pid = Some l -> s ∈ l ->
  s ∈ sections /\ Section_.project_id s = pid.
Proof.
  unfold group_sections.
  set (Inv := fun (m : gmap string (list Section_.t)) =>
                forall pid l s, m !! pid = Some l -> s ∈ l ->
                  s ∈ sections /\ Section_.project_id s = pid).
  enough (forall ss m, ss ⊆ sections -> Inv m ->
            Inv (fold_left
                   (fun by_project section =>
                      <[Section_.project_id section :=
                          default [] (by_project !! Section_.project_id section)
                          ++ [section]]> by_project) ss m)) as Hfold.
  { intros Hl Hs. eapply (Hfold sections ∅); [done| |exact Hl|exact Hs].
    intros ??? Hempty. by rewrite lookup_empty in Hempty. }
  induction ss as [|s0 ss IH]; intros m Hsub Hm; [done|].
  simpl. apply IH; [set_solver|].
  intros pid' l' s' Hl' Hs'.
  destruct (decide (Section_.project_id s0 = pid')) as [<-|Hne].
  - rewrite lookup_insert_eq in Hl'. injection Hl' as <-.
    apply elem_of_app in Hs' as [Hs'|Hs'].
    + destruct (m !! Section_.project_id s0) as [l0|] eqn:Hl0; simpl in Hs'.
      * by eapply Hm.
      * by apply elem_of_nil in Hs'.
    + apply list_elem_of_singleton in Hs' as ->. split; [set_solver | done].
  - rewrite lookup_insert_ne in Hl' by done. by eapply Hm.
Qed.

Lemma ensures_generate_task_row (llm : LLMGenerator) (users : list User.t)
    (end_date : Z) (project_id project_type : string)
    (project_sections : list Section_.t) (team_members : list string)
    (completion_rate : Q) (created_at : Z) :
  ensures (generate_task llm users end_date project_id project_type
             project_sections team_members completion_rate created_at)
    (fun t =>
       Task.project_id t = project_id
       /\ (exists section, section ∈ project_sections
             /\ Task.section_id t = Section_.section_id section)
       /\ Task.parent_task_id t = None
       /\ (forall a, Task.assignee_id t = Some a -> a ∈ team_members)
       /\ match Task.created_by t with
          | Some c => c ∈ map User.user_id users
          | None => users = []
          end
       /\ Task.priority t ∈ PRIORITIES
       /\ (forall d, Task.due_date t = Some d -> d <= end_date)
       /\ (forall c, Task.completed_at t = Some c -> c <= end_date)).
Proof.
  unfold generate_task. do 2 ensures_skip.
  eapply ensures_bind
    with (P := fun sid => exists section, section ∈ project_sections
                            /\ sid = Section_.section_id section).
  { destruct (_ <=? _)%nat.
    - eapply ensures_bind; [apply ensures_choices1|].
      intros section Hsection. apply ensures_ret. by exists section.
    - eapply ensures_bind; [apply ensures_choice|].
      intros section Hsection. apply ensures_ret. by exists section. }
  intros section_id Hsection. ensures_skip.
  eapply ensures_bind
    with (P := fun assignee => forall a, assignee = Some a -> a ∈ team_members).
  { destruct (_ && _).
    - eapply ensures_bind; [apply ensures_choice|].
      intros member Hmember. apply ensures_ret. by intros ? [= <-].
    - by apply ensures_ret. }
  intros assignee_id Hassignee.
  eapply ensures_bind; [apply ensures_due_date_before_end|].
  intros due_date Hdue. ensures_skip.
  eapply ensures_bind; [apply ensures_completion_date_before_end|].
  intros completed_at Hcompleted.
  eapply ensures_bind; [apply ensures_choices1|]. intros priority Hpriority.
  eapply ensures_bind
    with (P := fun creator : option User.t =>
                 match creator with
                 | Some u => u ∈ users
                 | None => users = []
                 end).
  { destruct users as [|u users]; [by apply ensures_ret|].
    eapply ensures_bind; [apply ensures_choice|].
    intros c Hc. by apply ensures_ret. }
  intros creator Hcreator. ensures_skip. apply ensures_ret. simpl.
  split_and!; try done.
  destruct creator as [u|]; simpl; [|done].
  apply list_elem_of_fmap. eauto.
Qed.

(** Referential integrity of the task rows: every task of [generate_tasks]
    sits in a section of one of the given projects, is assigned to nobody or
    to a member of the team of that project, is created by one of the users,
    and has neither a due date nor a completion time after the end date. *)
Theorem tasks_refer_to_their_project (llm : LLMGenerator)
    (projects : list Project.t) (sections : list Section_.t)
    (users : list User.t) (team_memberships : gmap string (list string))
    (start_date end_date tasks_per_project : Z) (w w' : world)
    (tasks : list Task.t) :
  generate_tasks llm projects sections users team_memberships
    start_date end_date tasks_per_project w = (Returns tasks, w') ->
  Forall (task_row projects sections users team_memberships end_date) tasks.
Proof.
  revert w tasks w'.
  change (ensures (generate_tasks llm projects sections users team_memberships
                     start_date end_date tasks_per_project)
            (Forall (task_row projects sections users team_memberships
                       end_date))).
  unfold generate_tasks. apply ensures_foldM; [|done].
  intros tasks project Hproject Htasks. unfold generate_project_tasks.
  destruct (group_sections sections !! Project.project_id project)
    as [project_sections|] eqn:Hsections; simpl; [|by apply ensures_ret].
  destruct project_sections as [|section project_sections];
    [by apply ensures_ret|].
  do 3 ensures_skip.
  eapply ensures_bind.
  - apply ensures_mapM. intros created_at _. apply ensures_generate_task_row.
  - intros new Hnew. apply ensures_ret. apply Forall_app. split; [done|].
    eapply Forall_impl; [exact Hnew|].
    intros t (Hpid & (s & Hs & Hsid) & Hparent & Hassignee & Hcreator
              & Hpriority & Hdue & Hcompleted).
    destruct (group_sections_lookup _ _ _ _ Hsections Hs) as [Hin Hspid].
    exists project, s. split_and!; done.
Qed.

Lemma tasks_refer_to_their_project_witness :
  exists tasks w',
    generate_tasks (mkLLM None) demo_projects demo_sections demo_users
      demo_memberships (mk_datetime 2024 1 1 0 0 0)
      (mk_datetime 2024 7 1 0 0 0) 3 demo_world
    = (Returns tasks, w')
    /\ Forall (task_row demo_projects demo_sections demo_users
                 demo_memberships (mk_datetime 2024 7 1 0 0 0)) tasks.
Proof.
  eexists _, _. split; [vm_compute; reflexivity|].
  eapply (tasks_refer_to_their_project (mkLLM None) demo_projects
            demo_sections demo_users demo_memberships
            (mk_datetime 2024 1 1 0 0 0) (mk_datetime 2024 7 1 0 0 0) 3
            demo_world).
  vm_compute. reflexivity.
Defined.

(** ** Custom field definitions *)

Lemma FIELD_TEMPLATES_names_NoDup : NoDup (map fst FIELD_TEMPLATES).
Proof. apply (bool_decide_unpack _). vm_compute. exact I. Qed.

(** No catalog entry lists an empty set of options. *)
Lemma FIELD_TEMPLATES_options :
  Forall (fun template => truthy_options template.2.2 = template.2.2)
    FIELD_TEMPLATES.
Proof. repeat constructor. Qed.

Lemma ensures_generate_project_fields (custom_fields : list FieldDef.t)
    (project : Project.t) :
  ensures (generate_project_fields custom_fields project)
    (fun acc' => exists block,
       acc' = custom_fields ++ block /\ project_fields project block).
Proof.
  unfold generate_project_fields. ensures_skip.
  destruct (negb _).
  { apply ensures_ret. exists []. rewrite app_nil_r. split; [done|].
    split_and!; [by left | apply NoDup_nil_2 | done]. }
  eapply ensures_bind; [apply ensures_randint|]. intros num_fields Hnum.
  eapply ensures_bind; [apply ensures_sample_submseteq|].
  intros selected [Hsub Hlen].
  eapply ensures_bind.
  { apply (ensures_mapM_Forall2 _
             (fun template d =>
                FieldDef.project_id d = Project.project_id project
                /\ FieldDef.name d = template.1
                /\ FieldDef.field_type d = template.2.1
                /\ FieldDef.enum_options d = truthy_options template.2.2)).
    intros [field_name [type options]] _. ensures_skip. by apply ensures_ret. }
  intros new Hnew. apply ensures_ret. exists new. split; [done|].
  assert (map FieldDef.name new = map fst selected) as Hnames.
  { clear -Hnew. induction Hnew as [|t d ts ds (_ & Hname & _) _ IH]; [done|].
    simpl. by rewrite Hname, IH. }
  split_and!.
  - right. rewrite <- (Forall2_length _ _ _ Hnew).
    change (length FIELD_TEMPLATES) with 8%nat in Hlen. cbv beta in Hnum. lia.
  - rewrite Hnames.
    eapply submseteq_NoDup; [|apply FIELD_TEMPLATES_names_NoDup].
    by apply fmap_submseteq.
  - eapply Forall2_Forall_r_in; [exact Hnew|].
    intros [field_name [type options]] d Hin (Hpid & Hname & Htype & Hopts).
    split; [done|]. simpl in *.
    assert ((field_name, (type, options)) ∈ FIELD_TEMPLATES) as Hcat
      by (eapply elem_of_submseteq; eauto).
    pose proof (proj1 (Forall_forall _ _) FIELD_TEMPLATES_options _ Hcat) as Ht.
    simpl in Ht. by rewrite Hname, Htype, Hopts, Ht.
Qed.

(** The definitions come project by project: a project has none, or two to
    five of them under distinct names, and each is an entry of the catalog
    (name, type and options) filed under that project. *)
Theorem custom_fields_from_catalog (projects : list Project.t) (w w' : world)
    (custom_field_defs : list FieldDef.t) :
  generate_custom_fields projects w = (Returns custom_field_defs, w') ->
  exists blocks,
    custom_field_defs = concat blocks /\ Forall2 project_fields projects blocks.
Proof.
  revert w custom_field_defs w'.
  change (ensures (generate_custom_fields projects)
            (fun defs => exists blocks,
               id defs = id [] ++ concat blocks
               /\ Forall2 project_fields projects blocks)).
  unfold generate_custom_fields. apply (ensures_foldM_blocks id).
  intros acc project _. apply ensures_generate_project_fields.
Qed.

Lemma custom_fields_from_catalog_witness :
  exists custom_field_defs w',
    generate_custom_fields demo_projects fields_world
    = (Returns custom_field_defs, w')
    /\ exists blocks,
         custom_field_defs = concat blocks
         /\ Forall2 project_fields demo_projects blocks.
Proof.
  eexists _, _. split; [vm_compute; reflexivity|].
  eapply (custom_fields_from_catalog demo_projects fields_world).
  vm_compute. reflexivity.
Defined.

(** ** Definitions and values together *)

Lemma ensures_field_values (tasks : list Task.t)
    (custom_field_defs : list FieldDef.t) :
  ensures (generate_custom_field_values tasks custom_field_defs)
    (Forall (fun v => exists task d,
               task ∈ tasks /\ d ∈ custom_field_defs
               /\ FieldDef.project_id d = Task.project_id task
               /\ value_of task d v)).
Proof.
  unfold generate_custom_field_values. apply ensures_foldM; [|done].
  intros acc task Htask Hacc. unfold generate_task_values.
  destruct (group_fields custom_field_defs !! Task.project_id task)
    as [fields|] eqn:Hfields; simpl; [|by apply ensures_ret].
  apply ensures_foldM; [|done].
  intros acc' d Hd Hacc'.
  eapply ensures_bind; [apply ensures_generate_field_value|].
  intros [v|] Hv; apply ensures_ret; simpl in *; [|by rewrite app_nil_r].
  apply Forall_app. split; [done|]. apply Forall_singleton.
  destruct (group_fields_lookup _ _ _ _ Hfields Hd) as [Hin Hpid].
  exists task, d. eauto.
Qed.

(** For a catalog entry the generator lacks a value only when the entry is
    a date and the task has no due date. *)
Lemma catalog_has_value (project : Project.t) (task : Task.t) (d : FieldDef.t) :
  field_of_catalog project d ->
  ~ has_value task d ->
  FieldDef.field_type d = "date" /\ Task.due_date task = None.
Proof.
  intros [_ Hcat] Hno. unfold has_value in Hno.
  destruct d as [fid pid name type options]. simpl in *.
  unfold FIELD_TEMPLATES in Hcat.
  repeat (apply elem_of_cons in Hcat as [[= -> -> ->]|Hcat];
          [try (exfalso; apply Hno; eauto 10; fail)|]).
  all: try (by apply elem_of_nil in Hcat).
  split; [done|]. destruct (Task.due_date task) as [due|]; [|done].
  exfalso. apply Hno. right. right. by left.
Qed.

(** Values generated over generated definitions: every value row has its
    one slot filled, the slot of its definition's type, except the rows of a
    date field on a task without due date, whose five slots are all null. *)
Theorem generated_fields_leave_only_dates_empty (projects : list Project.t)
    (tasks : list Task.t) (w w1 w2 : world)
    (custom_field_defs : list FieldDef.t) (values : list FieldValue.t) :
  generate_custom_fields projects w = (Returns custom_field_defs, w1) ->
  generate_custom_field_values tasks custom_field_defs w1
  = (Returns values, w2) ->
  forall v, v ∈ values ->
    exists task d,
      task ∈ tasks /\ d ∈ custom_field_defs
      /\ FieldDef.project_id d = Task.project_id task
      /\ FieldValue.task_id v = Task.task_id task
      /\ FieldValue.custom_field_id v = FieldDef.custom_field_id d
      /\ (populated v = [FieldDef.field_type d]
          \/ populated v = [] /\ FieldDef.field_type d = "date"
             /\ Task.due_date task = None).
Proof.
  intros Hdefs Hvalues v Hv.
  assert (forall d, d ∈ custom_field_defs ->
            exists project, field_of_catalog project d) as Hcatalog.
  { assert (ensures (generate_custom_fields projects)
              (Forall (fun d => exists project, field_of_catalog project d)))
      as Hspec.
    { unfold generate_custom_fields. apply ensures_foldM; [|done].
      intros acc project _ Hacc.
      eapply ensures_weaken; [apply ensures_generate_project_fields|].
      intros acc' (block & -> & _ & _ & Hblock).
      apply Forall_app. split; [done|].
      eapply Forall_impl; [exact Hblock|]. eauto. }
    intros d Hd. exact (proj1 (Forall_forall _ _) (Hspec _ _ _ Hdefs) d Hd). }
  pose proof (proj1 (Forall_forall _ _)
                (ensures_field_values _ _ _ _ _ Hvalues) v Hv)
    as (task & d & Htask & Hd & Hpid & Hid & Hfid & Hslots).
  exists task, d. split_and!; try done.
  destruct Hslots as [[_ Hfilled]|[Hno Hempty]]; [by left|]. right.
  destruct (Hcatalog d Hd) as [project Hcat].
  split; [done|]. by eapply catalog_has_value.
Qed.

Lemma generated_fields_leave_only_dates_empty_witness :
  exists custom_field_defs w1 values w2,
    generate_custom_fields demo_projects fields_world
    = (Returns custom_field_defs, w1)
    /\ generate_custom_field_values [late_task "a"; dated_task]
         custom_field_defs w1
       = (Returns values, w2)
    /\ forall v, v ∈ values ->
         exists task d,
           task ∈ [late_task "a"; dated_task] /\ d ∈ custom_field_defs
           /\ FieldDef.project_id d = Task.project_id task
           /\ FieldValue.task_id v = Task.task_id task
           /\ FieldValue.custom_field_id v = FieldDef.custom_field_id d
           /\ (populated v = [FieldDef.field_type d]
               \/ populated v = [] /\ FieldDef.field_type d = "date"
                  /\ Task.due_date task = None).
Proof.
  eexists _, _, _, _.
  split; [vm_compute; reflexivity|]. split; [vm_compute; reflexivity|].
  eapply (generated_fields_leave_only_dates_empty demo_projects
            [late_task "a"; dated_task] fields_world);
    [vm_compute; reflexivity | vm_compute; reflexivity].
Defined.

(** ** Projects and sections *)

(** A loop whose body appends one row to its first list and a block to its
    second returns the rows with their blocks, in the order of the items. *)
Lemma ensures_foldM_rows_blocks {S A C D}
    (body : list C * list D -> A -> M S (list C * list D))
    (R : A -> C -> list D -> Prop) (xs : list A) :
  (forall acc x, x ∈ xs ->
     ensures (body acc x)
       (fun acc' => exists row block,
          acc'.1 = acc.1 ++ [row] /\ acc'.2 = acc.2 ++ block /\ R x row block)) ->
  forall acc,
    ensures (foldM body acc xs)
      (fun acc' => exists items : list (C * list D),
         acc'.1 = acc.1 ++ map fst items
         /\ acc'.2 = acc.2 ++ concat (map snd items)
         /\ Forall2 (fun x item => R x item.1 item.2) xs items).
Proof.
  induction xs as [|x xs IH]; intros Hbody acc; simpl.
  - apply ensures_ret. exists []. simpl. by rewrite !app_nil_r.
  - eapply ensures_bind; [apply Hbody; left|].
    intros acc1 (row & block & Hrow & Hblock & HR).
    eapply ensures_weaken.
    + apply IH. intros acc2 y Hy. apply Hbody. by right.
    + intros acc' (items & Hrows & Hblocks & Hitems).
      exists ((row, block) :: items). split_and!.
      * rewrite Hrows, Hrow. simpl. by rewrite <- app_assoc.
      * rewrite Hblocks, Hblock. simpl. by rewrite <- !app_assoc.
      * by constructor.
Qed.

Lemma Forall2_fmap_eq2 {A B C} (f : B -> C) (g : A -> C) (xs : list A)
    (ys : list B) :
  Forall2 (fun x y => f y = g x) xs ys -> map f ys = map g xs.
Proof. induction 1; simpl; congruence. Qed.

Lemma ensures_generate_sections (project_id : string) (created_at : Z) :
  ensures (generate_sections project_id created_at)
    (fun block =>
       map Section_.name block = STANDARD_SECTIONS
       /\ map Section_.position block = [0; 1; 2; 3]
       /\ Forall (fun s => Section_.project_id s = project_id
                           /\ Section_.created_at s = created_at) block).
Proof.
  unfold generate_sections.
  eapply ensures_weaken.
  - apply (ensures_mapM_Forall2 _
             (fun item s =>
                Section_.name s = item.2
                /\ Section_.position s = Z.of_nat item.1
                /\ Section_.project_id s = project_id
                /\ Section_.created_at s = created_at)).
    intros [i section_name] _. ensures_skip. by apply ensures_ret.
  - intros block Hblock. cbv beta. split_and!.
    + rewrite (Forall2_fmap_eq2 Section_.name snd
                 (imap pair STANDARD_SECTIONS) block); [reflexivity|].
      eapply Forall2_impl; [exact Hblock|]. by intros item s (? & _).
    + rewrite (Forall2_fmap_eq2 Section_.position
                 (fun item => Z.of_nat item.1)
                 (imap pair STANDARD_SECTIONS) block); [reflexivity|].
      eapply Forall2_impl; [exact Hblock|]. by intros item s (_ & ? & _).
    + eapply Forall2_Forall_r_in; [exact Hblock|].
      by intros item s _ (_ & _ & ? & ?).
Qed.

Lemma ensures_generate_project (teams : list Team.t) (users : list User.t)
    (acc : list Project.t * list Section_.t) (created_at : Z) :
  ensures (generate_project teams users acc created_at)
    (fun acc' => exists p block,
       acc'.1 = acc.1 ++ [p] /\ acc'.2 = acc.2 ++ block
       /\ (Project.created_at p = created_at
           /\ (forall start_date end_date,
                 start_date <= created_at < end_date ->
                 project_row teams users start_date end_date p)
           /\ standard_sections p block)).
Proof.
  destruct acc as [projects sections]. unfold generate_project.
  eapply ensures_bind; [apply ensures_choices1|]. intros project_type Htype.
  eapply ensures_bind; [apply ensures_choice|]. intros base_name Hbase.
  ensures_skip.
  eapply ensures_bind
    with (P := fun name =>
                 name ∈ [base_name; base_name +:+ " 2024"; base_name +:+ " Q1";
                         base_name +:+ " Q2"]).
  { destruct (Qltb _ _).
    - eapply ensures_weaken; [apply ensures_choice|].
      intros name Hname. by right.
    - apply ensures_ret. by left. }
  intros name Hname.
  eapply ensures_bind; [apply ensures_choice|]. intros team Hteam.
  eapply ensures_bind
    with (P := fun creator : option User.t =>
                 match creator with
                 | Some u => u ∈ users
                 | None => users = []
                 end).
  { destruct users as [|u users]; [by apply ensures_ret|].
    eapply ensures_bind; [apply ensures_choice|].
    intros c Hc. by apply ensures_ret. }
  intros creator Hcreator. do 2 ensures_skip.
  eapply ensures_bind; [apply ensures_choice|]. intros color Hcolor.
  ensures_skip.
  eapply ensures_bind; [apply ensures_generate_sections|].
  intros block (Hnames & Hpositions & Hblock).
  apply ensures_ret. eexists _, block. split; [reflexivity|].
  split; [reflexivity|]. simpl. split_and!; [done | | done].
  intros start_date end_date Hwindow. unfold project_row.
  cbn [Project.created_at Project.team_id Project.project_type Project.name
       Project.color Project.created_by].
  split_and!; try done; try lia.
  - apply list_elem_of_fmap. eauto.
  - exists project_type, base_name. split_and!; try done.
    cbv beta in Htype, Hbase. revert Hbase.
    repeat (apply elem_of_cons in Htype as [->|Htype]; [by simpl|]).
    by apply elem_of_nil in Htype.
  - destruct creator as [u|]; simpl; [|done]. apply list_elem_of_fmap. eauto.
Qed.

(** [generate_projects] returns as many projects as asked for, in the order
    of their creation times, each owned by one of the teams and named after
    a template of its type; and the sections are, project by project, the
    four standard sections of that project at positions 0 to 3, created
    with it. *)
Theorem projects_with_standard_sections (count : Z) (teams : list Team.t)
    (users : list User.t) (start_date end_date : Z) (w w' : world)
    (projects : list Project.t) (sections : list Section_.t) :
  generate_projects count teams users start_date end_date w
  = (Returns (projects, sections), w') ->
  length projects = Z.to_nat count
  /\ StronglySorted Z.le (map Project.created_at projects)
  /\ Forall (project_row teams users start_date end_date) projects
  /\ exists blocks,
       sections = concat blocks /\ Forall2 standard_sections projects blocks.
Proof.
  intros Hrun.
  assert (ensures (generate_projects count teams users start_date end_date)
            (fun acc =>
               length acc.1 = Z.to_nat count
               /\ StronglySorted Z.le (map Project.created_at acc.1)
               /\ Forall (project_row teams users start_date end_date) acc.1
               /\ exists blocks,
                    acc.2 = concat blocks
                    /\ Forall2 standard_sections acc.1 blocks)) as Hspec.
  { unfold generate_projects.
    eapply ensures_bind.
    { apply ensures_and; [apply ensures_replicateM_length|].
      apply ensures_replicateM, ensures_random_date. }
    intros times [Hlen Htimes].
    eapply ensures_weaken.
    { apply ensures_foldM_rows_blocks. intros acc created_at _.
      apply ensures_generate_project. }
    intros [projects' sections'] (items & Hrows & Hblocks & Hitems).
    simpl in *. subst projects' sections'.
    assert (map Project.created_at (map fst items) = merge_sort Z.le times)
      as Hmap.
    { rewrite map_map. apply Forall2_fmap_eq.
      eapply Forall2_impl; [exact Hitems|]. by intros x item (? & _). }
    split_and!.
    - rewrite <- (length_map Project.created_at), Hmap, merge_sort_Permutation.
      exact Hlen.
    - rewrite Hmap. apply StronglySorted_merge_sort; apply _.
    - apply Forall_fmap.
      eapply Forall2_Forall_r_in; [exact Hitems|].
      intros x item Hx (Hcreated & Hrow & _). apply Hrow.
      rewrite merge_sort_Permutation in Hx.
      destruct (proj1 (Forall_forall _ _) Htimes x Hx) as (k & Hk & -> & Hlt).
      days_lia.
    - exists (map snd items). split; [done|].
      apply Forall2_fmap. clear -Hitems.
      induction Hitems as [|x item xs items (_ & _ & Hitem) _ IH];
        by constructor. }
  exact (Hspec _ _ _ Hrun).
Qed.

Lemma projects_with_standard_sections_witness :
  exists projects sections w',
    generate_projects 3 demo_teams demo_users (mk_datetime 2024 1 1 0 0 0)
      (mk_datetime 2024 7 1 0 0 0) demo_world
    = (Returns (projects, sections), w')
    /\ length projects = 3%nat
    /\ StronglySorted Z.le (map Project.created_at projects)
    /\ Forall (project_row demo_teams demo_users (mk_datetime 2024 1 1 0 0 0)
                 (mk_datetime 2024 7 1 0 0 0)) projects
    /\ exists blocks,
         sections = concat blocks /\ Forall2 standard_sections projects blocks.
Proof.
  eexists _, _, _. split; [vm_compute; reflexivity|].
  eapply (projects_with_standard_sections 3 demo_teams demo_users
            (mk_datetime 2024 1 1 0 0 0) (mk_datetime 2024 7 1 0 0 0)
            demo_world).
  vm_compute. reflexivity.
Defined.

Lemma replicateM_returns {S A} (m : M S A) (n : nat) (s : S) :
  (forall s, exists a s', m s = (Returns a, s')) ->
  exists l s', replicateM n m s = (Returns l, s') /\ length l = n.
Proof.
  intros Hm. revert s. induction n as [|n IH]; intros s; simpl.
  - by exists [], s.
  - destruct (Hm s) as (a & s1 & Ha). destruct (IH s1) as (l & s2 & Hl & Hlen).
    rewrite (bind_returns _ _ _ _ _ Ha), (bind_returns _ _ _ _ _ Hl).
    exists (a :: l), s2. simpl. by rewrite Hlen.
Qed.

Lemma choice_returns {A} (seq : list A) (w : world) :
  seq <> [] -> exists x w', choice seq w = (Returns x, w').
Proof.
  intros Hne. destruct seq as [|x seq]; [done|]. unfold choice.
  destruct (next_raw_returns w) as (z & w' & Hz).
  rewrite (bind_returns _ _ _ _ _ Hz). by eexists _, _.
Qed.

Lemma generate_project_no_team (users : list User.t)
    (acc : list Project.t * list Section_.t) (created_at : Z) (w : world) :
  exists w', generate_project [] users acc created_at w = (Raises IndexError, w').
Proof.
  destruct acc as [projects sections]. unfold generate_project. cbv zeta.
  destruct (choices1_returns ["engineering"; "marketing"; "operations"]
              [0.50; 0.30; 0.20]%Q w) as (project_type & w1 & Htype);
    [done | done | by repeat constructor | done |].
  rewrite (bind_returns _ _ _ _ _ Htype).
  match goal with
  | |- context [bind (choice ?pool) _] =>
      destruct (choice_returns pool w1) as (base_name & w2 & Hbase)
  end.
  { repeat case_decide; done. }
  rewrite (bind_returns _ _ _ _ _ Hbase).
  destruct (random_returns w2) as (r & w3 & Hr).
  rewrite (bind_returns _ _ _ _ _ Hr).
  match goal with
  | |- context [bind (if Qltb r ?p then ?a else ?b) _] =>
      assert (exists name w4, (if Qltb r p then a else b) w3 = (Returns name, w4))
        as (name & w4 & Hname)
  end.
  { destruct (Qltb r _); [by apply choice_returns | by eexists _, _]. }
  rewrite (bind_returns _ _ _ _ _ Hname).
  by exists w4.
Qed.

(** Without teams, projects cannot be generated: the first project finds
    no team to be assigned to, and the run stops with [IndexError]. *)
Theorem projects_need_a_team (count : Z) (users : list User.t)
    (start_date end_date : Z) (w : world) :
  0 < count -> us_per_day <= end_date - start_date ->
  exists w',
    generate_projects count [] users start_date end_date w
    = (Raises IndexError, w').
Proof.
  intros Hcount Hspan. unfold generate_projects.
  destruct (replicateM_returns (random_date start_date end_date)
              (Z.to_nat count) w) as (times & w1 & Htimes & Hlen).
  { intros s. destruct (proj1 (random_date_spec start_date end_date s) Hspan)
      as (k & s' & Hk & _). eauto. }
  rewrite (bind_returns _ _ _ _ _ Htimes).
  pose proof (merge_sort_Permutation Z.le times) as Hperm.
  apply Permutation_length in Hperm.
  destruct (merge_sort Z.le times) as [|created_at rest];
    [simpl in Hperm; lia|].
  destruct (generate_project_no_team users ([], []) created_at w1)
    as (w' & Hraise).
  exists w'. simpl foldM. by apply bind_raises.
Qed.

Lemma projects_need_a_team_witness :
  exists w',
    generate_projects 200 [] demo_users (mk_datetime 2024 1 1 0 0 0)
      (mk_datetime 2024 7 1 0 0 0) demo_world
    = (Raises IndexError, w').
Proof.
  apply (projects_need_a_team 200 demo_users (mk_datetime 2024 1 1 0 0 0)
           (mk_datetime 2024 7 1 0 0 0) demo_world);
    [lia | vm_compute; discriminate].
Defined.

(** ** Tags *)

Lemma TAG_TEMPLATES_NoDup : NoDup TAG_TEMPLATES.
Proof. apply (bool_decide_unpack _). vm_compute. exact I. Qed.

(** [generate_tags] returns only for a count that is not negative, and then
    returns that many tags, forty-one at most, under pairwise distinct names
    of the catalog, each with a colour of the palette. *)
Theorem tags_named_apart (org_id : string) (count : Z) (w w' : world)
    (tags : list Tag.t) :
  generate_tags org_id count w = (Returns tags, w') ->
  0 <= count
  /\ Z.of_nat (length tags) = Z.min count 41
  /\ NoDup (map Tag.name tags)
  /\ Forall (tag_row org_id) tags.
Proof.
  revert w tags w'.
  change (ensures (generate_tags org_id count)
            (fun tags =>
               0 <= count
               /\ Z.of_nat (length tags) = Z.min count 41
               /\ NoDup (map Tag.name tags)
               /\ Forall (tag_row org_id) tags)).
  unfold generate_tags.
  eapply ensures_bind; [apply ensures_sample_submseteq|].
  intros selected_names [Hsub Hlen].
  change (Z.of_nat (length TAG_TEMPLATES)) with 41 in Hlen.
  eapply ensures_weaken.
  - apply (ensures_mapM_Forall2 _
             (fun name t => Tag.name t = name
                            /\ Tag.organization_id t = org_id
                            /\ Tag.color t ∈ TAG_COLORS)).
    intros name _. ensures_skip.
    eapply ensures_bind; [apply ensures_choice|]. intros color Hcolor.
    by apply ensures_ret.
  - intros tags Htags. cbv beta.
    assert (map Tag.name tags = selected_names) as Hnames.
    { apply Forall2_fmap_eq. eapply Forall2_impl; [exact Htags|].
      by intros name t [-> _]. }
    split_and!.
    + lia.
    + by rewrite <- (length_map Tag.name), Hnames.
    + rewrite Hnames. eapply submseteq_NoDup; [exact Hsub|].
      apply TAG_TEMPLATES_NoDup.
    + eapply Forall2_Forall_r_in; [exact Htags|].
      intros name t Hname (Hn & Horg & Hcolor). split_and!; [done | | done].
      rewrite Hn. eapply elem_of_submseteq; [exact Hname | exact Hsub].
Qed.

Lemma tags_named_apart_witness :
  exists tags w',
    generate_tags "org" 30 demo_world = (Returns tags, w')
    /\ 0 <= 30
    /\ Z.of_nat (length tags) = Z.min 30 41
    /\ NoDup (map Tag.name tags)
    /\ Forall (tag_row "org") tags.
Proof.
  eexists _, _. split; [vm_compute; reflexivity|].
  eapply (tags_named_apart "org" 30 demo_world). vm_compute. reflexivity.
Defined.

Lemma ensures_generate_task_tag_rows (tags : list Tag.t)
    (task_tags : list TaskTag.t) (task : Task.t) :
  ensures (generate_task_tag_rows tags task_tags task)
    (fun acc' => exists block,
       acc' = task_tags ++ block /\ task_tag_block tags task block).
Proof.
  unfold generate_task_tag_rows.
  eapply ensures_bind; [apply ensures_choices1|]. intros num_tags Hnum.
  assert (num_tags <= 4) as Hle.
  { cbv beta in Hnum.
    repeat (apply elem_of_cons in Hnum as [->|Hnum]; [lia|]).
    by apply elem_of_nil in Hnum. }
  destruct (_ && _).
  - eapply ensures_bind; [apply ensures_sample_submseteq|].
    intros selected_tags [Hsub Hlen]. apply ensures_ret.
    eexists. split; [reflexivity|]. exists selected_tags.
    split_and!; [done | lia | done].
  - apply ensures_ret. exists []. rewrite app_nil_r. split; [done|].
    exists []. split_and!; [apply submseteq_nil_l | simpl; lia | done].
Qed.

(** The task-tag rows come task by task: a task gets at most four tags, all
    among the given tags and no position of the tag list twice; without
    tags there are no rows. *)
Theorem task_tags_follow_tasks (tasks : list Task.t) (tags : list Tag.t)
    (w w' : world) (task_tags : list TaskTag.t) :
  generate_task_tags tasks tags w = (Returns task_tags, w') ->
  (exists blocks,
     task_tags = concat blocks /\ Forall2 (task_tag_block tags) tasks blocks)
  /\ (tags = [] -> task_tags = []).
Proof.
  intros Hrun.
  assert (exists blocks,
            task_tags = concat blocks
            /\ Forall2 (task_tag_block tags) tasks blocks) as Hblocks.
  { revert Hrun. revert w task_tags w'.
    change (ensures (generate_task_tags tasks tags)
              (fun acc => exists blocks,
                 id acc = id [] ++ concat blocks
                 /\ Forall2 (task_tag_block tags) tasks blocks)).
    unfold generate_task_tags. apply (ensures_foldM_blocks id).
    intros acc task _. apply ensures_generate_task_tag_rows. }
  split; [exact Hblocks|]. intros ->.
  destruct Hblocks as (blocks & -> & Hblocks). clear Hrun.
  induction Hblocks as [|task block tasks blocks Hblock _ IH]; [done|].
  simpl. rewrite IH.
  destruct Hblock as (selected & Hsub & _ & ->).
  apply submseteq_nil_r in Hsub as ->. done.
Qed.

Lemma task_tags_follow_tasks_witness :
  exists task_tags w',
    generate_task_tags [late_task "a"; dated_task; late_task "c"]
      [Tag.mk "g1" "org" "urgent" "red"; Tag.mk "g2" "org" "bug" "blue";
       Tag.mk "g3" "org" "mvp" "pink"] demo_world
    = (Returns task_tags, w')
    /\ (exists blocks,
          task_tags = concat blocks
          /\ Forall2
               (task_tag_block
                  [Tag.mk "g1" "org" "urgent" "red";
                   Tag.mk "g2" "org" "bug" "blue";
                   Tag.mk "g3" "org" "mvp" "pink"])
               [late_task "a"; dated_task; late_task "c"] blocks)
    /\ ([Tag.mk "g1" "org" "urgent" "red"; Tag.mk "g2" "org" "bug" "blue";
         Tag.mk "g3" "org" "mvp" "pink"] = [] -> task_tags = []).
Proof.
  eexists _, _. split; [vm_compute; reflexivity|].
  eapply (task_tags_follow_tasks [late_task "a"; dated_task; late_task "c"]
            [Tag.mk "g1" "org" "urgent" "red"; Tag.mk "g2" "org" "bug" "blue";
             Tag.mk "g3" "org" "mvp" "pink"] demo_world).
  vm_compute. reflexivity.
Defined.

(** ** Comments and attachments *)

Lemma ensures_random_unit :
  ensures random (fun r => (0 <= r)%Q /\ (r < 1)%Q).
Proof.
  unfold random. ensures_skip. rename a into z. apply ensures_ret.
  pose proof (Z.mod_pos_bound z (2 ^ 53) ltac:(done)) as Hz.
  unfold Qle, Qlt. cbn [Qnum Qden].
  change (Z.pos (2 ^ 53)) with (2 ^ 53). lia.
Qed.

Lemma int_of_float_nonneg (x : Q) : (0 <= x)%Q -> 0 <= int_of_float x.
Proof.
  intros Hx. unfold int_of_float. destruct (Qltb x 0) eqn:Hlt.
  - apply Qltb_lt in Hlt. by apply Qle_not_lt in Hx.
  - change 0 with (Qfloor 0). by apply Qfloor_resp_le.
Qed.

Lemma int_of_float_inject_Z (z : Z) : int_of_float (inject_Z z) = z.
Proof.
  unfold int_of_float. destruct (Qltb _ _); [apply Qceiling_Z | apply Qfloor_Z].
Qed.

(** The capped offset is a whole number of days that is not negative when
    neither the offset nor the cap is. *)
Lemma capped_offset_nonneg (days_offset : Q) (cap : Z) :
  (0 <= days_offset)%Q -> 0 <= cap ->
  0 <= int_of_float (min_float_int days_offset cap).
Proof.
  intros Hoffset Hcap. unfold min_float_int. destruct (Qltb _ _).
  - by rewrite int_of_float_inject_Z.
  - by apply int_of_float_nonneg.
Qed.

Lemma find_user_elem_of (users : list User.t) (uid : option string)
    (u : User.t) :
  find_user users uid = Some u -> u ∈ users.
Proof. intros Hfind. apply list_elem_of_In. by eapply find_some. Qed.

Lemma ensures_select_actor (users : list User.t) (task : Task.t)
    (p_assignee p_creator : Q) :
  ensures (select_actor users task p_assignee p_creator) (fun u => u ∈ users).
Proof.
  unfold select_actor. ensures_skip. destruct (_ && _).
  - destruct (find_user _ _) as [u|] eqn:Hfind.
    + apply ensures_ret. by eapply find_user_elem_of.
    + apply ensures_choice.
  - ensures_skip. destruct (_ && _); [|apply ensures_choice].
    destruct (find_user _ _) as [u|] eqn:Hfind.
    + apply ensures_ret. by eapply find_user_elem_of.
    + apply ensures_choice.
Qed.

(** Whatever the project type, the category drawn is a key of [FILE_TYPES]
    with at least one template: the lookup and the choice that follow it in
    [generate_attachments] cannot fail. *)
Theorem file_category_is_a_key (project_type : string) (w w' : world)
    (category : string) :
  select_file_category project_type w = (Returns category, w') ->
  category ∈ map fst FILE_TYPES /\ file_types_of category <> [].
Proof.
  revert w category w'.
  change (ensures (select_file_category project_type)
            (fun category => category ∈ map fst FILE_TYPES
                             /\ file_types_of category <> [])).
  assert (forall pool : list string,
            Forall (fun c => c ∈ map fst FILE_TYPES /\ file_types_of c <> [])
              pool ->
            forall c, c ∈ pool ->
              c ∈ map fst FILE_TYPES /\ file_types_of c <> []) as Hpool.
  { intros pool Hall c Hc. exact (proj1 (Forall_forall _ _) Hall c Hc). }
  unfold select_file_category. repeat case_decide.
  - eapply ensures_weaken; [apply ensures_choices1|]. apply Hpool.
    repeat constructor; done.
  - eapply ensures_weaken; [apply ensures_choices1|]. apply Hpool.
    repeat constructor; done.
  - eapply ensures_weaken; [apply ensures_choices1|]. apply Hpool.
    repeat constructor; done.
  - eapply ensures_weaken; [apply ensures_choice|]. apply Hpool.
    repeat constructor; done.
Qed.

Lemma file_category_is_a_key_witness :
  exists category w',
    select_file_category "Operations" (mkWorld [6305039478318694] [] [] [])
    = (Returns category, w')
    /\ category ∈ map fst FILE_TYPES /\ file_types_of category <> [].
Proof.
  eexists _, _. split; [vm_compute; reflexivity|].
  eapply (file_category_is_a_key "Operations"
            (mkWorld [6305039478318694] [] [] [])).
  vm_compute. reflexivity.
Defined.

Section DecayProperties.
Variable log : Q -> Q.

(** What is used of the logarithm: it is not positive on (0, 1]. *)
Hypothesis log_nonpos : forall x : Q, (0 < x)%Q -> (x <= 1)%Q -> (log x <= 0)%Q.

Lemma ensures_expovariate (lambd : Q) :
  (0 < lambd)%Q -> ensures (expovariate log lambd) (fun x => (0 <= x)%Q).
Proof.
  intros Hlambd. unfold expovariate.
  eapply ensures_bind; [apply ensures_random_unit|].
  intros r [Hr0 Hr1]. apply ensures_ret.
  apply Qle_shift_div_l; [done|]. rewrite Qmult_0_l.
  assert (log (1 - r) <= 0)%Q as Hlog.
  { apply log_nonpos.
    - exact (proj1 (Qlt_minus_iff r 1) Hr1).
    - apply (proj2 (Qle_minus_iff (1 - r) 1)).
      assert (1 + - (1 - r) == r)%Q as -> by ring. exact Hr0. }
  apply Qopp_le_compat in Hlog. exact Hlog.
Qed.

Lemma ensures_draw_comment_times (n : nat) (end_date current_time : Z) :
  ensures (draw_comment_times log n end_date current_time)
    (fun times =>
       (length times <= n)%nat
       /\ Forall (fun t => t <= end_date) times
       /\ (current_time <= end_date ->
           StronglySorted Z.le (current_time :: times))).
Proof.
  revert current_time. induction n as [|n IH]; intros current_time; simpl.
  - apply ensures_ret. split_and!; [done | done |].
    intros _. repeat constructor.
  - eapply ensures_bind; [by apply ensures_expovariate|].
    intros days_offset Hoffset. cbv beta in Hoffset.
    set (step := int_of_float
                   (min_float_int days_offset
                      (td_days (end_date - current_time)))).
    assert (current_time <= end_date -> 0 <= step) as Hstep.
    { intros Hle. apply capped_offset_nonneg; [done | days_lia]. }
    clearbody step.
    eapply ensures_bind; [apply ensures_add_timedelta|].
    intros comment_time [-> _].
    destruct (Z.ltb_spec end_date (current_time + days step)) as [Hlate|Hok].
    + apply ensures_ret. split_and!; [simpl; lia | done |].
      intros _. repeat constructor.
    + eapply ensures_bind; [apply IH|].
      intros rest (Hlen & Hrest & Hsorted). apply ensures_ret.
      split_and!; [simpl; lia | by constructor |].
      intros Hle. specialize (Hsorted Hok). specialize (Hstep Hle).
      assert (current_time <= current_time + days step) as Hnext by days_lia.
      constructor; [done|].
      apply StronglySorted_inv in Hsorted as [_ Hall].
      constructor; [done|].
      eapply Forall_impl; [exact Hall|]. intros t Ht. cbv beta in Ht. lia.
Qed.

Lemma ensures_generate_task_comments (llm : LLMGenerator)
    (users : list User.t) (end_date : Z) (comments : list Comment.t)
    (task : Task.t) :
  ensures (generate_task_comments log llm users end_date comments task)
    (fun acc' => exists block,
       acc' = comments ++ block /\ comment_block users end_date task block).
Proof.
  unfold generate_task_comments.
  eapply ensures_bind; [apply ensures_choices1|]. intros num_comments Hnum.
  assert (Z.to_nat num_comments <= 5)%nat as Hle.
  { cbv beta in Hnum.
    repeat (apply elem_of_cons in Hnum as [->|Hnum]; [lia|]).
    by apply elem_of_nil in Hnum. }
  eapply ensures_bind; [apply ensures_draw_comment_times|].
  intros comment_times (Hlen & Hend & Hsorted).
  eapply ensures_bind.
  { apply (ensures_mapM_Forall2 _
             (fun comment_time c =>
                Comment.created_at c = comment_time
                /\ Comment.task_id c = Task.task_id task
                /\ Comment.user_id c ∈ map User.user_id users)).
    intros comment_time _.
    eapply ensures_bind; [apply ensures_select_actor|].
    intros commenter Hcommenter. do 2 ensures_skip. apply ensures_ret.
    simpl. split_and!; [done | done |]. apply list_elem_of_fmap. eauto. }
  intros new Hnew. apply ensures_ret. exists new. split; [done|].
  assert (map Comment.created_at new = comment_times) as Hmap.
  { apply Forall2_fmap_eq. eapply Forall2_impl; [exact Hnew|].
    by intros t c (? & _). }
  split_and!.
  - rewrite <- (Forall2_length _ _ _ Hnew). lia.
  - eapply Forall2_Forall_r_in; [exact Hnew|].
    intros t c Ht (Hcreated & Htask & Huser). unfold comment_row.
    rewrite Hcreated. split_and!; [done | done | |].
    + exact (proj1 (Forall_forall _ _) Hend t Ht).
    + intros Hle'. specialize (Hsorted Hle').
      apply StronglySorted_inv in Hsorted as [_ Hall].
      exact (proj1 (Forall_forall _ _) Hall t Ht).
  - intros Hle'. rewrite Hmap. specialize (Hsorted Hle').
    by apply StronglySorted_inv in Hsorted as [? _].
Qed.

(** The comments come task by task, five at most for a task; each is written
    by one of the users and dated by the end date at the latest.  On a task
    created by the end date the comments are dated in ascending order, none
    before the task. *)
Theorem comments_follow_tasks (llm : LLMGenerator) (tasks : list Task.t)
    (users : list User.t) (start_date end_date : Z) (w w' : world)
    (comments : list Comment.t) :
  generate_comments log llm tasks users start_date end_date w
  = (Returns comments, w') ->
  exists blocks,
    comments = concat blocks
    /\ Forall2 (comment_block users end_date) tasks blocks.
Proof.
  revert w comments w'.
  change (ensures (generate_comments log llm tasks users start_date end_date)
            (fun acc => exists blocks,
               id acc = id [] ++ concat blocks
               /\ Forall2 (comment_block users end_date) tasks blocks)).
  unfold generate_comments. apply (ensures_foldM_blocks id).
  intros acc task _. apply ensures_generate_task_comments.
Qed.

Lemma ensures_generate_attachment (users : list User.t) (end_date : Z)
    (task : Task.t) :
  ensures (generate_attachment log users end_date task)
    (from_option (attachment_row users end_date task) True).
Proof.
  unfold generate_attachment.
  eapply ensures_bind; [by apply ensures_expovariate|].
  intros days_offset Hoffset. cbv beta in Hoffset.
  set (step := int_of_float
                 (min_float_int days_offset
                    (td_days (end_date - Task.created_at task)))).
  assert (Task.created_at task <= end_date -> 0 <= step) as Hstep.
  { intros Hle. apply capped_offset_nonneg; [done | days_lia]. }
  clearbody step.
  eapply ensures_bind; [apply ensures_add_timedelta|].
  intros uploaded_at [-> _].
  destruct (Z.ltb_spec end_date (Task.created_at task + days step))
    as [Hlate|Hok]; [by apply ensures_ret|].
  eapply ensures_bind; [apply ensures_choices1|]. intros category Hcategory.
  eapply ensures_bind; [apply ensures_choice|].
  intros [[file_name file_type] size_range] Htemplate.
  eapply ensures_bind; [apply ensures_randint|]. intros file_size Hsize.
  ensures_skip. rename a into attachment_id.
  eapply ensures_bind; [apply ensures_choice|]. intros url_pattern Hpattern.
  eapply ensures_bind; [apply ensures_select_actor|]. intros uploader Huploader.
  apply ensures_ret. simpl. unfold attachment_row. simpl. split_and!.
  - done.
  - eexists. split; [done|]. apply list_elem_of_fmap. eauto.
  - done.
  - intros Hle. specialize (Hstep Hle). days_lia.
  - exists category, size_range. split_and!; try done; cbv beta in Hsize; lia.
  - by exists url_pattern.
Qed.

Lemma omap_id_length {A} (l : list (option A)) :
  (length (omap id l) <= length l)%nat.
Proof. induction l as [|[x|] l IH]; cbn in *; lia. Qed.

Lemma omap_id_Forall {A} (P : A -> Prop) (l : list (option A)) :
  Forall (from_option P True) l -> Forall P (omap id l).
Proof.
  induction 1 as [|[x|] l Hx _ IH]; cbn; [done | by constructor | done].
Qed.

Lemma ensures_generate_task_attachments (users : list User.t) (end_date : Z)
    (attachments : list Attachment.t) (task : Task.t) :
  ensures (generate_task_attachments log users end_date attachments task)
    (fun acc' => exists block,
       acc' = attachments ++ block
       /\ attachment_block users end_date task block).
Proof.
  unfold generate_task_attachments.
  eapply ensures_bind; [apply ensures_choices1|]. intros num_attachments Hnum.
  assert (Z.to_nat num_attachments <= 4)%nat as Hle.
  { cbv beta in Hnum.
    repeat (apply elem_of_cons in Hnum as [->|Hnum]; [lia|]).
    by apply elem_of_nil in Hnum. }
  eapply ensures_bind.
  { apply ensures_and; [apply ensures_replicateM_length|].
    apply ensures_replicateM, ensures_generate_attachment. }
  intros new [Hlen Hnew]. apply ensures_ret. eexists. split; [reflexivity|].
  split.
  - pose proof (omap_id_length new). lia.
  - by apply omap_id_Forall.
Qed.

(** The attachments come task by task, four at most for a task; each is
    uploaded by one of the users, by the end date at the latest and, on a
    task created by then, not before the task; name, type and size follow a
    template of the document, image, code, spreadsheet or other category,
    never an archive. *)
Theorem attachments_follow_tasks (tasks : list Task.t) (users : list User.t)
    (start_date end_date : Z) (w w' : world)
    (attachments : list Attachment.t) :
  generate_attachments log tasks users start_date end_date w
  = (Returns attachments, w') ->
  exists blocks,
    attachments = concat blocks
    /\ Forall2 (attachment_block users end_date) tasks blocks.
Proof.
  revert w attachments w'.
  change (ensures (generate_attachments log tasks users start_date end_date)
            (fun acc => exists blocks,
               id acc = id [] ++ concat blocks
               /\ Forall2 (attachment_block users end_date) tasks blocks)).
  unfold generate_attachments. apply (ensures_foldM_blocks id).
  intros acc task _. apply ensures_generate_task_attachments.
Qed.

End DecayProperties.

Lemma tangent_log_nonpos (x : Q) :
  (0 < x)%Q -> (x <= 1)%Q -> (tangent_log x <= 0)%Q.
Proof.
  intros _ Hx. unfold tangent_log, Qle in *. simpl in *. lia.
Qed.

Lemma comments_follow_tasks_witness :
  exists comments w',
    generate_comments tangent_log (mkLLM None)
      [dated_task; late_task "a"; late_task "c"] demo_users
      (mk_datetime 2024 1 1 0 0 0) (mk_datetime 2024 7 1 0 0 0) demo_world
    = (Returns comments, w')
    /\ exists blocks,
         comments = concat blocks
         /\ Forall2 (comment_block demo_users (mk_datetime 2024 7 1 0 0 0))
              [dated_task; late_task "a"; late_task "c"] blocks.
Proof.
  eexists _, _. split; [vm_compute; reflexivity|].
  eapply (comments_follow_tasks tangent_log tangent_log_nonpos (mkLLM None)
            [dated_task; late_task "a"; late_task "c"] demo_users
            (mk_datetime 2024 1 1 0 0 0) (mk_datetime 2024 7 1 0 0 0)
            demo_world).
  vm_compute. reflexivity.
Defined.

Lemma attachments_follow_tasks_witness :
  exists attachments w',
    generate_attachments tangent_log
      [dated_task; late_task "a"; late_task "c"] demo_users
      (mk_datetime 2024 1 1 0 0 0) (mk_datetime 2024 7 1 0 0 0) demo_world
    = (Returns attachments, w')
    /\ exists blocks,
         attachments = concat blocks
         /\ Forall2 (attachment_block demo_users (mk_datetime 2024 7 1 0 0 0))
              [dated_task; late_task "a"; late_task "c"] blocks.
Proof.
  eexists _, _. split; [vm_compute; reflexivity|].
  eapply (attachments_follow_tasks tangent_log tangent_log_nonpos
            [dated_task; late_task "a"; late_task "c"] demo_users
            (mk_datetime 2024 1 1 0 0 0) (mk_datetime 2024 7 1 0 0 0)
            demo_world).
  vm_compute. reflexivity.
Defined.

(** ** From memberships to tasks *)

(** After the loop over the teams, the mapping lists for every team users
    that each have a membership row in that team. *)
Lemma ensures_memberships_recorded (teams : list Team.t) (users : list User.t)
    (team_memberships_dict : gmap string (list string)) :
  ensures (generate_team_memberships teams users team_memberships_dict)
    (fun acc' => forall team, team ∈ teams ->
       exists team_users,
         acc'.2 !! Team.team_id team = Some (map User.user_id team_users)
         /\ forall u, u ∈ team_users ->
              u ∈ users
              /\ exists m, m ∈ acc'.1
                   /\ Membership.team_id m = Team.team_id team
                   /\ Membership.user_id m = User.user_id u).
Proof.
  unfold generate_team_memberships.
  apply (ensures_foldM_each (team_memberships users)
           (fun team acc' =>
              exists team_users,
                acc'.2 !! Team.team_id team = Some (map User.user_id team_users)
                /\ forall u, u ∈ team_users ->
                     u ∈ users
                     /\ exists m, m ∈ acc'.1
                          /\ Membership.team_id m = Team.team_id team
                          /\ Membership.user_id m = User.user_id u)).
  - intros acc team other (team_users & Hlookup & Hrows).
    eapply ensures_weaken; [apply ensures_team_memberships|].
    intros acc' (new_users & block & Hsub & _ & Hblock & Hacc & Hdict).
    rewrite Hdict, Hacc.
    destruct (decide (Team.team_id team = Team.team_id other)) as [Heq|Hne].
    + exists new_users. rewrite Heq, lookup_insert_eq. split; [done|].
      intros u Hu. split; [by eapply elem_of_submseteq|].
      apply list_elem_of_lookup in Hu as [i Hi].
      destruct (Forall2_lookup_l _ _ _ _ _ Hblock Hi) as (m & Hm & Hof).
      exists m. split; [|destruct Hof as (? & ? & _); by rewrite <- Heq].
      apply elem_of_app. right. by eapply list_elem_of_lookup_2.
    + exists team_users. rewrite lookup_insert_ne by done. split; [done|].
      intros u Hu. destruct (Hrows u Hu) as (Hin & m & Hm & Hof).
      split; [done|]. exists m. split; [|done]. apply elem_of_app. by left.
  - intros acc team.
    eapply ensures_weaken; [apply ensures_team_memberships|].
    intros acc' (new_users & block & Hsub & _ & Hblock & Hacc & Hdict).
    rewrite Hdict, Hacc. exists new_users. rewrite lookup_insert_eq.
    split; [done|]. intros u Hu. split; [by eapply elem_of_submseteq|].
    apply list_elem_of_lookup in Hu as [i Hi].
    destruct (Forall2_lookup_l _ _ _ _ _ Hblock Hi) as (m & Hm & Hof).
    exists m. split; [|by destruct Hof as (? & ? & _)].
    apply elem_of_app. right. by eapply list_elem_of_lookup_2.
Qed.

(** Memberships, projects and tasks generated one after the other, as
    [main] does: whoever a task is assigned to is one of the users and has a
    membership row in the team that owns the task's project. *)
Theorem assignees_belong_to_the_team (llm : LLMGenerator)
    (teams : list Team.t) (users : list User.t)
    (count start_date end_date tasks_per_project : Z) (w w1 w2 w3 : world)
    (memberships : list Membership.t)
    (team_memberships_dict : gmap string (list string))
    (projects : list Project.t) (sections : list Section_.t)
    (tasks : list Task.t) :
  generate_team_memberships teams users ∅ w
  = (Returns (memberships, team_memberships_dict), w1) ->
  generate_projects count teams users start_date end_date w1
  = (Returns (projects, sections), w2) ->
  generate_tasks llm projects sections users team_memberships_dict
    start_date end_date tasks_per_project w2 = (Returns tasks, w3) ->
  forall t a, t ∈ tasks -> Task.assignee_id t = Some a ->
    a ∈ map User.user_id users
    /\ exists project m,
         project ∈ projects /\ m ∈ memberships
         /\ Task.project_id t = Project.project_id project
         /\ Membership.team_id m = Project.team_id project
         /\ Membership.user_id m = a.
Proof.
  intros Hmemberships Hprojects Htasks t a Ht Ha.
  apply ensures_memberships_recorded in Hmemberships. simpl in Hmemberships.
  assert (Forall (fun p => Project.team_id p ∈ map Team.team_id teams)
            projects) as Hteams.
  { assert (ensures (generate_projects count teams users start_date end_date)
              (fun acc => Forall (fun p => Project.team_id p
                                           ∈ map Team.team_id teams) acc.1))
      as Hspec.
    { unfold generate_projects. ensures_skip.
      eapply ensures_weaken.
      { apply ensures_foldM_rows_blocks. intros acc created_at _.
        apply ensures_generate_project. }
      intros [ps ss] (items & Hrows & _ & Hitems). simpl in *. subst ps.
      apply Forall_fmap. eapply Forall2_Forall_r_in; [exact Hitems|].
      intros x item _ (_ & Hrow & _).
      destruct (Hrow x (x + 1) ltac:(lia)) as (_ & Hteam & _). exact Hteam. }
    exact (Hspec _ _ _ Hprojects). }
  assert (ensures (generate_tasks llm projects sections users
                     team_memberships_dict start_date end_date
                     tasks_per_project)
            (Forall (task_row projects sections users team_memberships_dict
                       end_date))) as Hspec.
  { unfold generate_tasks. apply ensures_foldM; [|done].
    intros acc project Hproject Hacc. unfold generate_project_tasks.
    destruct (group_sections sections !! Project.project_id project)
      as [project_sections|] eqn:Hsections; simpl; [|by apply ensures_ret].
    destruct project_sections as [|section project_sections];
      [by apply ensures_ret|].
    do 3 ensures_skip.
    eapply ensures_bind.
    - apply ensures_mapM. intros created_at _. apply ensures_generate_task_row.
    - intros new Hnew. apply ensures_ret. apply Forall_app. split; [done|].
      eapply Forall_impl; [exact Hnew|].
      intros t' (Hpid & (s & Hs & Hsid) & Hparent & Hassignee & Hcreator
                 & Hpriority & Hdue & Hcompleted).
      destruct (group_sections_lookup _ _ _ _ Hsections Hs) as [Hin Hspid].
      exists project, s. split_and!; done. }
  pose proof (proj1 (Forall_forall _ _) (Hspec _ _ _ Htasks) t Ht)
    as (project & section & Hproject & _ & _ & Hpid & _ & _ & Hassignee & _).
  specialize (Hassignee a Ha).
  pose proof (proj1 (Forall_forall _ _) Hteams project Hproject) as Hteam.
  apply list_elem_of_fmap in Hteam as (team & Hid & Hteam).
  destruct (Hmemberships team Hteam) as (team_users & Hlookup & Hrows).
  rewrite Hid, Hlookup in Hassignee. simpl in Hassignee.
  apply list_elem_of_fmap in Hassignee as (u & -> & Hu).
  destruct (Hrows u Hu) as (Hin & m & Hm & Hmteam & Hmuser).
  split; [apply list_elem_of_fmap; eauto|].
  exists project, m. split_and!; try done. by rewrite Hid.
Qed.

Lemma assignees_belong_to_the_team_witness :
  exists memberships team_memberships_dict projects sections tasks w1 w2 w3,
    generate_team_memberships demo_teams demo_users ∅ entropy_world
    = (Returns (memberships, team_memberships_dict), w1)
    /\ generate_projects 2 demo_teams demo_users (mk_datetime 2024 1 1 0 0 0)
         (mk_datetime 2024 7 1 0 0 0) w1
       = (Returns (projects, sections), w2)
    /\ generate_tasks (mkLLM None) projects sections demo_users
         team_memberships_dict (mk_datetime 2024 1 1 0 0 0)
         (mk_datetime 2024 7 1 0 0 0) 3 w2
       = (Returns tasks, w3)
    /\ forall t a, t ∈ tasks -> Task.assignee_id t = Some a ->
         a ∈ map User.user_id demo_users
         /\ exists project m,
              project ∈ projects /\ m ∈ memberships
              /\ Task.project_id t = Project.project_id project
              /\ Membership.team_id m = Project.team_id project
              /\ Membership.user_id m = a.
Proof.
  eexists _, _, _, _, _, _, _, _.
  split; [vm_compute; reflexivity|]. split; [vm_compute; reflexivity|].
  split; [vm_compute; reflexivity|].
  eapply (assignees_belong_to_the_team (mkLLM None) demo_teams demo_users 2
            (mk_datetime 2024 1 1 0 0 0) (mk_datetime 2024 7 1 0 0 0) 3
            entropy_world);
    [vm_compute; reflexivity | vm_compute; reflexivity
     | vm_compute; reflexivity].
Defined.

(** ** Subtasks, parent by parent *)

Lemma ensures_subtask_inherits (parent_task : Task.t) (parent_created : Z) :
  ensures (generate_subtask parent_task parent_created)
    (fun s => Task.section_id s = Task.section_id parent_task
              /\ Task.assignee_id s = Task.assignee_id parent_task
              /\ Task.created_by s = Task.created_by parent_task
              /\ Task.due_date s = Task.due_date parent_task
              /\ Task.priority s = Task.priority parent_task).
Proof.
  unfold generate_subtask. do 5 ensures_skip.
  destruct (if Task.completed parent_task then _ else _).
  - do 2 ensures_skip. by apply ensures_ret.
  - by apply ensures_ret.
Qed.

(** The parents are tasks taken at distinct positions of the task list, as
    many as the ratio asks for: the float product of the number of tasks and
    the ratio, cut to an integer, and all the tasks at most.  Each parent
    gets two to five subtasks, which take over its section, assignee,
    creator, due date and priority. *)
Theorem subtasks_per_parent (tasks : list Task.t) (users : list User.t)
    (subtask_ratio : Q) (w w' : world) (subtasks : list Task.t) :
  generate_subtasks tasks users subtask_ratio w = (Returns subtasks, w') ->
  exists parents blocks,
    parents ⊆+ tasks
    /\ Z.of_nat (length parents)
       = Z.min
           (int_of_float
              (b64 (b64 (inject_Z (Z.of_nat (length tasks))) * subtask_ratio)))
           (Z.of_nat (length tasks))
    /\ subtasks = concat blocks
    /\ Forall2 subtask_block parents blocks.
Proof.
  revert w subtasks w'.
  change (ensures (generate_subtasks tasks users subtask_ratio)
            (fun subtasks => exists parents blocks,
               parents ⊆+ tasks
               /\ Z.of_nat (length parents)
                  = Z.min
                      (int_of_float
                         (b64 (b64 (inject_Z (Z.of_nat (length tasks)))
                               * subtask_ratio)))
                      (Z.of_nat (length tasks))
               /\ subtasks = concat blocks
               /\ Forall2 subtask_block parents blocks)).
  unfold generate_subtasks.
  eapply ensures_bind; [apply ensures_sample_submseteq|].
  intros parents [Hsub Hlen].
  eapply ensures_weaken.
  - apply (ensures_foldM_blocks id _ subtask_block).
    intros acc parent _. unfold generate_parent_subtasks.
    eapply ensures_bind; [apply ensures_randint|]. intros num Hnum.
    cbv beta in Hnum.
    eapply ensures_bind.
    { apply ensures_and; [apply ensures_replicateM_length|].
      apply ensures_replicateM, ensures_and;
        [apply ensures_subtask_of | apply ensures_subtask_inherits]. }
    intros new [Hnew Hall]. apply ensures_ret. exists new. split; [done|].
    split; [lia | exact Hall].
  - intros subtasks (blocks & Hsubtasks & Hblocks). by exists parents, blocks.
Qed.

Lemma subtasks_per_parent_witness :
  exists subtasks w',
    generate_subtasks
      [late_task "a"; late_task "b"; late_task "c"; late_task "d"; late_task "e"]
      [] (b64 0.50) (mkWorld [3; 0; 0; 5; 0; 6; 1; 2; 4; 0; 3] [] [] [])
    = (Returns subtasks, w')
    /\ exists parents blocks,
         parents ⊆+ [late_task "a"; late_task "b"; late_task "c";
                      late_task "d"; late_task "e"]
         /\ Z.of_nat (length parents)
            = Z.min
                (int_of_float (b64 (b64 (inject_Z (Z.of_nat 5)) * b64 0.50)))
                (Z.of_nat 5)
         /\ subtasks = concat blocks
         /\ Forall2 subtask_block parents blocks.
Proof.
  eexists _, _. split; [vm_compute; reflexivity|].
  eapply (subtasks_per_parent
            [late_task "a"; late_task "b"; late_task "c"; late_task "d";
             late_task "e"] [] (b64 0.50)
            (mkWorld [3; 0; 0; 5; 0; 6; 1; 2; 4; 0; 3] [] [] [])).
  vm_compute. reflexivity.
Defined.

(** The product is a float: of ninety tasks at a ratio of 0.7, sixty-two
    are parents, where the exact product is sixty-three. *)
Example parent_count_is_a_float_product :
  int_of_float (b64 (b64 (inject_Z 90) * b64 0.7)) = 62
  /\ int_of_float (inject_Z 90 * 0.7) = 63.
Proof. split; reflexivity. Qed.

(** ** Text generation *)

Lemma ret_returns {S A} (a : A) (s : S) :
  exists a' s', ret a s = (Returns a', s').
Proof. by eexists _, _. Qed.

Lemma fallback_task_name_returns (project_type : string) (w : world) :
  exists name w', fallback_task_name project_type w = (Returns name, w').
Proof.
  unfold fallback_task_name. apply choice_returns. repeat case_decide; done.
Qed.

Lemma generate_task_name_returns (llm : LLMGenerator) (project_type : string)
    (w : world) :
  exists name w', generate_task_name llm project_type w = (Returns name, w').
Proof.
  unfold generate_task_name.
  destruct (client llm) as [ask|]; [|apply fallback_task_name_returns].
  destruct (ask _); [apply ret_returns | apply fallback_task_name_returns].
Qed.

Lemma generate_task_description_returns (llm : LLMGenerator)
    (task_name project_type : string) (w : world) :
  exists description w',
    generate_task_description llm task_name project_type w
    = (Returns description, w').
Proof.
  unfold generate_task_description.
  destruct (random_returns w) as (rand & w1 & Hrand).
  rewrite (bind_returns _ _ _ _ _ Hrand).
  destruct (Qltb rand 0.20); [apply ret_returns|].
  destruct (client llm) as [ask|]; [|apply ret_returns].
  cbv zeta. destruct (ask _); apply ret_returns.
Qed.

(** Text generation never stops a run: with the client absent, answering or
    failing, a task name, a task description and a comment are returned;
    and without an answer the name and the comment come from the built-in
    lists. *)
Theorem text_generation_falls_back (llm : LLMGenerator)
    (task_name project_type : string) (w : world) :
  (exists name w', generate_task_name llm project_type w = (Returns name, w'))
  /\ (exists description w',
        generate_task_description llm task_name project_type w
        = (Returns description, w'))
  /\ (exists text w',
        generate_comment llm task_name project_type w = (Returns text, w'))
  /\ (silent llm ->
      (forall name w',
         generate_task_name llm project_type w = (Returns name, w') ->
         fallback_task_name project_type w = (Returns name, w'))
      /\ (forall text w',
            generate_comment llm task_name project_type w = (Returns text, w') ->
            text ∈ ["Looks good! Starting on this now."; "Any updates on this?";
                    "I've run into a blocker - can we sync?";
                    "This is done and ready for review.";
                    "Found a related issue, linking it here.";
                    "Can we prioritize this?"; "Great progress so far!"])).
Proof.
  assert (forall w0, exists text w', fallback_comment w0 = (Returns text, w'))
    as Hcomment.
  { intros w0. by apply choice_returns. }
  split_and!.
  - apply generate_task_name_returns.
  - apply generate_task_description_returns.
  - unfold generate_comment. destruct (client llm) as [ask|]; [|apply Hcomment].
    match goal with
    | |- context [bind (choice ?l) _] =>
        destruct (choice_returns l w) as (comment_type & w1 & Htype); [done|]
    end.
    rewrite (bind_returns _ _ _ _ _ Htype). cbv zeta.
    destruct (ask _); [apply ret_returns | apply Hcomment].
  - intros Hsilent. unfold silent in Hsilent. split.
    + intros name w'. unfold generate_task_name.
      destruct (client llm) as [ask|]; [|done]. simpl in Hsilent.
      by rewrite Hsilent.
    + intros text w' Hrun. revert Hrun. revert w text w'.
      change (ensures (generate_comment llm task_name project_type)
                (fun text => text ∈ ["Looks good! Starting on this now.";
                                     "Any updates on this?";
                                     "I've run into a blocker - can we sync?";
                                     "This is done and ready for review.";
                                     "Found a related issue, linking it here.";
                                     "Can we prioritize this?";
                                     "Great progress so far!"])).
      unfold generate_comment, fallback_comment.
      destruct (client llm) as [ask|]; simpl in Hsilent.
      * apply ensures_bind_any. intros comment_type. rewrite Hsilent.
        apply ensures_choice.
      * apply ensures_choice.
Qed.

(** ** Company names *)

Lemma FALLBACK_COMPANIES_NoDup : NoDup FALLBACK_COMPANIES.
Proof. apply (bool_decide_unpack _). vm_compute. exact I. Qed.

(** [get_company_names] returns only for a count that is not negative, and
    then returns that many names: up to fifteen, pairwise distinct names of
    the built-in list; beyond, the whole list in its order followed by
    made-up names, each a prefix and a suffix of the two lists of seven. *)
Theorem company_names_count (count : Z) (w w' : world) (names : list string) :
  get_company_names count w = (Returns names, w') ->
  0 <= count
  /\ length names = Z.to_nat count
  /\ (count <= 15 -> names ⊆+ FALLBACK_COMPANIES /\ NoDup names)
  /\ (15 < count ->
      exists generated,
        names = FALLBACK_COMPANIES ++ generated
        /\ length generated = Z.to_nat (count - 15)
        /\ Forall made_up_name generated).
Proof.
  revert w names w'.
  change (ensures (get_company_names count)
            (fun names =>
               0 <= count
               /\ length names = Z.to_nat count
               /\ (count <= 15 -> names ⊆+ FALLBACK_COMPANIES /\ NoDup names)
               /\ (15 < count ->
                   exists generated,
                     names = FALLBACK_COMPANIES ++ generated
                     /\ length generated = Z.to_nat (count - 15)
                     /\ Forall made_up_name generated))).
  unfold get_company_names.
  change (Z.of_nat (length FALLBACK_COMPANIES)) with 15.
  destruct (Z.leb_spec count 15) as [Hle|Hgt].
  - eapply ensures_weaken; [apply ensures_sample_submseteq|].
    intros names [Hsub Hlen]. split_and!; [lia | lia | | lia].
    intros _. split; [done|].
    eapply submseteq_NoDup; [exact Hsub | apply FALLBACK_COMPANIES_NoDup].
  - eapply ensures_bind.
    { apply ensures_and; [apply ensures_replicateM_length|].
      apply (ensures_replicateM _ made_up_name).
      eapply ensures_bind; [apply ensures_choice|]. intros prefix Hprefix.
      eapply ensures_bind; [apply ensures_choice|]. intros suffix Hsuffix.
      apply ensures_ret. by exists prefix, suffix. }
    intros generated [Hlen Hall]. apply ensures_ret.
    rewrite take_ge
      by (rewrite length_app, Hlen;
          change (length FALLBACK_COMPANIES) with 15%nat; lia).
    split_and!; [lia | | lia |].
    + rewrite length_app, Hlen.
      change (length FALLBACK_COMPANIES) with 15%nat. lia.
    + intros _. by exists generated.
Qed.

Lemma company_names_count_witness :
  exists names w',
    get_company_names 17 demo_world = (Returns names, w')
    /\ 0 <= 17
    /\ length names = Z.to_nat 17
    /\ (17 <= 15 -> names ⊆+ FALLBACK_COMPANIES /\ NoDup names)
    /\ (15 < 17 ->
        exists generated,
          names = FALLBACK_COMPANIES ++ generated
          /\ length generated = Z.to_nat (17 - 15)
          /\ Forall made_up_name generated).
Proof.
  eexists _, _. split; [vm_compute; reflexivity|].
  eapply (company_names_count 17 demo_world). vm_compute. reflexivity.
Defined.

(** ** More sections than weights *)

(** The section of a task is drawn with four weights.  When a project comes
    with more than four sections, the weights no longer match the sections
    and the first task of the project stops the run with [ValueError]. *)
Theorem five_sections_abort (llm : LLMGenerator) (users : list User.t)
    (end_date : Z) (project_id project_type : string)
    (project_sections : list Section_.t) (team_members : list string)
    (completion_rate : Q) (created_at : Z) (w : world) :
  (4 < length project_sections)%nat ->
  exists w',
    generate_task llm users end_date project_id project_type project_sections
      team_members completion_rate created_at w
    = (Raises ValueError, w').
Proof.
  intros Hmany. unfold generate_task.
  destruct (generate_task_name_returns llm project_type w)
    as (task_name & w1 & Hname).
  rewrite (bind_returns _ _ _ _ _ Hname).
  destruct (generate_task_description_returns llm task_name project_type w1)
    as (description & w2 & Hdescription).
  rewrite (bind_returns _ _ _ _ _ Hdescription). cbv zeta.
  exists w2. apply bind_raises.
  destruct (Nat.leb_spec (length [0.35; 0.40; 0.15; 0.10]%Q)
              (length project_sections)) as [_|Hlt]; [|simpl in Hlt; lia].
  apply bind_raises. unfold choices1.
  rewrite accumulate_length, length_take.
  change (length [0.35; 0.40; 0.15; 0.10]%Q) with 4%nat.
  destruct (Nat.eqb_spec (length project_sections `min` 4)
              (length project_sections)) as [Heq|_]; [lia | done].
Qed.

Lemma five_sections_abort_witness :
  exists w',
    generate_task (mkLLM None) demo_users (mk_datetime 2024 7 1 0 0 0) "p1"
      "engineering"
      (sections_of "p1" (mk_datetime 2024 3 4 0 0 0)
       ++ [Section_.mk "p1-s4" "p1" "Blocked" 4 (mk_datetime 2024 3 4 0 0 0)])
      ["u1"; "u4"] 0.7%Q (mk_datetime 2024 3 5 0 0 0) demo_world
    = (Raises ValueError, w').
Proof.
  apply (five_sections_abort (mkLLM None) demo_users
           (mk_datetime 2024 7 1 0 0 0) "p1" "engineering"
           (sections_of "p1" (mk_datetime 2024 3 4 0 0 0)
            ++ [Section_.mk "p1-s4" "p1" "Blocked" 4
                  (mk_datetime 2024 3 4 0 0 0)])
           ["u1"; "u4"] 0.7%Q (mk_datetime 2024 3 5 0 0 0) demo_world).
  vm_compute. reflexivity.
Defined.

